(** * linky_month: axis generation and JSON export of Enedis consumption data

  A shallow embedding of [linky_month.py] together with the parts of the
  Python runtime it calls ([datetime], [dateutil.relativedelta],
  [calendar], [json], [open], [int]), and the properties of the export
  pipeline proved over that embedding. *)

From Stdlib Require Import ZArith List String Ascii Bool Lia SpecFloat.
From stdpp Require Import base option list gmap strings.

Local Open Scope Z_scope.

(** ** Python values, exceptions and the builtins the script relies on *)
Module Py.

(** The exception classes that can be raised along the modelled paths.
    All of them derive from [Exception]. *)
Inductive exn : Type :=
| KeyError
| IndexError
| TypeError
| ValueError
| OverflowError
| OSError
| LinkyLoginException
| LinkyServiceException.

Inductive result (A : Type) : Type :=
| OK (a : A)
| Raise (e : exn).
Arguments OK {A} a.
Arguments Raise {A} e.

Definition bind {A B} (k : A -> result B) (r : result A) : result B :=
  match r with
  | OK a => k a
  | Raise e => Raise e
  end.

#[global] Instance result_ret : MRet result := @OK.
#[global] Instance result_bind : MBind result := @bind.

Definition is_ok {A} (r : result A) : bool :=
  match r with OK _ => true | Raise _ => false end.

Definition to_option {A} (r : result A) : option A :=
  match r with OK a => Some a | Raise _ => None end.

(** A decoded JSON document, as [json.loads] builds it: dictionaries keep
    their insertion order and are keyed by strings.  A float is an IEEE
    binary64 datum. *)
#[warnings="-register-all"] Inductive value : Type :=
| PyNone
| PyBool (b : bool)
| PyInt (z : Z)
| PyFloat (f : spec_float)
| PyStr (s : string)
| PyList (l : list value)
| PyDict (kv : list (string * value)).

Fixpoint assoc (k : string) (kv : list (string * value)) : option value :=
  match kv with
  | [] => None
  | (k', v) :: kv' => if String.eqb k k' then Some v else assoc k kv'
  end.

(** [obj[key]] for a string key: only a dictionary can be subscripted by a
    string; a missing key is a [KeyError]. *)
Definition getitem (obj : value) (key : string) : result value :=
  match obj with
  | PyDict kv =>
      match assoc key kv with
      | Some v => OK v
      | None => Raise KeyError
      end
  | _ => Raise TypeError
  end.

Fixpoint chars (s : string) : list value :=
  match s with
  | EmptyString => []
  | String c s' => PyStr (String c EmptyString) :: chars s'
  end.

(** The items a [for] loop (or [enumerate]) draws from an object: the
    elements of a list, the keys of a dictionary, the characters of a
    string; the other values are not iterable. *)
Definition iter (obj : value) : result (list value) :=
  match obj with
  | PyList l => OK l
  | PyDict kv => OK (map (fun p => PyStr (fst p)) kv)
  | PyStr s => OK (chars s)
  | _ => Raise TypeError
  end.

Definition float_zero : spec_float := S754_zero false.

(** [v < 0] against the integer literal [0]. *)
Definition lt_zero (v : value) : result bool :=
  match v with
  | PyInt z => OK (z <? 0)
  | PyBool _ => OK false
  | PyFloat f => OK (SFltb f float_zero)
  | _ => Raise TypeError
  end.

(** [v >= 0] against the integer literal [0]. *)
Definition ge_zero (v : value) : result bool :=
  match v with
  | PyInt z => OK (0 <=? z)
  | PyBool _ => OK true
  | PyFloat f => OK (SFleb float_zero f)
  | _ => Raise TypeError
  end.

(** [l.insert(i, x)] for [i >= 0]: [x] goes before position [i], or at the
    end when the list is shorter. *)
Definition list_insert {A} (i : nat) (x : A) (l : list A) : list A :=
  take i l ++ x :: drop i l.

(** [l[i]] for [i >= 0]. *)
Definition list_getitem {A} (l : list A) (i : nat) : result A :=
  match l !! i with
  | Some x => OK x
  | None => Raise IndexError
  end.

End Py.

Export Py.

(** ** Numbers that are multiples of one half

    The script multiplies integers by the increments [1] and [0.5], and
    [dateutil] divides such numbers by integers: every number met on the way
    is [k / 2] for an integer [k] (an [int], or a [float] that represents it
    exactly), and is stored as that [k]. *)
Module Half.

Definition t := Z.

Definition of_int (z : Z) : t := 2 * z.

(** [x == int(x)] *)
Definition is_integral (x : t) : bool := Z.even x.

(** [int(x)] for an integral [x] *)
Definition to_int (x : t) : Z := x / 2.

End Half.

(** ** datetime *)
Module Datetime.

Definition MINYEAR : Z := 1.
Definition MAXYEAR : Z := 9999.
Definition _MAXORDINAL : Z := 3652059.

Definition _DAYS_IN_MONTH : list Z :=
  [-1; 31; 28; 31; 30; 31; 30; 31; 31; 30; 31; 30; 31].

Definition _DAYS_BEFORE_MONTH : list Z :=
  [-1; 0; 31; 59; 90; 120; 151; 181; 212; 243; 273; 304; 334].

(** [table[i]] on the two month tables, which are only read at [0..12]. *)
Definition table_get (table : list Z) (i : Z) : Z :=
  default 0 (table !! Z.to_nat i).

Definition _is_leap (year : Z) : bool :=
  (year mod 4 =? 0) && (negb (year mod 100 =? 0) || (year mod 400 =? 0)).

Definition _days_before_year (year : Z) : Z :=
  let y := year - 1 in
  y * 365 + y / 4 - y / 100 + y / 400.

Definition _days_in_month (year month : Z) : Z :=
  if (month =? 2) && _is_leap year then 29 else table_get _DAYS_IN_MONTH month.

Definition _days_before_month (year month : Z) : Z :=
  table_get _DAYS_BEFORE_MONTH month
  + (if (2 <? month) && _is_leap year then 1 else 0).

Definition _ymd2ord (year month day : Z) : Z :=
  _days_before_year year + _days_before_month year month + day.

Definition _DI400Y : Z := 146097.
Definition _DI100Y : Z := 36524.
Definition _DI4Y : Z := 1461.

Definition _ord2ymd (n : Z) : Z * Z * Z :=
  let n := n - 1 in
  let n400 := n / _DI400Y in
  let n := n mod _DI400Y in
  let year := n400 * 400 + 1 in
  let n100 := n / _DI100Y in
  let n := n mod _DI100Y in
  let n4 := n / _DI4Y in
  let n := n mod _DI4Y in
  let n1 := n / 365 in
  let n := n mod 365 in
  let year := year + (n100 * 100 + n4 * 4 + n1) in
  if (n1 =? 4) || (n100 =? 4) then (year - 1, 12, 31)
  else
    let leapyear := (n1 =? 3) && (negb (n4 =? 24) || (n100 =? 3)) in
    let month := Z.shiftr (n + 50) 5 in
    let preceding :=
      table_get _DAYS_BEFORE_MONTH month
      + (if (2 <? month) && leapyear then 1 else 0) in
    let '(month, preceding) :=
      if n <? preceding
      then (month - 1,
            preceding - (table_get _DAYS_IN_MONTH (month - 1)
                         + (if (month - 1 =? 2) && leapyear then 1 else 0)))
      else (month, preceding) in
    (year, month, n - preceding + 1).

Record date : Type := mkdate { year : Z; month : Z; day : Z }.

(** The time of day of a [datetime]; the script only ever moves by whole
    half hours from midnight, microseconds stay [0] and are left out. *)
Record time : Type := mktime { hour : Z; minute : Z; second : Z }.

(** An object of class [date] or of its subclass [datetime]. *)
Inductive dateobj : Type :=
| ADate (d : date)
| ADatetime (d : date) (t : time).

Definition date_of (o : dateobj) : date :=
  match o with ADate d | ADatetime d _ => d end.

(** [_check_date_fields] *)
Definition _check_date_fields (y m d : Z) : result date :=
  if negb ((MINYEAR <=? y) && (y <=? MAXYEAR)) then Raise ValueError
  else if negb ((1 <=? m) && (m <=? 12)) then Raise ValueError
  else if negb ((1 <=? d) && (d <=? _days_in_month y m)) then Raise ValueError
  else OK (mkdate y m d).

Definition toordinal (d : date) : Z := _ymd2ord (year d) (month d) (day d).

Definition fromordinal (n : Z) : date :=
  let '(y, m, d) := _ord2ymd n in mkdate y m d.

(** A C [int]: [replace] takes its arguments as such, and an integer that
    does not fit is an [OverflowError]. *)
Definition fits_c_int (z : Z) : bool := (- 2147483648 <=? z) && (z <=? 2147483647).

(** [o.replace(year=y, month=m, day=d)] *)
Definition replace (o : dateobj) (y m d : Z) : result dateobj :=
  if negb (fits_c_int y && fits_c_int m && fits_c_int d) then Raise OverflowError
  else
    d' ← _check_date_fields y m d;
    match o with
    | ADate _ => OK (ADate d')
    | ADatetime _ t => OK (ADatetime d' t)
    end.

(** A normalized [timedelta]: [0 <= seconds < 86400]. *)
Record timedelta : Type := mktimedelta { td_days : Z; td_seconds : Z }.

(** [timedelta(days=days, hours=hours)] *)
Definition timedelta_new (days hours : Half.t) : result timedelta :=
  let s := days * 43200 + hours * 1800 in
  let d := s / 86400 in
  if negb ((-999999999 <=? d) && (d <=? 999999999)) then Raise OverflowError
  else OK (mktimedelta d (s mod 86400)).

(** [o + delta]: a [date] moves by the whole days of [delta] only, a
    [datetime] by all of it; a result outside [date.min .. date.max] is an
    [OverflowError]. *)
Definition add_timedelta (o : dateobj) (delta : timedelta) : result dateobj :=
  match o with
  | ADate d =>
      let n := toordinal d + td_days delta in
      if (0 <? n) && (n <=? _MAXORDINAL) then OK (ADate (fromordinal n))
      else Raise OverflowError
  | ADatetime d t =>
      let s := hour t * 3600 + minute t * 60 + second t + td_seconds delta in
      let n := toordinal d + td_days delta + s / 86400 in
      let s := s mod 86400 in
      if (0 <? n) && (n <=? _MAXORDINAL)
      then OK (ADatetime (fromordinal n)
                         (mktime (s / 3600) ((s mod 3600) / 60) ((s mod 3600) mod 60)))
      else Raise OverflowError
  end.

(** [datetime.fromordinal(d.toordinal())]: the same day at midnight. *)
Definition to_datetime (o : dateobj) : dateobj :=
  match o with
  | ADate d => ADatetime (fromordinal (toordinal d)) (mktime 0 0 0)
  | ADatetime _ _ => o
  end.

End Datetime.

(** ** calendar *)
Module Calendar.

Definition mdays : list Z := [0; 31; 28; 31; 30; 31; 30; 31; 31; 30; 31; 30; 31].

Definition isleap (year : Z) : bool :=
  (year mod 4 =? 0) && (negb (year mod 100 =? 0) || (year mod 400 =? 0)).

(** The second component of [monthrange(year, month)]: the number of days
    of the month.  (The first one, the weekday of the first day, is computed
    for every year and is not used.) *)
Definition monthrange_ndays (year month : Z) : result Z :=
  if negb ((1 <=? month) && (month <=? 12)) then Raise ValueError
  else OK (Datetime.table_get mdays month
           + (if (month =? 2) && isleap year then 1 else 0)).

End Calendar.

(** ** dateutil.relativedelta *)
Module Relativedelta.

Import Datetime.

(** The relative fields the script sets.  [years] and [months] are integers
    once constructed; [days] and [hours] are kept as given. *)
Record relativedelta : Type :=
  mkrd { years : Z; months : Z; days : Half.t; hours : Half.t }.

Definition _sign (x : Z) : Z := if x <? 0 then -1 else 1.

(** [_fix]: carry hours over 23 into days and months over 11 into years
    (magnitudes are split, signs restored), minutes and seconds being [0]. *)
Definition _fix (r : relativedelta) : relativedelta :=
  let r :=
    if 2 * 23 <? Z.abs (hours r) then
      let s := _sign (hours r) in
      let div := (hours r * s) / (2 * 24) in
      let mod_ := (hours r * s) mod (2 * 24) in
      mkrd (years r) (months r) (days r + Half.of_int (div * s)) (mod_ * s)
    else r in
  if 11 <? Z.abs (months r) then
    let s := _sign (months r) in
    let div := (months r * s) / 12 in
    let mod_ := (months r * s) mod 12 in
    mkrd (years r + div * s) (mod_ * s) (days r) (hours r)
  else r.

Definition _has_time (r : relativedelta) : bool := negb (hours r =? 0).

(** [relativedelta(years=.., months=.., days=.., hours=..)]: non-integer
    years or months are refused. *)
Definition relativedelta_new (years months days hours : Half.t)
  : result relativedelta :=
  if negb (Half.is_integral years && Half.is_integral months)
  then Raise ValueError
  else OK (_fix (mkrd (Half.to_int years) (Half.to_int months) days hours)).

(** [-r] *)
Definition neg (r : relativedelta) : result relativedelta :=
  relativedelta_new (Half.of_int (- years r)) (Half.of_int (- months r))
                    (- days r) (- hours r).

(** [other + r] ([__radd__], that is [__add__]) *)
Definition radd (r : relativedelta) (other : dateobj) : result dateobj :=
  let other := if _has_time r then to_datetime other else other in
  let year := year (date_of other) + years r in
  let month := month (date_of other) in
  let '(year, month) :=
    if negb (months r =? 0) then
      let month := month + months r in
      if 12 <? month then (year + 1, month - 12)
      else if month <? 1 then (year - 1, month + 12)
      else (year, month)
    else (year, month) in
  ndays ← Calendar.monthrange_ndays year month;
  let day := Z.min ndays (day (date_of other)) in
  replaced ← replace other year month day;
  delta ← timedelta_new (days r) (hours r);
  add_timedelta replaced delta.

(** [other - r] ([__rsub__]) *)
Definition rsub (r : relativedelta) (other : dateobj) : result dateobj :=
  r' ← neg r;
  radd r' other.

End Relativedelta.

(** ** Text: decimal digits, [int(str)], [strptime], [strftime] *)
Module Text.

Import Datetime.

Definition is_digit (c : ascii) : bool :=
  let n := nat_of_ascii c in ((48 <=? n) && (n <=? 57))%nat.

Definition digit_val (c : ascii) : Z := Z.of_nat (nat_of_ascii c) - 48.

Definition digit_char (z : Z) : ascii := ascii_of_nat (Z.to_nat (48 + z mod 10)).

(** [c] is one of the digits [lo] .. [hi] *)
Definition digit_in (lo hi : Z) (c : ascii) : bool :=
  is_digit c && (lo <=? digit_val c) && (digit_val c <=? hi).

(** ["%02d" % z] and ["%04d" % z] for [0 <= z] below 100, resp. 10000 *)
Definition two_digits (z : Z) : string :=
  String (digit_char (z / 10)) (String (digit_char z) EmptyString).

Definition four_digits (z : Z) : string :=
  String (digit_char (z / 1000)) (String (digit_char (z / 100))
    (String (digit_char (z / 10)) (String (digit_char z) EmptyString))).

(** ["%d" % z] for [0 <= z] below 10000: the digits without padding *)
Definition decimal (z : Z) : string :=
  if z <? 10 then String (digit_char z) EmptyString
  else if z <? 100 then two_digits z
  else if z <? 1000 then String (digit_char (z / 100)) (two_digits z)
  else four_digits z.

(** A format string split into literal characters and [%x] directives. *)
Inductive item : Type :=
| Lit (c : ascii)
| Dir (c : ascii).

Fixpoint items (format : string) : list item :=
  match format with
  | EmptyString => []
  | String "%" (String c rest) => Dir c :: items rest
  | String c rest => Lit c :: items rest
  end.

(** *** strptime

    [_strptime] turns the format into a regular expression and matches it
    at the start of the text, backtracking over the alternatives of every
    directive in the order they are written.  A matcher returns its possible
    matches in that order, each with the text left over. *)

(** [%d]: [3[0-1]|[1-2]\d|0[1-9]|[1-9]| [1-9]] *)
Definition re_d (s : string) : list (Z * string) :=
  match s with
  | String a (String b rest) =>
      (if Ascii.eqb a "3" && digit_in 0 1 b then [(30 + digit_val b, rest)] else [])
      ++ (if digit_in 1 2 a && is_digit b
          then [(10 * digit_val a + digit_val b, rest)] else [])
      ++ (if Ascii.eqb a "0" && digit_in 1 9 b then [(digit_val b, rest)] else [])
      ++ (if digit_in 1 9 a then [(digit_val a, String b rest)] else [])
      ++ (if Ascii.eqb a " " && digit_in 1 9 b then [(digit_val b, rest)] else [])
  | String a EmptyString =>
      if digit_in 1 9 a then [(digit_val a, EmptyString)] else []
  | EmptyString => []
  end.

(** [%m]: [1[0-2]|0[1-9]|[1-9]] *)
Definition re_m (s : string) : list (Z * string) :=
  match s with
  | String a (String b rest) =>
      (if Ascii.eqb a "1" && digit_in 0 2 b then [(10 + digit_val b, rest)] else [])
      ++ (if Ascii.eqb a "0" && digit_in 1 9 b then [(digit_val b, rest)] else [])
      ++ (if digit_in 1 9 a then [(digit_val a, String b rest)] else [])
  | String a EmptyString =>
      if digit_in 1 9 a then [(digit_val a, EmptyString)] else []
  | EmptyString => []
  end.

(** [%Y]: [\d\d\d\d] *)
Definition re_Y (s : string) : list (Z * string) :=
  match s with
  | String a (String b (String c (String d rest))) =>
      if is_digit a && is_digit b && is_digit c && is_digit d
      then [(1000 * digit_val a + 100 * digit_val b + 10 * digit_val c
             + digit_val d, rest)]
      else []
  | _ => []
  end.

(** The fields found so far: year, month, day. *)
Record found : Type := mkfound { f_year : option Z; f_month : Z; f_day : Z }.

(** All the ways the items match a prefix of [s], in backtracking order;
    [None] when the format holds a directive other than [%d], [%m], [%Y]
    (the only ones the script parses with). *)
Fixpoint re_match (fmt : list item) (acc : found) (s : string)
  : option (list (found * string)) :=
  match fmt with
  | [] => Some [(acc, s)]
  | Lit c :: fmt' =>
      match s with
      | String c' rest => if Ascii.eqb c c' then re_match fmt' acc rest else Some []
      | EmptyString => Some []
      end
  | Dir c :: fmt' =>
      let alt (re : string -> list (Z * string)) (set : Z -> found) :=
        foldr (fun '(v, rest) tl =>
                 r ← re_match fmt' (set v) rest;
                 tl' ← tl;
                 Some (r ++ tl'))
              (Some []) (re s) in
      if Ascii.eqb c "d" then alt re_d (fun v => mkfound (f_year acc) (f_month acc) v)
      else if Ascii.eqb c "m" then alt re_m (fun v => mkfound (f_year acc) v (f_day acc))
      else if Ascii.eqb c "Y" then alt re_Y (fun v => mkfound (Some v) (f_month acc) (f_day acc))
      else None
  end.

(** [datetime.datetime.strptime(data_string, format)] *)
Definition strptime (data_string : value) (format : string) : result dateobj :=
  match data_string with
  | PyStr s =>
      match re_match (items format) (mkfound None 1 1) s with
      | None => Raise ValueError
      | Some [] => Raise ValueError
      | Some ((f, rest) :: _) =>
          if negb (String.eqb rest EmptyString) then Raise ValueError
          else
            let year :=
              match f_year f with
              | Some y => y
              | None => if (f_month f =? 2) && (f_day f =? 29) then 1904 else 1900
              end in
            d ← _check_date_fields year (f_month f) (f_day f);
            OK (ADatetime d (mktime 0 0 0))
      end
  | _ => Raise TypeError
  end.

(** [o.date()] *)
Definition date_method (o : dateobj) : dateobj := ADate (date_of o).

(** *** strftime, in the C locale *)

Definition month_abbr : list string :=
  [EmptyString; "Jan"; "Feb"; "Mar"; "Apr"; "May"; "Jun";
   "Jul"; "Aug"; "Sep"; "Oct"; "Nov"; "Dec"]%string.

Definition time_of (o : dateobj) : time :=
  match o with
  | ADate _ => mktime 0 0 0
  | ADatetime _ t => t
  end.

(** [o.strftime(format)] for the directives the script prints with; another
    directive is copied as it stands.  The C library does the writing:
    [%d], [%m], [%H] and [%M] are padded to two digits, [%Y] is the year as
    a plain decimal number, with fewer than four digits before the year
    1000 (the year 999 is written [999]). *)
Fixpoint strftime_items (o : dateobj) (fmt : list item) : string :=
  match fmt with
  | [] => EmptyString
  | Lit c :: fmt' => String c (strftime_items o fmt')
  | Dir c :: fmt' =>
      (if Ascii.eqb c "d" then two_digits (day (date_of o))
       else if Ascii.eqb c "m" then two_digits (month (date_of o))
       else if Ascii.eqb c "Y" then decimal (year (date_of o))
       else if Ascii.eqb c "b"
            then default EmptyString (month_abbr !! Z.to_nat (month (date_of o)))
       else if Ascii.eqb c "H" then two_digits (hour (time_of o))
       else if Ascii.eqb c "M" then two_digits (minute (time_of o))
       else String "%" (String c EmptyString))
      ++ strftime_items o fmt'
  end%string.

Definition strftime (o : dateobj) (format : string) : string :=
  strftime_items o (items format).

End Text.

(** ** int(str), json.dumps and files *)
Module Builtins.

Import Text.

(** The white space [int] skips around a number, in a text whose
    characters are code points below 256: tab, line feed, vertical tab,
    form feed, carriage return and space, and the two other code points
    that are white space for Unicode, U+0085 and U+00A0, which [int] turns
    into spaces first.  The separators U+001C to U+001F are not skipped. *)
Definition is_space (c : ascii) : bool :=
  let n := nat_of_ascii c in
  (((9 <=? n) && (n <=? 13)) || (n =? 32) || (n =? 133) || (n =? 160))%nat.

Fixpoint lstrip (s : list ascii) : list ascii :=
  match s with
  | c :: rest => if is_space c then lstrip rest else s
  | [] => []
  end.

Definition strip (s : list ascii) : list ascii :=
  rev (lstrip (rev (lstrip s))).

(** The digits of a decimal literal, with single underscores allowed
    between digits. *)
Fixpoint digits_value (acc : Z) (after_digit : bool) (s : list ascii) : option Z :=
  match s with
  | [] => if after_digit then Some acc else None
  | c :: rest =>
      if is_digit c then digits_value (10 * acc + digit_val c) true rest
      else if Ascii.eqb c "_" && after_digit then digits_value acc false rest
      else None
  end.

(** [sys.get_int_max_str_digits()], as the interpreter starts with. *)
Definition max_str_digits : nat := 4300.

(** [int(s)] for a string [s], in base 10.  A number written with more
    digits than [max_str_digits] (leading zeros count, underscores do not)
    is refused like a text that is no number. *)
Definition int_of_str (s : string) : result Z :=
  let body := strip (list_ascii_of_string s) in
  let '(sign, digits) :=
    match body with
    | "-"%char :: rest => (-1, rest)
    | "+"%char :: rest => (1, rest)
    | _ => (1, body)
    end in
  match digits_value 0 false digits with
  | Some n =>
      if (max_str_digits <? length (List.filter is_digit digits))%nat
      then Raise ValueError
      else OK (sign * n)
  | None => Raise ValueError
  end.

(** [str(n)] for [0 <= n], by repeated division; [fuel] bounds the number
    of digits. *)
Fixpoint nat_digits (fuel : nat) (n : Z) (acc : string) : string :=
  match fuel with
  | O => acc
  | S fuel' =>
      let acc := String (digit_char n) acc in
      if n <? 10 then acc else nat_digits fuel' (n / 10) acc
  end.

(** [int.__repr__] *)
Definition int_repr (z : Z) : string :=
  let digits := nat_digits (S (Z.to_nat (Z.log2 (Z.abs z)))) (Z.abs z) EmptyString in
  if z <? 0 then String "-" digits else digits.

Definition dquote : ascii := ascii_of_nat 34.

Definition hex_char (n : nat) : ascii :=
  if (n <? 10)%nat then ascii_of_nat (48 + n) else ascii_of_nat (87 + n).

(** [json.encoder.py_encode_basestring_ascii] without the quotes, on a text
    whose characters are code points below 256. *)
Fixpoint escape_ascii (s : string) : string :=
  match s with
  | EmptyString => EmptyString
  | String c rest =>
      let n := nat_of_ascii c in
      (if Ascii.eqb c "\" then "\\"
       else if Ascii.eqb c dquote then String "\" (String dquote EmptyString)
       else if (n =? 8)%nat then "\b"
       else if (n =? 12)%nat then "\f"
       else if (n =? 10)%nat then "\n"
       else if (n =? 13)%nat then "\r"
       else if (n =? 9)%nat then "\t"
       else if ((32 <=? n) && (n <=? 126))%nat then String c EmptyString
       else String "\" (String "u" (String "0" (String "0"
              (String (hex_char (n / 16)) (String (hex_char (n mod 16)) EmptyString))))))
      ++ escape_ascii rest
  end%string.

Definition quote (s : string) : string :=
  (String dquote (escape_ascii s) ++ String dquote EmptyString)%string.

Fixpoint join (sep : string) (l : list string) : string :=
  match l with
  | [] => EmptyString
  | [s] => s
  | s :: rest => (s ++ sep ++ join sep rest)%string
  end.

Section Json.

(** [float.__repr__] of a finite float (the shortest decimal that reads
    back as the same float) is left to the runtime. *)
Variable float_repr : spec_float -> string.

Definition floatstr (f : spec_float) : string :=
  match f with
  | S754_nan => "NaN"
  | S754_infinity false => "Infinity"
  | S754_infinity true => "-Infinity"
  | _ => float_repr f
  end%string.

(** [json.dumps(v)] with the default separators and [ensure_ascii]. *)
Fixpoint dumps (v : value) : string :=
  match v with
  | PyNone => "null"
  | PyBool true => "true"
  | PyBool false => "false"
  | PyInt z => int_repr z
  | PyFloat f => floatstr f
  | PyStr s => quote s
  | PyList l => "[" ++ join ", " (map dumps l) ++ "]"
  | PyDict kv =>
      "{" ++ join ", " (map (fun '(k, v) => quote k ++ ": " ++ dumps v) kv) ++ "}"
  end%string.

End Json.

(** The files of the machine and the paths that cannot be opened for
    writing (a missing directory, a directory, no permission). *)
Record filesystem : Type :=
  mkfs { files : gmap string string; unwritable : gset string }.

(** [open(path, 'w+')]: the file is created or emptied. *)
Definition open_w (path : string) (fs : filesystem) : result filesystem :=
  if decide (path ∈ unwritable fs) then Raise OSError
  else OK (mkfs (<[path := EmptyString]> (files fs)) (unwritable fs)).

(** [outfile.write(text)] on an open file: the text goes after what the
    file holds. *)
Definition write (path : string) (text : string) (fs : filesystem) : filesystem :=
  mkfs (<[path := (default EmptyString (files fs !! path) ++ text)%string]> (files fs))
       (unwritable fs).

End Builtins.

(** ** linky_month.py *)

Import Datetime Relativedelta Text Builtins.

(** The keyword the script passes to [relativedelta] through [kwargs]. *)
Inductive time_delta_unit : Type := hours | days | months | years.

(** [relativedelta] called with the one keyword [time_delta_unit] set to [v] *)
Definition relativedelta_kwargs (u : time_delta_unit) (v : Half.t)
  : result relativedelta :=
  match u with
  | hours => relativedelta_new 0 0 0 v
  | days => relativedelta_new 0 0 v 0
  | months => relativedelta_new 0 v 0 0
  | years => relativedelta_new v 0 0 0
  end.

(** What [decalage * inc] can be: a number that is a multiple of one half
    (an [int], or a [float] equal to it), another float, a [str] or a
    [list]. *)
Inductive product : Type :=
| Number (x : Half.t)
| Inexact (f : spec_float)
| AStr
| AList.

(** Twice the float [f], when that is an integer. *)
Definition float_halves (f : spec_float) : option Z :=
  match f with
  | S754_zero _ => Some 0
  | S754_finite s m e =>
      let sign := if s : bool then -1 else 1 in
      if 0 <=? e + 1 then Some (sign * (Z.pos m * 2 ^ (e + 1)))
      else if Z.pos m mod 2 ^ (- (e + 1)) =? 0
           then Some (sign * (Z.pos m / 2 ^ (- (e + 1))))
           else None
  | _ => None
  end.

(** [n * inc], the increments of the script being [1] (an [int]) and [0.5]
    (a [float]).  [True] and [False] count as [1] and [0].  The product of a
    float is a [Number] when it is a multiple of one half, which the
    multiplication gives exactly, and is [Inexact], with the float it comes
    from, otherwise (a fraction that is no half, an infinity, a NaN).  A
    [str] or a [list] times the integer [1] is a [str] or a [list]; times
    a float it is a [TypeError], as is the product of [None] or of a
    dictionary. *)
Definition mul_inc (n : value) (inc : Half.t) : result product :=
  match n with
  | PyInt z => OK (Number (z * inc))
  | PyBool b => OK (Number ((if b then 1 else 0) * inc))
  | PyFloat f =>
      match float_halves f with
      | Some k => if Z.even (k * inc) then OK (Number (k * inc / 2)) else OK (Inexact f)
      | None => OK (Inexact f)
      end
  | PyStr _ => if Half.is_integral inc then OK AStr else Raise TypeError
  | PyList _ => if Half.is_integral inc then OK AList else Raise TypeError
  | PyNone | PyDict _ => Raise TypeError
  end.

(** [relativedelta] called with the one keyword [time_delta_unit] set to
    the product [p].  Years and months are compared with their [int]: that
    is a [ValueError] for a [str] (whether [int] reads it or not), for a NaN
    and for a float with a fraction, an [OverflowError] for an infinity and
    a [TypeError] for a [list].  Days are added to an integer and hours are
    compared with one, a [TypeError] for a [str] or a [list].  A NaN or an
    infinity as days or hours is taken by [relativedelta] and refused by
    [timedelta] as soon as a date is moved, which is the next thing the
    script does and the first that can fail: it is refused here, with the
    error of [timedelta] (infinite hours have become NaN days in [_fix] by
    then).  The other [Inexact] days or hours, floats with a fraction that
    is no half, are beyond this embedding, whose times of day are whole half
    hours: the runtime rounds them to microseconds and goes on, the
    embedding stops with a [TypeError]. *)
Definition relativedelta_product (u : time_delta_unit) (p : product)
  : result relativedelta :=
  match p with
  | Number x => relativedelta_kwargs u x
  | AList => Raise TypeError
  | AStr =>
      match u with
      | months | years => Raise ValueError
      | days | hours => Raise TypeError
      end
  | Inexact f =>
      match u with
      | months | years =>
          match f with
          | S754_infinity _ => Raise OverflowError
          | _ => Raise ValueError
          end
      | days =>
          match f with
          | S754_infinity _ => Raise OverflowError
          | S754_nan => Raise ValueError
          | _ => Raise TypeError
          end
      | hours =>
          match f with
          | S754_infinity _ | S754_nan => Raise ValueError
          | _ => Raise TypeError
          end
      end
  end.

Definition inc_one : Half.t := Half.of_int 1.
Definition inc_half : Half.t := 1.

(** The loop of [generate_y_axis] over the remaining data points, with the
    counter of [enumerate] and the list built so far. *)
Fixpoint y_axis_loop (items : list value) (ordre : nat) (y_values : list value)
  : result (list value) :=
  match items with
  | [] => OK y_values
  | datapoint :: rest =>
      value ← getitem datapoint "valeur";
      negative ← lt_zero value;
      let value := if negative : bool then PyInt 0 else value in
      y_axis_loop rest (S ordre) (list_insert ordre value y_values)
  end.

Definition generate_y_axis (res : value) : result (list value) :=
  graphe ← getitem res "graphe";
  data ← getitem graphe "data";
  items ← iter data;
  y_axis_loop items 0%nat [].

(** The loop of [generate_x_axis]; only the counter matters, the data point
    is dropped. *)
Fixpoint x_axis_loop (start_date : dateobj) (time_delta_unit : time_delta_unit)
    (time_format : string) (inc : Half.t)
    (items : list value) (ordre : nat) (x_values : list string)
  : result (list string) :=
  match items with
  | [] => OK x_values
  | _ :: rest =>
      delta ← relativedelta_kwargs time_delta_unit (Z.of_nat ordre * inc);
      instant ← radd delta start_date;
      x_axis_loop start_date time_delta_unit time_format inc rest (S ordre)
        (list_insert ordre (strftime instant time_format) x_values)
  end.

Definition generate_x_axis (res : value) (time_delta_unit : time_delta_unit)
    (time_format : string) (inc : Half.t) : result (list string) :=
  graphe ← getitem res "graphe";
  periode ← getitem graphe "periode";
  start_date_queried_str ← getitem periode "dateDebut";
  parsed ← strptime start_date_queried_str "%d/%m/%Y";
  let start_date_queried := date_method parsed in
  graphe ← getitem res "graphe";
  decalage ← getitem graphe "decalage";
  offset ← mul_inc decalage inc;
  delta ← relativedelta_product time_delta_unit offset;
  start_date ← rsub delta start_date_queried;
  graphe ← getitem res "graphe";
  data ← getitem graphe "data";
  items ← iter data;
  x_axis_loop start_date time_delta_unit time_format inc items 0%nat [].

Definition dtostr (date : dateobj) : string := strftime date "%d/%m/%Y".

(** The pairing loop every exporter runs:
    [for i in range(0, len(x)): out.append({"time": x[i], "conso": y[i]})]. *)
Fixpoint pair_loop (x_values : list string) (y_values : list value)
    (range : list nat) (out : list value) : result (list value) :=
  match range with
  | [] => OK out
  | i :: range' =>
      time ← list_getitem x_values i;
      conso ← list_getitem y_values i;
      pair_loop x_values y_values range'
        (out ++ [PyDict [("time"%string, PyStr time); ("conso"%string, conso)]])
  end.

Definition pair_records (x_values : list string) (y_values : list value)
  : result (list value) :=
  pair_loop x_values y_values (seq 0 (length x_values)) [].

Section Script.

(** [os.environ['BASE_DIR']] and the runtime's [float.__repr__]. *)
Variable BASEDIR : string.
Variable float_repr : spec_float -> string.

(** The records an exporter computes before it opens its file. *)
Definition records_of (res : value) (u : time_delta_unit) (time_format : string)
    (inc : Half.t) : result (list value) :=
  x_values ← generate_x_axis res u time_format inc;
  y_values ← generate_y_axis res;
  pair_records x_values y_values.

(** The four exporters have the same body up to the arguments of
    [generate_x_axis] and the file name. *)
Definition export_values (u : time_delta_unit) (time_format : string)
    (inc : Half.t) (name : string) (res : value) (fs : filesystem)
  : result filesystem :=
  values ← records_of res u time_format inc;
  let path := (BASEDIR ++ name)%string in
  fs ← open_w path fs;
  OK (write path (dumps float_repr (PyList values)) fs).

Definition export_hours_values :=
  export_values hours "%H:%M" inc_half "/export_hours_values.json".

Definition export_days_values :=
  export_values days "%d %b %Y" inc_one "/export_days_values.json".

Definition export_months_values :=
  export_values months "%b" inc_one "/export_months_values.json".

Definition export_years_values :=
  export_values years "%Y" inc_one "/export_years_values.json".

End Script.

(** ** The process: collaborators, log, and [main] *)

(** What a run does that the outside can see, in order. *)
Inductive event : Type :=
| LogInfo (msg : string)
| LogError (e : exn)
| CallLogin (username password : string)
| CallGetDataPerMonth (token start_date end_date : string)
| CallGetDataPerDay (token start_date end_date : string).

Record world : Type := mkworld { fs : filesystem; trace : list event }.

(** A statement of the script: it reads and changes the world and either
    yields a value or raises. *)
Definition io (A : Type) : Type := world -> result A * world.

Definition io_ret_def {A} (a : A) : io A := fun w => (OK a, w).

Definition io_bind_def {A B} (k : A -> io B) (m : io A) : io B :=
  fun w =>
    match m w with
    | (OK a, w') => k a w'
    | (Raise e, w') => (Raise e, w')
    end.

#[global] Instance io_ret : MRet io := @io_ret_def.
#[global] Instance io_bind : MBind io := @io_bind_def.

(** A pure computation that may raise. *)
Definition lift {A} (r : result A) : io A := fun w => (r, w).

Definition emit (e : event) : io unit :=
  fun w => (OK tt, mkworld (fs w) (trace w ++ [e])).

Definition logging_info (msg : string) : io unit := emit (LogInfo msg).

(** How the process ends: [main] returns, [sys.exit(code)] is called, or an
    exception leaves [main]. *)
Inductive outcome : Type :=
| Returned
| Exited (code : Z)
| Uncaught (e : exn).

(** The exit status the operating system sees; the interpreter ends with
    status 1 on an exception nobody caught. *)
Definition exit_status (o : outcome) : Z :=
  match o with
  | Returned => 0
  | Exited code => code
  | Uncaught _ => 1
  end.

Section Main.

(** The environment variables read when the module is loaded, the runtime's
    [float.__repr__], and the [linky] module the script imports. *)
Variables USERNAME PASSWORD BASEDIR : string.
Variable float_repr : spec_float -> string.
Variable linky_login : string -> string -> result string.
Variable linky_get_data_per_month : string -> string -> string -> result value.
Variable linky_get_data_per_day : string -> string -> string -> result value.

(** [today - relativedelta(days=d, months=m)] *)
Definition minus_days_months (today : dateobj) (d m : Z) : result dateobj :=
  delta ← relativedelta_new 0 (Half.of_int m) (Half.of_int d) 0;
  rsub delta today.

(** The inner [try: export_days_values(res_day) except Exception: ...]. *)
Definition try_export_days (res_day : value) : io unit :=
  fun w =>
    match export_days_values BASEDIR float_repr res_day (fs w) with
    | OK fs' => (OK tt, mkworld fs' (trace w))
    | Raise _ => logging_info "days values non exported" w
    end.

(** The body of the outer [try] of [main]; [today] is
    [datetime.date.today()] and [argv] is [sys.argv]. *)
Definition main_try (argv : list string) (today : dateobj) : io unit :=
  logging_info ("logging in as " ++ USERNAME ++ "...");;
  emit (CallLogin USERNAME PASSWORD);;
  token ← lift (linky_login USERNAME PASSWORD);
  logging_info "logged in successfully!";;
  logging_info "retreiving data...";;
  arg ← lift (list_getitem argv 1);
  logging_info ("arg " ++ arg);;
  mmonth ← lift (int_of_str arg);
  arg ← lift (list_getitem argv 1);
  n ← lift (int_of_str arg);
  let mmonthnext := n + 1 in
  d ← lift (minus_days_months today 1 mmonth);
  logging_info (dtostr d);;
  d ← lift (minus_days_months today 1 mmonthnext);
  logging_info (dtostr d);;
  d ← lift (minus_days_months today 0 11);
  let month_start := dtostr d in
  let month_end := dtostr today in
  emit (CallGetDataPerMonth token month_start month_end);;
  res_month ← lift (linky_get_data_per_month token month_start month_end);
  d ← lift (minus_days_months today 1 mmonthnext);
  let day_start := dtostr d in
  d ← lift (minus_days_months today 1 mmonth);
  let day_end := dtostr d in
  emit (CallGetDataPerDay token day_start day_end);;
  res_day ← lift (linky_get_data_per_day token day_start day_end);
  logging_info "got data!";;
  try_export_days res_day.

(** [main]: the [except linky.LinkyLoginException] clause logs the error
    and calls [sys.exit(1)]; any other exception leaves [main]. *)
Definition main (argv : list string) (today : dateobj) (w : world)
  : outcome * world :=
  match main_try argv today w with
  | (OK _, w') => (Returned, w')
  | (Raise LinkyLoginException, w') =>
      (Exited 1, mkworld (fs w') (trace w' ++ [LogError LinkyLoginException]))
  | (Raise e, w') => (Uncaught e, w')
  end.

End Main.

(** ** The words of the specification

    The granularities with their unit, label pattern and increment (the
    arguments the four exporters pass to [generate_x_axis]), and calendar
    arithmetic on instants stated directly: these are what the embedding
    above is compared with. *)
Module Spec.

Inductive granularity : Type := HalfHour | Day | Month | Year.

Definition unit_of (g : granularity) : time_delta_unit :=
  match g with
  | HalfHour => hours
  | Day => days
  | Month => months
  | Year => years
  end.

Definition pattern_of (g : granularity) : string :=
  match g with
  | HalfHour => "%H:%M"
  | Day => "%d %b %Y"
  | Month => "%b"
  | Year => "%Y"
  end.

Definition increment_of (g : granularity) : Half.t :=
  match g with
  | HalfHour => inc_half
  | Day | Month | Year => inc_one
  end.

Definition file_of (g : granularity) : string :=
  match g with
  | HalfHour => "/export_hours_values.json"
  | Day => "/export_days_values.json"
  | Month => "/export_months_values.json"
  | Year => "/export_years_values.json"
  end.

(** A calendar date that exists, within the years the runtime supports. *)
Definition valid_date (d : date) : Prop :=
  MINYEAR <= year d <= MAXYEAR /\ 1 <= month d <= 12
  /\ 1 <= day d <= _days_in_month (year d) (month d).

(** An instant: a day and the number of half hours elapsed since its
    midnight. *)
Record instant : Type := mkinstant { on : date; half_hour : Z }.

Definition valid_instant (t : instant) : Prop :=
  valid_date (on t) /\ 0 <= half_hour t < 48.

Definition midnight (d : date) : instant := mkinstant d 0.

Definition in_calendar (n : Z) : bool := (1 <=? n) && (n <=? _MAXORDINAL).

Definition supported_year (y : Z) : bool := (MINYEAR <=? y) && (y <=? MAXYEAR).

(** The day of the month kept when it exists in the target month, the last
    day of that month otherwise. *)
Definition clamp_day (y m d : Z) : Z := Z.min (_days_in_month y m) d.

Definition plus_half_hours (k : Z) (t : instant) : option instant :=
  let total := toordinal (on t) * 48 + half_hour t + k in
  if in_calendar (total / 48)
  then Some (mkinstant (fromordinal (total / 48)) (total mod 48))
  else None.

Definition plus_days (k : Z) (t : instant) : option instant :=
  let n := toordinal (on t) + k in
  if in_calendar n then Some (mkinstant (fromordinal n) (half_hour t)) else None.

Definition plus_months (k : Z) (t : instant) : option instant :=
  let total := year (on t) * 12 + (month (on t) - 1) + k in
  let y := total / 12 in
  let m := total mod 12 + 1 in
  if supported_year y
  then Some (mkinstant (mkdate y m (clamp_day y m (day (on t)))) (half_hour t))
  else None.

Definition plus_years (k : Z) (t : instant) : option instant :=
  let y := year (on t) + k in
  if supported_year y
  then Some (mkinstant (mkdate y (month (on t))
                               (clamp_day y (month (on t)) (day (on t))))
                       (half_hour t))
  else None.

(** [t] plus [k] times the increment of [g], in the unit of [g]. *)
Definition plus_steps (g : granularity) (k : Z) (t : instant) : option instant :=
  match g with
  | HalfHour => plus_half_hours k t
  | Day => plus_days k t
  | Month => plus_months k t
  | Year => plus_years k t
  end.

(** The instant formatted with a pattern, and with the label pattern of
    [g]. *)
Definition format (pattern : string) (t : instant) : string :=
  strftime (ADatetime (on t) (mktime (half_hour t / 2) (half_hour t mod 2 * 30) 0))
           pattern.

Definition label (g : granularity) (t : instant) : string :=
  format (pattern_of g) t.

(** The instant a [date] or [datetime] object stands for. *)
Definition instant_of (o : dateobj) : instant :=
  match o with
  | ADate d => mkinstant d 0
  | ADatetime d t => mkinstant d (hour t * 2 + minute t / 30)
  end.

(** The value the Value Extractor is specified to produce for [v]. *)
Definition clamped (v : value) : value :=
  match lt_zero v with
  | OK true => PyInt 0
  | _ => v
  end.

(** The record [{"time": label, "conso": value}]. *)
Definition record (time : string) (conso : value) : value :=
  PyDict [("time"%string, PyStr time); ("conso"%string, conso)].

(** The fields of a response the exporters read. *)
Definition data_of (res : value) : result (list value) :=
  graphe ← getitem res "graphe";
  data ← getitem graphe "data";
  iter data.

Definition dateDebut_of (res : value) : result value :=
  graphe ← getitem res "graphe";
  periode ← getitem graphe "periode";
  getitem periode "dateDebut".

Definition decalage_of (res : value) : result value :=
  graphe ← getitem res "graphe";
  getitem graphe "decalage".

(** A response in the shape of the data model. *)
Definition response (dateDebut decalage : value) (valeurs : list value) : value :=
  PyDict
    [("graphe"%string,
      PyDict
        [("data"%string,
          PyList (map (fun v => PyDict [("valeur"%string, v)]) valeurs));
         ("periode"%string, PyDict [("dateDebut"%string, dateDebut)]);
         ("decalage"%string, decalage)])].

End Spec.

Import Spec.

(** ** The days of one year, checked one by one

    [_ord2ymd] ends by finding the month and the day from the number of days
    elapsed in the year; that part only depends on the leap flag and on a
    number below 366, and is checked here on every such input. *)
Module YearTable.

(** The end of [_ord2ymd]: month and day of the [n]-th day (from 0) of a
    year. *)
Definition month_day (leapyear : bool) (n : Z) : Z * Z :=
  let month := Z.shiftr (n + 50) 5 in
  let preceding :=
    table_get _DAYS_BEFORE_MONTH month
    + (if (2 <? month) && leapyear then 1 else 0) in
  let '(month, preceding) :=
    if n <? preceding
    then (month - 1,
          preceding - (table_get _DAYS_IN_MONTH (month - 1)
                       + (if (month - 1 =? 2) && leapyear then 1 else 0)))
    else (month, preceding) in
  (month, n - preceding + 1).

Definition days_in (leapyear : bool) (month : Z) : Z :=
  if (month =? 2) && leapyear then 29 else table_get _DAYS_IN_MONTH month.

Definition days_before (leapyear : bool) (month : Z) : Z :=
  table_get _DAYS_BEFORE_MONTH month
  + (if (2 <? month) && leapyear then 1 else 0).

Definition length_of (leapyear : bool) : Z := if leapyear then 366 else 365.

Fixpoint forall_range (f : Z -> bool) (lo : Z) (len : nat) : bool :=
  match len with
  | O => true
  | S len' => f lo && forall_range f (lo + 1) len'
  end.

(** Day [n] of the year is a day of some month, at the right distance from
    the start of the year. *)
Definition check_day (leapyear : bool) (n : Z) : bool :=
  let '(m, d) := month_day leapyear n in
  (1 <=? m) && (m <=? 12) && (1 <=? d) && (d <=? days_in leapyear m)
  && (days_before leapyear m + d =? n + 1).

(** Day [d] of month [m] is a day of the year, found back by [month_day]
    (but for the 366th day, which [_ord2ymd] handles apart). *)
Definition check_date (leapyear : bool) (m d : Z) : bool :=
  (days_in leapyear m <? d)
  || (let n := days_before leapyear m + d - 1 in
      (0 <=? n) && (n <? length_of leapyear)
      && (if n =? 365 then (m =? 12) && (d =? 31)
          else let '(m', d') := month_day leapyear n in (m' =? m) && (d' =? d))).

Definition all_days (leapyear : bool) : bool :=
  forall_range (check_day leapyear) 0 365.

Definition all_dates (leapyear : bool) : bool :=
  forall_range (fun m => forall_range (check_date leapyear m) 1 31) 1 12.

End YearTable.

(** ** What a [relativedelta] stands for

    The relative fields amount to a number of months and a number of half
    hours; [radd] moves by the months first (keeping the day when it
    exists), then by the half hours. *)
Module Delta.

Definition total_months (r : relativedelta) : Z :=
  12 * Relativedelta.years r + Relativedelta.months r.

Definition total_half_hours (r : relativedelta) : Z :=
  24 * Relativedelta.days r + Relativedelta.hours r.

(** What [_fix] establishes, with whole days. *)
Definition normalized (r : relativedelta) : Prop :=
  Z.abs (Relativedelta.months r) <= 11 /\ Z.even (Relativedelta.days r) = true.

Definition shift (m h : Z) (t : instant) : option instant :=
  t' ← plus_months m t;
  plus_half_hours h t'.

(** The months and half hours [k] steps of a granularity amount to. *)
Definition months_of (g : granularity) (k : Z) : Z :=
  match g with
  | Month => k
  | Year => 12 * k
  | HalfHour | Day => 0
  end.

Definition half_hours_of (g : granularity) (k : Z) : Z :=
  match g with
  | HalfHour => k
  | Day => 48 * k
  | Month | Year => 0
  end.

(** The objects the script computes with: an existing date, and a time of
    day on a half hour. *)
Definition wf_time (t : time) : Prop :=
  0 <= hour t <= 23 /\ (minute t = 0 \/ minute t = 30) /\ second t = 0.

Definition wf (o : dateobj) : Prop :=
  valid_date (date_of o)
  /\ match o with ADate _ => True | ADatetime _ t => wf_time t end.

End Delta.

(** ** Loops read as maps *)
Module Loop.

(** [f] applied to the items with their [enumerate] counter from [i] on,
    stopping at the first error. *)
Fixpoint traverse {A B} (f : nat -> A -> result B) (i : nat) (l : list A)
  : result (list B) :=
  match l with
  | [] => OK []
  | x :: l' =>
      y ← f i x;
      ys ← traverse f (S i) l';
      OK (y :: ys)
  end.

(** One turn of the loop of [generate_y_axis]. *)
Definition y_step (i : nat) (datapoint : value) : result value :=
  value ← getitem datapoint "valeur";
  negative ← lt_zero value;
  OK (if negative : bool then PyInt 0 else value).

(** One turn of the loop of [generate_x_axis]. *)
Definition x_step (start_date : dateobj) (u : time_delta_unit)
    (time_format : string) (inc : Half.t) (i : nat) (_ : value) : result string :=
  delta ← relativedelta_kwargs u (Z.of_nat i * inc);
  instant ← radd delta start_date;
  OK (strftime instant time_format).

End Loop.

(** ** Concrete inputs used to exercise the statements *)
Module Sample.

(** The end-to-end scenario of the specification. *)
Definition scenario : value :=
  response (PyStr "01/03/2024") (PyInt 2) [PyInt (-5); PyInt 10; PyInt 20].

Definition scenario_parsed : dateobj := ADatetime (mkdate 2024 3 1) (mktime 0 0 0).

Definition scenario_items : list value :=
  [PyDict [("valeur"%string, PyInt (-5))]; PyDict [("valeur"%string, PyInt 10)];
   PyDict [("valeur"%string, PyInt 20)]].

Definition scenario_labels : list string :=
  ["28 Feb 2024"; "29 Feb 2024"; "01 Mar 2024"]%string.

(** The records the specification expects for the scenario. *)
Definition scenario_expected : list value :=
  [record "27 Feb 2024" (PyInt 0); record "28 Feb 2024" (PyInt 10);
   record "29 Feb 2024" (PyInt 20)].

(** The records the exporter computes for it. *)
Definition scenario_records : list value :=
  [record "28 Feb 2024" (PyInt 0); record "29 Feb 2024" (PyInt 10);
   record "01 Mar 2024" (PyInt 20)].

(** A response without data points, and one whose window starts before the
    first day of the calendar. *)
Definition no_data : value := response (PyStr "01/03/2024") (PyInt 2) [].

Definition before_calendar : value := response (PyStr "01/01/0001") (PyInt 1) [].

(** A machine with no file yet and every path writable. *)
Definition empty_fs : filesystem := mkfs ∅ ∅.

(** A [float.__repr__] that is never called on the samples. *)
Definition no_float (f : spec_float) : string := EmptyString.

End Sample.

(** ** The exporter of each granularity and its output file *)
Definition exporter (BASEDIR : string) (float_repr : spec_float -> string)
    (g : granularity) : value -> filesystem -> result filesystem :=
  match g with
  | HalfHour => export_hours_values BASEDIR float_repr
  | Day => export_days_values BASEDIR float_repr
  | Month => export_months_values BASEDIR float_repr
  | Year => export_years_values BASEDIR float_repr
  end.

Definition path_of (BASEDIR : string) (g : granularity) : string :=
  (BASEDIR ++ file_of g)%string.

(** A machine whose day export file holds something already. *)
Definition stale_fs : filesystem :=
  mkfs {[path_of "/tmp" Day := "[1, 2, 3]"%string]} ∅.

Definition scenario_exported_over_stale : filesystem :=
  mkfs (<[path_of "/tmp" Day :=
            dumps Sample.no_float (PyList Sample.scenario_records)]>
          {[path_of "/tmp" Day := "[1, 2, 3]"%string]}) ∅.

(** The file system after the day exporter has run on the scenario. *)
Definition scenario_exported : filesystem :=
  mkfs (<[path_of "/tmp" Day :=
            dumps Sample.no_float (PyList Sample.scenario_records)]> ∅) ∅.

(** ** Reading a trace *)

Definition is_fetch (e : event) : bool :=
  match e with
  | CallGetDataPerMonth _ _ _ | CallGetDataPerDay _ _ _ => true
  | _ => false
  end.

Definition is_login (e : event) : bool :=
  match e with
  | CallLogin _ _ => true
  | _ => false
  end.

(** The windows of the per-day fetches of a trace. *)
Fixpoint day_fetches (tr : list event) : list (string * string) :=
  match tr with
  | [] => []
  | CallGetDataPerDay _ s e :: tr' => (s, e) :: day_fetches tr'
  | _ :: tr' => day_fetches tr'
  end.

(** [t] minus [m] months, then minus one day. *)
Definition months_and_a_day_before (m : Z) (t : instant) : option instant :=
  t' ← plus_months (- m) t;
  plus_days (- 1) t'.

(** The per-day window as the specification words it: from today minus
    [offset + 2] months to today minus [offset + 1] months. *)
Definition claimed_day_window (today : instant) (offset : Z)
  : option (string * string) :=
  s ← plus_months (- (offset + 1 + 1)) today;
  e ← plus_months (- (offset + 1)) today;
  Some (format "%d/%m/%Y" s, format "%d/%m/%Y" e).

(** The per-day window the driver asks for. *)
Definition day_window (today : instant) (offset : Z) : option (string * string) :=
  s ← months_and_a_day_before (offset + 1) today;
  e ← months_and_a_day_before offset today;
  Some (format "%d/%m/%Y" s, format "%d/%m/%Y" e).

(** The events of a run up to each point where it can stop. *)
Section Progress.

Variables USERNAME PASSWORD : string.

Definition at_login : list event :=
  [LogInfo ("logging in as " ++ USERNAME ++ "..."); CallLogin USERNAME PASSWORD].

Definition at_argument : list event :=
  at_login ++ [LogInfo "logged in successfully!"; LogInfo "retreiving data..."].

Definition at_offset (arg : string) : list event :=
  at_argument ++ [LogInfo ("arg " ++ arg)].

Definition at_month_fetch (arg token : string) (d1 d2 d3 today : dateobj)
  : list event :=
  at_offset arg
  ++ [LogInfo (dtostr d1); LogInfo (dtostr d2);
      CallGetDataPerMonth token (dtostr d3) (dtostr today)].

Definition at_day_fetch (arg token : string) (d1 d2 d3 today : dateobj)
  : list event :=
  at_month_fetch arg token d1 d2 d3 today
  ++ [CallGetDataPerDay token (dtostr d2) (dtostr d1)].

End Progress.

(** A response without [graphe.periode.dateDebut]. *)
Definition no_dateDebut : value :=
  PyDict
    [("graphe"%string,
      PyDict [("data"%string, PyList [PyDict [("valeur"%string, PyInt 3)]]);
              ("periode"%string, PyDict []);
              ("decalage"%string, PyInt 2)])].

(** A run on 15 March 2024 against a source that accepts the credentials
    and answers the scenario to every fetch. *)
Module Run.

Definition login (username password : string) : result string := OK "token"%string.

Definition get_data (token start_date end_date : string) : result value :=
  OK Sample.scenario.

Definition today : dateobj := ADate (mkdate 2024 3 15).

Definition start (argv : list string) : outcome * world :=
  main "user" "secret" "/tmp" Sample.no_float login get_data get_data
       argv today (mkworld Sample.empty_fs []).

(** The same run when the per-day answer lacks [dateDebut]. *)
Definition get_broken (token start_date end_date : string) : result value :=
  OK no_dateDebut.

Definition start_broken (argv : list string) : outcome * world :=
  main "user" "secret" "/tmp" Sample.no_float login get_data get_broken
       argv today (mkworld Sample.empty_fs []).

End Run.

(** ** Further readings of the script *)
Module More.

(** What the loop of [generate_y_axis] checks on a data point: that it has
    a [valeur] and that the value compares with [0]. *)
Definition point_check (datapoint : value) : result bool :=
  v ← getitem datapoint "valeur";
  lt_zero v.

(** A response whose per-day answer is refused at the login. *)
Definition login_refused (username password : string) : result string :=
  Raise LinkyLoginException.

(** A source that fails on the monthly fetch. *)
Definition get_unavailable (token start_date end_date : string) : result value :=
  Raise LinkyServiceException.

Definition start_refused (argv : list string) : outcome * world :=
  main "user" "secret" "/tmp" Sample.no_float login_refused Run.get_data
       Run.get_data argv Run.today (mkworld Sample.empty_fs []).

Definition start_unavailable (argv : list string) : outcome * world :=
  main "user" "secret" "/tmp" Sample.no_float Run.login get_unavailable
       Run.get_data argv Run.today (mkworld Sample.empty_fs []).

(** The windows of the monthly fetches of a trace. *)
Fixpoint month_fetches (tr : list event) : list (string * string) :=
  match tr with
  | [] => []
  | CallGetDataPerMonth _ s e :: tr' => (s, e) :: month_fetches tr'
  | _ :: tr' => month_fetches tr'
  end.

(** The monthly window the driver asks for: from eleven months before today
    to today. *)
Definition month_window (today : instant) : option (string * string) :=
  s ← plus_months (- 11) today;
  Some (format "%d/%m/%Y" s, format "%d/%m/%Y" today).

(** What [except linky.LinkyLoginException] makes of an exception [e] raised
    inside the [try] of [main]. *)
Definition handled (e : exn) : outcome :=
  match e with
  | LinkyLoginException => Exited 1
  | _ => Uncaught e
  end.

Definition logged (e : exn) : list event :=
  match e with
  | LinkyLoginException => [LogError LinkyLoginException]
  | _ => []
  end.

(** The scenario with [decalage] the float [2.0], and a response whose
    [decalage] is a text. *)
Definition two : spec_float := S754_finite false 4503599627370496 (-51).

Definition scenario_float : value :=
  response (PyStr "01/03/2024") (PyFloat two) [PyInt (-5); PyInt 10; PyInt 20].

Definition scenario_text : value :=
  response (PyStr "01/03/2024") (PyStr "2") [PyInt (-5); PyInt 10; PyInt 20].

(** A data point without [valeur], between two good ones. *)
Definition gap_response : value :=
  PyDict
    [("graphe"%string,
      PyDict [("data"%string,
               PyList [PyDict [("valeur"%string, PyInt 1)];
                       PyDict [("valor"%string, PyInt 2)];
                       PyDict [("valeur"%string, PyStr "x")]]);
              ("periode"%string, PyDict [("dateDebut"%string, PyStr "01/03/2024")]);
              ("decalage"%string, PyInt 2)])].

(** The month export of the scenario, and the machine after the day export
    and then the month export of it. *)
Definition scenario_month_records : list value :=
  [record "Jan" (PyInt 0); record "Feb" (PyInt 10); record "Mar" (PyInt 20)].

Definition scenario_exported_twice : filesystem :=
  mkfs (<[path_of "/tmp" Month :=
            dumps Sample.no_float (PyList scenario_month_records)]>
          (files scenario_exported)) ∅.

End More.

(** * The proleptic Gregorian calendar of [datetime] *)

Lemma forall_range_elim (f : Z -> bool) (len : nat) :
  forall lo x : Z,
    YearTable.forall_range f lo len = true ->
    lo <= x < lo + Z.of_nat len -> f x = true.
Proof.
  induction len as [|len IH]; intros lo x Hall Hx; [lia|].
  simpl in Hall. apply andb_true_iff in Hall as [Hlo Hrest].
  destruct (Z.eq_dec x lo) as [->|Hne]; [exact Hlo|].
  apply (IH (lo + 1)); [exact Hrest | lia].
Qed.

Lemma all_days_true leapyear : YearTable.all_days leapyear = true.
Proof. destruct leapyear; vm_compute; reflexivity. Qed.

Lemma all_dates_true leapyear : YearTable.all_dates leapyear = true.
Proof. destruct leapyear; vm_compute; reflexivity. Qed.

Lemma check_day_ok leapyear n :
  0 <= n <= 364 -> YearTable.check_day leapyear n = true.
Proof.
  intros Hn.
  apply (forall_range_elim _ 365 0 n (all_days_true leapyear)). lia.
Qed.

Lemma check_date_ok leapyear m d :
  1 <= m <= 12 -> 1 <= d <= 31 -> YearTable.check_date leapyear m d = true.
Proof.
  intros Hm Hd. pose proof (all_dates_true leapyear) as H.
  unfold YearTable.all_dates in H.
  apply (forall_range_elim _ 12 1 m) in H; [|lia].
  apply (forall_range_elim _ 31 1 d) in H; [|lia]. exact H.
Qed.

Lemma days_in_month_leap y m :
  _days_in_month y m = YearTable.days_in (_is_leap y) m.
Proof. reflexivity. Qed.

Lemma days_before_month_leap y m :
  _days_before_month y m = YearTable.days_before (_is_leap y) m.
Proof. reflexivity. Qed.

Lemma days_in_le_31 leapyear m : YearTable.days_in leapyear m <= 31.
Proof.
  unfold YearTable.days_in, table_get.
  destruct ((m =? 2) && leapyear); [lia|].
  destruct (Z.to_nat m) as [|[|[|[|[|[|[|[|[|[|[|[|[|k]]]]]]]]]]]]];
    vm_compute; discriminate.
Qed.

(** ** Years split into 400-, 100-, 4- and 1-year blocks *)

Lemma year_decompose y :
  exists a b c e,
    0 <= b <= 3 /\ 0 <= c <= 24 /\ 0 <= e <= 3
    /\ y = 400 * a + 100 * b + 4 * c + e + 1.
Proof.
  exists ((y - 1) / 400), ((y - 1) mod 400 / 100),
         ((y - 1) mod 100 / 4), ((y - 1) mod 4).
  Z.div_mod_to_equations. lia.
Qed.

Lemma days_before_year_parts a b c e :
  0 <= b <= 3 -> 0 <= c <= 24 -> 0 <= e <= 3 ->
  _days_before_year (400 * a + 100 * b + 4 * c + e + 1)
  = 146097 * a + 36524 * b + 1461 * c + 365 * e.
Proof.
  intros Hb Hc He. unfold _days_before_year. Z.div_mod_to_equations. lia.
Qed.

Lemma is_leap_parts a b c e :
  0 <= b <= 3 -> 0 <= c <= 24 -> 0 <= e <= 3 ->
  _is_leap (400 * a + 100 * b + 4 * c + e + 1)
  = (e =? 3) && (negb (c =? 24) || (b =? 3)).
Proof.
  intros Hb Hc He. unfold _is_leap.
  set (y := 400 * a + 100 * b + 4 * c + e + 1).
  assert (H4 : y mod 4 = (e + 1) mod 4) by (subst y; Z.div_mod_to_equations; lia).
  assert (H100 : y mod 100 = (4 * c + e + 1) mod 100)
    by (subst y; Z.div_mod_to_equations; lia).
  assert (H400 : y mod 400 = (100 * b + 4 * c + e + 1) mod 400)
    by (subst y; Z.div_mod_to_equations; lia).
  rewrite H4, H100, H400.
  destruct (Z.eqb_spec e 3) as [->|He3].
  - destruct (Z.eqb_spec c 24) as [->|Hc24].
    + destruct (Z.eqb_spec b 3) as [->|Hb3]; [reflexivity|].
      assert (b = 0 \/ b = 1 \/ b = 2) as [->|[->| ->]] by lia; reflexivity.
    + replace ((3 + 1) mod 4) with 0 by reflexivity. cbn [Z.eqb andb negb orb].
      destruct (Z.eqb_spec ((4 * c + 3 + 1) mod 100) 0) as [H0|H0]; [|reflexivity].
      exfalso. Z.div_mod_to_equations. lia.
  - destruct (Z.eqb_spec ((e + 1) mod 4) 0) as [H0|H0]; [|reflexivity].
    exfalso. Z.div_mod_to_equations. lia.
Qed.

(** ** [_ord2ymd] on a day given by its blocks *)

Lemma ord2ymd_parts a b c e k :
  0 <= b <= 3 -> 0 <= c <= 24 -> 0 <= e <= 3 -> 0 <= k <= 364 ->
  _ord2ymd (146097 * a + 36524 * b + 1461 * c + 365 * e + k + 1)
  = let '(m, d) :=
      YearTable.month_day ((e =? 3) && (negb (c =? 24) || (b =? 3))) k in
    (400 * a + 100 * b + 4 * c + e + 1, m, d).
Proof.
  intros Hb Hc He Hk.
  set (n0 := 146097 * a + 36524 * b + 1461 * c + 365 * e + k + 1 - 1).
  assert (H1 : n0 / 146097 = a) by (subst n0; Z.div_mod_to_equations; lia).
  assert (H2 : n0 mod 146097 = 36524 * b + 1461 * c + 365 * e + k)
    by (subst n0; Z.div_mod_to_equations; lia).
  assert (H3 : (36524 * b + 1461 * c + 365 * e + k) / 36524 = b)
    by (Z.div_mod_to_equations; lia).
  assert (H4 : (36524 * b + 1461 * c + 365 * e + k) mod 36524
               = 1461 * c + 365 * e + k) by (Z.div_mod_to_equations; lia).
  assert (H5 : (1461 * c + 365 * e + k) / 1461 = c)
    by (Z.div_mod_to_equations; lia).
  assert (H6 : (1461 * c + 365 * e + k) mod 1461 = 365 * e + k)
    by (Z.div_mod_to_equations; lia).
  assert (H7 : (365 * e + k) / 365 = e) by (Z.div_mod_to_equations; lia).
  assert (H8 : (365 * e + k) mod 365 = k) by (Z.div_mod_to_equations; lia).
  unfold _ord2ymd, _DI400Y, _DI100Y, _DI4Y. fold n0. cbv zeta.
  rewrite H1, H2, H3, H4, H5, H6, H7, H8.
  replace ((e =? 4) || (b =? 4)) with false
    by (symmetry; apply orb_false_iff; split; apply Z.eqb_neq; lia).
  unfold YearTable.month_day. cbv zeta.
  match goal with |- context [if ?x then _ else _] => idtac end.
  destruct (k <? _) eqn:Hlt; f_equal; try f_equal; lia.
Qed.

Lemma ord2ymd_last a b c :
  0 <= b <= 3 -> 0 <= c <= 24 -> c <> 24 \/ b = 3 ->
  _ord2ymd (146097 * a + 36524 * b + 1461 * c + 365 * 3 + 365 + 1)
  = (400 * a + 100 * b + 4 * c + 3 + 1, 12, 31).
Proof.
  intros Hb Hc Hcb.
  set (n0 := 146097 * a + 36524 * b + 1461 * c + 365 * 3 + 365 + 1 - 1).
  assert (H1 : n0 / 146097 = a) by (subst n0; Z.div_mod_to_equations; lia).
  assert (H2 : n0 mod 146097 = 36524 * b + 1461 * c + 1460)
    by (subst n0; Z.div_mod_to_equations; lia).
  unfold _ord2ymd, _DI400Y, _DI100Y, _DI4Y. fold n0. cbv zeta.
  rewrite H1, H2.
  destruct (Z.eq_dec c 24) as [->|Hc24].
  - assert (b = 3) as -> by lia.
    replace (36524 * 3 + 1461 * 24 + 1460) with 146096 by reflexivity.
    change (146096 / 36524) with 4. change (146096 mod 36524) with 0.
    change (0 / 1461) with 0. change (0 mod 1461) with 0.
    change (0 / 365) with 0.
    cbn [Z.eqb Pos.eqb orb]. f_equal. f_equal. lia.
  - assert (H3 : (36524 * b + 1461 * c + 1460) / 36524 = b)
      by (Z.div_mod_to_equations; lia).
    assert (H4 : (36524 * b + 1461 * c + 1460) mod 36524 = 1461 * c + 1460)
      by (Z.div_mod_to_equations; lia).
    assert (H5 : (1461 * c + 1460) / 1461 = c) by (Z.div_mod_to_equations; lia).
    assert (H6 : (1461 * c + 1460) mod 1461 = 1460)
      by (Z.div_mod_to_equations; lia).
    rewrite H3, H4, H5, H6.
    change (1460 / 365) with 4. change (1460 mod 365) with 0.
    cbn [Z.eqb Pos.eqb orb]. f_equal. f_equal. lia.
Qed.

Lemma ord_decompose n :
  exists a b c e k,
    0 <= b <= 3 /\ 0 <= c <= 24 /\ 0 <= e <= 3 /\ 0 <= k <= 365
    /\ (k = 365 -> e = 3 /\ (c <> 24 \/ b = 3))
    /\ n = 146097 * a + 36524 * b + 1461 * c + 365 * e + k + 1.
Proof.
  set (a := (n - 1) / 146097). set (r1 := (n - 1) mod 146097).
  assert (Hr1 : n - 1 = 146097 * a + r1 /\ 0 <= r1 < 146097)
    by (subst a r1; Z.div_mod_to_equations; lia).
  destruct (Z.eq_dec r1 146096) as [E1|N1].
  { exists a, 3, 24, 3, 365. lia. }
  set (b := r1 / 36524). set (r2 := r1 mod 36524).
  assert (Hr2 : r1 = 36524 * b + r2 /\ 0 <= r2 < 36524 /\ 0 <= b <= 3)
    by (subst b r2; Z.div_mod_to_equations; lia).
  set (c := r2 / 1461). set (r3 := r2 mod 1461).
  assert (Hr3 : r2 = 1461 * c + r3 /\ 0 <= r3 < 1461 /\ 0 <= c <= 24)
    by (subst c r3; Z.div_mod_to_equations; lia).
  destruct (Z.eq_dec r3 1460) as [E3|N3].
  { exists a, b, c, 3, 365. lia. }
  exists a, b, c, (r3 / 365), (r3 mod 365).
  Z.div_mod_to_equations. lia.
Qed.

(** ** Ordinals and dates determine each other *)

Lemma day_of_year_bounds y m d :
  1 <= m <= 12 -> 1 <= d <= _days_in_month y m ->
  1 <= _days_before_month y m + d <= YearTable.length_of (_is_leap y).
Proof.
  intros Hm Hd. rewrite days_in_month_leap in Hd.
  rewrite days_before_month_leap.
  pose proof (days_in_le_31 (_is_leap y) m) as H31.
  pose proof (check_date_ok (_is_leap y) m d Hm ltac:(lia)) as Hc.
  unfold YearTable.check_date in Hc.
  apply orb_true_iff in Hc as [Hc|Hc]; [apply Z.ltb_lt in Hc; lia|].
  apply andb_true_iff in Hc as [Hc _]. apply andb_true_iff in Hc as [H0 H1].
  apply Z.leb_le in H0. apply Z.ltb_lt in H1. lia.
Qed.

Lemma ord2ymd_ymd2ord y m d :
  1 <= m <= 12 -> 1 <= d <= _days_in_month y m ->
  _ord2ymd (_ymd2ord y m d) = (y, m, d).
Proof.
  intros Hm Hd.
  pose proof (day_of_year_bounds y m d Hm Hd) as Hdoy.
  rewrite days_in_month_leap in Hd.
  pose proof (days_in_le_31 (_is_leap y) m) as H31.
  pose proof (check_date_ok (_is_leap y) m d Hm ltac:(lia)) as Hc.
  unfold YearTable.check_date in Hc.
  apply orb_true_iff in Hc as [Hc|Hc]; [apply Z.ltb_lt in Hc; lia|].
  apply andb_true_iff in Hc as [_ Hc].
  unfold _ymd2ord. rewrite days_before_month_leap in *.
  destruct (year_decompose y) as (a & b & c & e & Hb & Hc' & He & ->).
  rewrite days_before_year_parts by assumption.
  rewrite is_leap_parts in * by assumption.
  set (L := (e =? 3) && (negb (c =? 24) || (b =? 3))) in *.
  set (k := YearTable.days_before L m + d - 1) in *.
  destruct (Z.eqb_spec k 365) as [Hk|Hk].
  - apply andb_true_iff in Hc as [Hm12 Hd31].
    apply Z.eqb_eq in Hm12, Hd31. subst m d.
    assert (HL : L = true).
    { destruct L; [reflexivity|]. unfold YearTable.length_of in Hdoy. lia. }
    unfold L in HL. apply andb_true_iff in HL as [He3 Hcb].
    apply Z.eqb_eq in He3. subst e.
    assert (c <> 24 \/ b = 3) as Hor.
    { apply orb_true_iff in Hcb as [H|H].
      - left. apply negb_true_iff, Z.eqb_neq in H. exact H.
      - right. apply Z.eqb_eq in H. exact H. }
    replace (146097 * a + 36524 * b + 1461 * c + 365 * 3
             + YearTable.days_before L 12 + 31)
      with (146097 * a + 36524 * b + 1461 * c + 365 * 3 + 365 + 1) by lia.
    apply ord2ymd_last; assumption.
  - assert (0 <= k <= 364) as Hk'.
    { unfold YearTable.length_of in Hdoy. destruct L; lia. }
    replace (146097 * a + 36524 * b + 1461 * c + 365 * e
             + YearTable.days_before L m + d)
      with (146097 * a + 36524 * b + 1461 * c + 365 * e + k + 1) by lia.
    rewrite ord2ymd_parts by assumption. fold L.
    destruct (YearTable.month_day L k) as [m' d'].
    apply andb_true_iff in Hc as [Hm' Hd'].
    apply Z.eqb_eq in Hm', Hd'. subst. reflexivity.
Qed.

Lemma ymd2ord_ord2ymd n :
  let '(y, m, d) := _ord2ymd n in
  1 <= m <= 12 /\ 1 <= d <= _days_in_month y m /\ _ymd2ord y m d = n.
Proof.
  destruct (ord_decompose n) as (a & b & c & e & k & Hb & Hc & He & Hk & Hlast & ->).
  destruct (Z.eq_dec k 365) as [->|Hk365].
  - destruct (Hlast eq_refl) as [-> Hcb].
    rewrite ord2ymd_last by assumption.
    unfold _ymd2ord. rewrite days_in_month_leap, days_before_month_leap.
    rewrite days_before_year_parts, is_leap_parts by lia.
    assert (HL : (3 =? 3) && (negb (c =? 24) || (b =? 3)) = true).
    { apply andb_true_iff. split; [reflexivity|]. apply orb_true_iff.
      destruct Hcb as [H|H]; [left; apply negb_true_iff, Z.eqb_neq; exact H|].
      right. apply Z.eqb_eq. exact H. }
    rewrite HL. change (YearTable.days_in true 12) with 31.
    change (YearTable.days_before true 12) with 335. lia.
  - rewrite ord2ymd_parts by lia.
    pose proof (check_day_ok ((e =? 3) && (negb (c =? 24) || (b =? 3))) k
                  ltac:(lia)) as Hday.
    unfold YearTable.check_day in Hday.
    destruct (YearTable.month_day _ k) as [m d].
    repeat (apply andb_true_iff in Hday as [Hday ?]).
    unfold _ymd2ord. rewrite days_in_month_leap, days_before_month_leap.
    rewrite days_before_year_parts, is_leap_parts by lia.
    repeat match goal with
           | H : (_ <=? _) = true |- _ => apply Z.leb_le in H
           | H : (_ =? _) = true |- _ => apply Z.eqb_eq in H
           end.
    lia.
Qed.

Lemma days_before_year_mono y y' :
  y <= y' -> _days_before_year y <= _days_before_year y'.
Proof. intros H. unfold _days_before_year. Z.div_mod_to_equations. lia. Qed.

Lemma days_before_year_succ y :
  _days_before_year (y + 1)
  = _days_before_year y + YearTable.length_of (_is_leap y).
Proof.
  destruct (year_decompose y) as (a & b & c & e & Hb & Hc & He & ->).
  rewrite is_leap_parts, days_before_year_parts by assumption.
  unfold YearTable.length_of, _days_before_year.
  destruct (Z.eqb_spec e 3) as [->|He3]; cbn [andb].
  - destruct (Z.eqb_spec c 24) as [->|Hc24]; cbn [negb orb].
    + destruct (Z.eqb_spec b 3) as [->|Hb3]; Z.div_mod_to_equations; lia.
    + Z.div_mod_to_equations; lia.
  - Z.div_mod_to_equations; lia.
Qed.

Lemma toordinal_valid (d : date) :
  valid_date d ->
  1 <= toordinal d <= _MAXORDINAL /\ fromordinal (toordinal d) = d.
Proof.
  intros (Hy & Hm & Hd). unfold MINYEAR, MAXYEAR in Hy. split.
  - pose proof (day_of_year_bounds _ _ _ Hm Hd) as Hdoy.
    pose proof (days_before_year_succ (year d)) as Hs.
    pose proof (days_before_year_mono 1 (year d) ltac:(lia)) as H1.
    pose proof (days_before_year_mono (year d + 1) 10000 ltac:(lia)) as H2.
    change (_days_before_year 1) with 0 in H1.
    change (_days_before_year 10000) with 3652059 in H2.
    unfold toordinal, _ymd2ord, _MAXORDINAL. lia.
  - unfold fromordinal, toordinal. rewrite ord2ymd_ymd2ord by assumption.
    destruct d; reflexivity.
Qed.

Lemma fromordinal_valid n :
  1 <= n <= _MAXORDINAL ->
  valid_date (fromordinal n) /\ toordinal (fromordinal n) = n.
Proof.
  intros Hn. unfold _MAXORDINAL in Hn.
  pose proof (ymd2ord_ord2ymd n) as H. unfold fromordinal, toordinal, valid_date.
  destruct (_ord2ymd n) as [[y m] d]. cbn [year month day].
  destruct H as (Hm & Hd & Hord).
  split; [|exact Hord]. split; [|split; assumption].
  pose proof (day_of_year_bounds _ _ _ Hm Hd) as Hdoy.
  pose proof (days_before_year_succ y) as Hs.
  unfold _ymd2ord in Hord. unfold MINYEAR, MAXYEAR.
  destruct (Z_lt_le_dec y 1) as [Hlo|Hlo].
  - pose proof (days_before_year_mono (y + 1) 1 ltac:(lia)) as H1.
    change (_days_before_year 1) with 0 in H1. lia.
  - destruct (Z_lt_le_dec 9999 y) as [Hhi|Hhi]; [|lia].
    pose proof (days_before_year_mono 10000 y ltac:(lia)) as H2.
    change (_days_before_year 10000) with 3652059 in H2. lia.
Qed.

(** * [relativedelta] against calendar arithmetic *)

Lemma fix_total (r : relativedelta) :
  Delta.total_months (_fix r) = Delta.total_months r
  /\ Delta.total_half_hours (_fix r) = Delta.total_half_hours r
  /\ Z.abs (Relativedelta.months (_fix r)) <= 11
  /\ Z.even (Relativedelta.days (_fix r)) = Z.even (Relativedelta.days r).
Proof.
  destruct r as [y m d h].
  unfold _fix, Delta.total_months, Delta.total_half_hours, _sign, Half.of_int.
  cbn [Relativedelta.years Relativedelta.months Relativedelta.days
       Relativedelta.hours].
  destruct (Z.ltb_spec (2 * 23) (Z.abs h)) as [Hh|Hh];
    cbn [Relativedelta.years Relativedelta.months Relativedelta.days
         Relativedelta.hours];
    destruct (Z.ltb_spec 11 (Z.abs m)) as [Hm|Hm];
    cbn [Relativedelta.years Relativedelta.months Relativedelta.days
         Relativedelta.hours];
    repeat match goal with
           | |- context [?x <? 0] => destruct (Z.ltb_spec x 0)
           end;
    repeat split;
    try (rewrite Z.even_add_mul_2; reflexivity);
    try reflexivity;
    try (Z.div_mod_to_equations; lia).
Qed.

Lemma relativedelta_new_int (y m : Z) (d h : Half.t) :
  relativedelta_new (Half.of_int y) (Half.of_int m) d h
  = OK (_fix (mkrd y m d h)).
Proof.
  unfold relativedelta_new, Half.is_integral, Half.to_int, Half.of_int.
  rewrite !Z.even_mul. cbn [Z.even orb andb negb].
  replace (2 * y / 2) with y by (Z.div_mod_to_equations; lia).
  replace (2 * m / 2) with m by (Z.div_mod_to_equations; lia).
  reflexivity.
Qed.

Lemma neg_total (r : relativedelta) :
  exists r',
    neg r = OK r'
    /\ Delta.total_months r' = - Delta.total_months r
    /\ Delta.total_half_hours r' = - Delta.total_half_hours r
    /\ Z.abs (Relativedelta.months r') <= 11
    /\ Z.even (Relativedelta.days r') = Z.even (Relativedelta.days r).
Proof.
  unfold neg. rewrite relativedelta_new_int. eexists. split; [reflexivity|].
  destruct (fix_total (mkrd (- Relativedelta.years r) (- Relativedelta.months r)
                            (- Relativedelta.days r) (- Relativedelta.hours r)))
    as (Hm & Hh & Habs & Hev).
  rewrite Hm, Hh, Hev.
  unfold Delta.total_months, Delta.total_half_hours.
  cbn [Relativedelta.years Relativedelta.months Relativedelta.days
       Relativedelta.hours].
  rewrite Z.even_opp. repeat split; try lia; try exact Habs.
Qed.

Lemma kwargs_total (g : granularity) (k : Z) :
  exists r,
    relativedelta_kwargs (unit_of g) (k * increment_of g) = OK r
    /\ Delta.total_months r = Delta.months_of g k
    /\ Delta.total_half_hours r = Delta.half_hours_of g k
    /\ Delta.normalized r.
Proof.
  unfold Delta.normalized.
  destruct g; cbn [unit_of increment_of relativedelta_kwargs
                   Delta.months_of Delta.half_hours_of].
  - (* half hours *)
    change 0 with (Half.of_int 0) at 1 2. rewrite relativedelta_new_int.
    eexists. split; [reflexivity|].
    match goal with |- context [_fix ?r] => destruct (fix_total r) as (Hm & Hh & Habs & Hev) end.
    rewrite Hm, Hh, Hev. unfold Delta.total_months, Delta.total_half_hours.
    cbn. unfold inc_half, inc_one, Half.of_int in *.
    repeat split; try lia; try exact Habs.
  - (* days *)
    change 0 with (Half.of_int 0) at 1 2. rewrite relativedelta_new_int.
    eexists. split; [reflexivity|].
    match goal with |- context [_fix ?r] => destruct (fix_total r) as (Hm & Hh & Habs & Hev) end.
    rewrite Hm, Hh, Hev. unfold Delta.total_months, Delta.total_half_hours.
    cbn [Relativedelta.years Relativedelta.months Relativedelta.days
         Relativedelta.hours].
    unfold inc_one, Half.of_int. rewrite Z.even_mul. cbn [Z.even orb].
    rewrite orb_true_r. unfold inc_one, Half.of_int in *.
    repeat split; try lia; try exact Habs.
  - (* months *)
    change 0 with (Half.of_int 0) at 1.
    replace (k * inc_one) with (Half.of_int k) by (unfold inc_one, Half.of_int; lia).
    rewrite relativedelta_new_int.
    eexists. split; [reflexivity|].
    match goal with |- context [_fix ?r] => destruct (fix_total r) as (Hm & Hh & Habs & Hev) end.
    rewrite Hm, Hh, Hev. unfold Delta.total_months, Delta.total_half_hours.
    cbn. unfold inc_half, inc_one, Half.of_int in *.
    repeat split; try lia; try exact Habs.
  - (* years *)
    change 0 with (Half.of_int 0) at 1.
    replace (k * inc_one) with (Half.of_int k) by (unfold inc_one, Half.of_int; lia).
    rewrite relativedelta_new_int.
    eexists. split; [reflexivity|].
    match goal with |- context [_fix ?r] => destruct (fix_total r) as (Hm & Hh & Habs & Hev) end.
    rewrite Hm, Hh, Hev. unfold Delta.total_months, Delta.total_half_hours.
    cbn. unfold inc_half, inc_one, Half.of_int in *.
    repeat split; try lia; try exact Habs.
Qed.

Lemma monthrange_ndays_ok (y m : Z) :
  1 <= m <= 12 -> Calendar.monthrange_ndays y m = OK (_days_in_month y m).
Proof.
  intros Hm. unfold Calendar.monthrange_ndays.
  replace ((1 <=? m) && (m <=? 12)) with true
    by (symmetry; apply andb_true_iff; split; apply Z.leb_le; lia).
  cbn [negb]. f_equal. unfold _days_in_month.
  change (Calendar.isleap y) with (_is_leap y).
  assert (Hcases : m = 1 \/ m = 2 \/ m = 3 \/ m = 4 \/ m = 5 \/ m = 6 \/ m = 7
                   \/ m = 8 \/ m = 9 \/ m = 10 \/ m = 11 \/ m = 12) by lia.
  repeat (destruct Hcases as [->|Hcases]); try subst m;
    try reflexivity; destruct (_is_leap y); reflexivity.
Qed.

Lemma days_in_month_pos (y m : Z) : 1 <= m <= 12 -> 28 <= _days_in_month y m <= 31.
Proof.
  intros Hm.
  assert (Hcases : m = 1 \/ m = 2 \/ m = 3 \/ m = 4 \/ m = 5 \/ m = 6 \/ m = 7
                   \/ m = 8 \/ m = 9 \/ m = 10 \/ m = 11 \/ m = 12) by lia.
  unfold _days_in_month.
  repeat (destruct Hcases as [->|Hcases]); try subst m;
    try (vm_compute; split; discriminate);
    destruct (_is_leap y); vm_compute; split; discriminate.
Qed.

(** ** Adding the days and hours of a [relativedelta] *)

Lemma timedelta_new_parts (days hours : Half.t) :
  let h := 24 * days + hours in
  timedelta_new days hours
  = if negb ((-999999999 <=? h / 48) && (h / 48 <=? 999999999))
    then Raise OverflowError
    else OK (mktimedelta (h / 48) (1800 * (h mod 48))).
Proof.
  cbv zeta. unfold timedelta_new.
  replace ((days * 43200 + hours * 1800) / 86400) with ((24 * days + hours) / 48)
    by (Z.div_mod_to_equations; lia).
  replace ((days * 43200 + hours * 1800) mod 86400)
    with (1800 * ((24 * days + hours) mod 48))
    by (Z.div_mod_to_equations; lia).
  reflexivity.
Qed.

Lemma in_calendar_spec n : in_calendar n = (0 <? n) && (n <=? _MAXORDINAL).
Proof.
  unfold in_calendar. f_equal.
  destruct (Z.leb_spec 1 n), (Z.ltb_spec 0 n); try reflexivity; lia.
Qed.

Lemma add_timedelta_shift (o : dateobj) (days hours : Half.t) :
  Delta.wf o ->
  Z.even days = true ->
  (forall d, o = ADate d -> hours = 0) ->
  match (delta ← timedelta_new days hours; add_timedelta o delta) with
  | OK o' =>
      Delta.wf o'
      /\ plus_half_hours (24 * days + hours) (instant_of o) = Some (instant_of o')
  | Raise _ => plus_half_hours (24 * days + hours) (instant_of o) = None
  end.
Proof.
  intros [Hvalid Htime] Heven Hdate.
  destruct (toordinal_valid _ Hvalid) as [Hord _]. unfold _MAXORDINAL in Hord.
  rewrite timedelta_new_parts. cbv zeta.
  set (h := 24 * days + hours) in *.
  assert (Hh : h = 48 * (h / 48) + h mod 48 /\ 0 <= h mod 48 < 48)
    by (Z.div_mod_to_equations; lia).
  set (q := h / 48) in *. set (r := h mod 48) in *.
  unfold plus_half_hours.
  destruct o as [d|d t]; cbn [instant_of on half_hour date_of] in *.
  - (* a date moves by whole days *)
    assert (hours = 0) as Hz by (apply (Hdate d); reflexivity).
    apply Z.even_spec in Heven as [days' Hdays'].
    assert (r = 0) as Hr by lia.
    replace ((toordinal d * 48 + 0 + h) / 48) with (toordinal d + q)
      by (Z.div_mod_to_equations; lia).
    replace ((toordinal d * 48 + 0 + h) mod 48) with 0
      by (Z.div_mod_to_equations; lia).
    destruct (negb _) eqn:Hover; cbn [mbind result_bind bind].
    + apply negb_true_iff, andb_false_iff in Hover.
      replace (in_calendar (toordinal d + q)) with false; [reflexivity|].
      symmetry. unfold in_calendar, _MAXORDINAL. apply andb_false_iff.
      destruct Hover as [H|H]; [left | right]; apply Z.leb_gt;
        apply Z.leb_gt in H; lia.
    + cbn [add_timedelta td_days]. rewrite <- in_calendar_spec.
      destruct (in_calendar (toordinal d + q)) eqn:Hcal; [|reflexivity].
      split; [|reflexivity].
      split; [|exact I]. cbn [date_of]. apply fromordinal_valid.
      unfold in_calendar in Hcal. apply andb_true_iff in Hcal as [H1 H2].
      apply Z.leb_le in H1, H2. lia.
  - (* a datetime moves by days and seconds *)
    destruct t as [hr mi se]. destruct Htime as (Hhr & Hmi & Hse).
    cbn [hour minute second] in *. subst se.
    set (hh := hr * 2 + mi / 30).
    assert (Hhh : 0 <= hh < 48 /\ hr * 3600 + mi * 60 = 1800 * hh).
    { subst hh. destruct Hmi as [-> | ->].
      - change (0 / 30) with 0. lia.
      - change (30 / 30) with 1. lia. }
    destruct Hhh as [Hhh Hsec].
    replace ((toordinal d * 48 + hh + h) / 48)
      with (toordinal d + q + (hh + r) / 48) by (Z.div_mod_to_equations; lia).
    replace ((toordinal d * 48 + hh + h) mod 48) with ((hh + r) mod 48)
      by (Z.div_mod_to_equations; lia).
    destruct (negb _) eqn:Hover; cbn [mbind result_bind bind].
    + apply negb_true_iff, andb_false_iff in Hover.
      replace (in_calendar (toordinal d + q + (hh + r) / 48)) with false;
        [reflexivity|].
      symmetry. unfold in_calendar, _MAXORDINAL. apply andb_false_iff.
      destruct Hover as [H|H]; [left | right]; apply Z.leb_gt;
        apply Z.leb_gt in H; Z.div_mod_to_equations; lia.
    + cbn [add_timedelta td_days td_seconds hour minute second].
      replace (hr * 3600 + mi * 60 + 0 + 1800 * r) with (1800 * (hh + r)) by lia.
      replace (1800 * (hh + r) / 86400) with ((hh + r) / 48)
        by (Z.div_mod_to_equations; lia).
      replace ((1800 * (hh + r)) mod 86400) with (1800 * ((hh + r) mod 48))
        by (Z.div_mod_to_equations; lia).
      rewrite <- in_calendar_spec.
      destruct (in_calendar _) eqn:Hcal; [|reflexivity].
      set (w := (hh + r) mod 48).
      assert (Hw : 0 <= w < 48) by (subst w; Z.div_mod_to_equations; lia).
      assert (E1 : 1800 * w / 3600 = w / 2) by (Z.div_mod_to_equations; lia).
      assert (E2 : (1800 * w) mod 3600 = 1800 * (w mod 2))
        by (Z.div_mod_to_equations; lia).
      rewrite E1, E2.
      assert (Hw2 : w mod 2 = 0 \/ w mod 2 = 1) by (Z.div_mod_to_equations; lia).
      split.
      * split.
        -- cbn [date_of]. apply fromordinal_valid.
           unfold in_calendar in Hcal. apply andb_true_iff in Hcal as [H1 H2].
           apply Z.leb_le in H1, H2. lia.
        -- unfold Delta.wf_time. cbn [hour minute second].
           destruct Hw2 as [-> | ->]; cbn; split; try (Z.div_mod_to_equations; lia);
             split; auto.
      * cbn [instant_of hour minute]. f_equal. f_equal.
        destruct Hw2 as [E | E]; rewrite E; cbn; Z.div_mod_to_equations; lia.
Qed.

(** ** Adding a whole [relativedelta] *)

Lemma to_datetime_wf (o : dateobj) :
  Delta.wf o ->
  Delta.wf (to_datetime o) /\ instant_of (to_datetime o) = instant_of o
  /\ (forall d, to_datetime o <> ADate d).
Proof.
  intros [Hv Ht]. destruct o as [d|d t]; cbn [to_datetime].
  - destruct (toordinal_valid d Hv) as [_ ->].
    split; [split; [exact Hv | unfold Delta.wf_time; cbn; lia]|].
    split; [reflexivity | intros ? ?; discriminate].
  - split; [split; assumption|].
    split; [reflexivity | intros ? ?; discriminate].
Qed.

Lemma replace_spec (o : dateobj) (y m d : Z) :
  1 <= m <= 12 -> 1 <= d <= _days_in_month y m ->
  replace o y m d
  = if supported_year y
    then OK (match o with
             | ADate _ => ADate (mkdate y m d)
             | ADatetime _ t => ADatetime (mkdate y m d) t
             end)
    else Raise (if fits_c_int y then ValueError else OverflowError).
Proof.
  intros Hm Hd. pose proof (days_in_month_pos y m Hm) as Hdays.
  unfold replace, _check_date_fields, supported_year.
  replace (fits_c_int m) with true
    by (symmetry; apply andb_true_iff; split; apply Z.leb_le; lia).
  replace (fits_c_int d) with true
    by (symmetry; apply andb_true_iff; split; apply Z.leb_le; lia).
  rewrite !andb_true_r.
  destruct ((MINYEAR <=? y) && (y <=? MAXYEAR)) eqn:Hy.
  - replace (fits_c_int y) with true
      by (symmetry; apply andb_true_iff in Hy as [H1 H2];
          apply Z.leb_le in H1, H2; unfold MINYEAR, MAXYEAR in *;
          apply andb_true_iff; split; apply Z.leb_le; lia).
    cbn [negb].
    replace ((1 <=? m) && (m <=? 12)) with true
      by (symmetry; apply andb_true_iff; split; apply Z.leb_le; lia).
    replace ((1 <=? d) && (d <=? _days_in_month y m)) with true
      by (symmetry; apply andb_true_iff; split; apply Z.leb_le; lia).
    destruct o; reflexivity.
  - destruct (fits_c_int y); reflexivity.
Qed.

Lemma radd_shift (r : relativedelta) (o : dateobj) :
  Delta.wf o -> Delta.normalized r ->
  match radd r o with
  | OK o' =>
      Delta.wf o'
      /\ Delta.shift (Delta.total_months r) (Delta.total_half_hours r)
                     (instant_of o) = Some (instant_of o')
  | Raise _ =>
      Delta.shift (Delta.total_months r) (Delta.total_half_hours r)
                  (instant_of o) = None
  end.
Proof.
  intros Hwf [Habs Heven]. unfold radd.
  set (o1 := if _has_time r then to_datetime o else o).
  assert (H1 : Delta.wf o1 /\ instant_of o1 = instant_of o
               /\ (forall d, o1 = ADate d -> Relativedelta.hours r = 0)).
  { subst o1. unfold _has_time.
    destruct (Z.eqb_spec (Relativedelta.hours r) 0) as [E|E]; cbn [negb].
    - repeat split; try apply Hwf. intros; exact E.
    - destruct (to_datetime_wf o Hwf) as (Hw & Hi & Hn).
      repeat split; try apply Hw; try exact Hi.
      intros d Hd. exfalso. exact (Hn d Hd). }
  destruct H1 as (Hwf1 & Hinst & Hdate). rewrite <- Hinst.
  clearbody o1. clear Hwf Hinst o.
  destruct Hwf1 as [[Hy [Hm Hd]] Htime].
  set (y0 := year (date_of o1)) in *. set (m0 := month (date_of o1)) in *.
  set (d0 := day (date_of o1)) in *.
  set (total := y0 * 12 + (m0 - 1) + Delta.total_months r).
  assert (Hym :
    (if negb (Relativedelta.months r =? 0)
     then let month := m0 + Relativedelta.months r in
          if 12 <? month then (y0 + Relativedelta.years r + 1, month - 12)
          else if month <? 1 then (y0 + Relativedelta.years r - 1, month + 12)
          else (y0 + Relativedelta.years r, month)
     else (y0 + Relativedelta.years r, m0))
    = (total / 12, total mod 12 + 1)).
  { subst total. unfold Delta.total_months. cbv zeta.
    destruct (Z.eqb_spec (Relativedelta.months r) 0) as [E|E]; cbn [negb].
    - f_equal; Z.div_mod_to_equations; lia.
    - destruct (Z.ltb_spec 12 (m0 + Relativedelta.months r));
        [|destruct (Z.ltb_spec (m0 + Relativedelta.months r) 1)];
        f_equal; Z.div_mod_to_equations; lia. }
  cbv zeta. cbv zeta in Hym. rewrite Hym. clear Hym.
  set (y1 := total / 12). set (m1 := total mod 12 + 1).
  assert (Hm1 : 1 <= m1 <= 12) by (subst m1; Z.div_mod_to_equations; lia).
  rewrite monthrange_ndays_ok by exact Hm1. cbn [mbind result_bind bind].
  pose proof (days_in_month_pos y1 m1 Hm1) as Hdim.
  rewrite replace_spec by (try exact Hm1; lia).
  unfold Delta.shift, plus_months.
  replace (year (on (instant_of o1))) with y0 by (destruct o1; reflexivity).
  replace (month (on (instant_of o1))) with m0 by (destruct o1; reflexivity).
  replace (day (on (instant_of o1))) with d0 by (destruct o1; reflexivity).
  fold total. cbv zeta. fold y1 m1. unfold clamp_day.
  destruct (supported_year y1) eqn:Hsup; cbn [mbind result_bind bind option_bind];
    [|reflexivity].
  set (d1 := Z.min (_days_in_month y1 m1) d0).
  set (o2 := match o1 with
             | ADate _ => ADate (mkdate y1 m1 d1)
             | ADatetime _ t => ADatetime (mkdate y1 m1 d1) t
             end).
  assert (Hwf2 : Delta.wf o2).
  { subst o2. unfold supported_year in Hsup.
    apply andb_true_iff in Hsup as [Ha Hb]. apply Z.leb_le in Ha, Hb.
    unfold Delta.wf, valid_date, MINYEAR, MAXYEAR in *.
    destruct o1; cbn [date_of year month day] in *;
      (split; [subst d1; lia | assumption]). }
  assert (Hi2 : instant_of o2 = mkinstant (mkdate y1 m1 d1) (half_hour (instant_of o1)))
    by (subst o2; destruct o1; reflexivity).
  assert (Hd2 : forall d, o2 = ADate d -> Relativedelta.hours r = 0).
  { intros d Hd2. subst o2. destruct o1 as [d'|]; [|discriminate].
    apply (Hdate d'). reflexivity. }
  rewrite <- Hi2.
  exact (add_timedelta_shift o2 _ _ Hwf2 Heven Hd2).
Qed.

(** * Steps of a granularity *)

Lemma wf_valid_instant (o : dateobj) : Delta.wf o -> valid_instant (instant_of o).
Proof.
  intros [Hv Ht]. destruct o as [d|d [hr mi se]]; split; try exact Hv; cbn.
  - lia.
  - destruct Ht as (Hhr & [Hmi|Hmi] & _); cbn in *; subst mi.
    + change (0 / 30) with 0. lia.
    + change (30 / 30) with 1. lia.
Qed.

Lemma plus_months_zero (t : instant) : valid_instant t -> plus_months 0 t = Some t.
Proof.
  intros [(Hy & Hm & Hd) Hh]. unfold plus_months. cbv zeta.
  replace ((year (on t) * 12 + (month (on t) - 1) + 0) / 12) with (year (on t))
    by (Z.div_mod_to_equations; lia).
  replace ((year (on t) * 12 + (month (on t) - 1) + 0) mod 12 + 1)
    with (month (on t)) by (Z.div_mod_to_equations; lia).
  unfold supported_year.
  replace ((MINYEAR <=? year (on t)) && (year (on t) <=? MAXYEAR)) with true
    by (symmetry; apply andb_true_iff; split; apply Z.leb_le; lia).
  unfold clamp_day. rewrite Z.min_r by lia.
  destruct t as [[y m d] h]. reflexivity.
Qed.

Lemma plus_months_valid (k : Z) (t t' : instant) :
  valid_instant t -> plus_months k t = Some t' -> valid_instant t'.
Proof.
  intros [(Hy & Hm & Hd) Hh]. unfold plus_months. cbv zeta.
  set (total := year (on t) * 12 + (month (on t) - 1) + k).
  destruct (supported_year (total / 12)) eqn:Hsup; [|discriminate].
  intros [= <-]. unfold supported_year in Hsup.
  apply andb_true_iff in Hsup as [Ha Hb]. apply Z.leb_le in Ha, Hb.
  assert (Hm1 : 1 <= total mod 12 + 1 <= 12) by (Z.div_mod_to_equations; lia).
  pose proof (days_in_month_pos (total / 12) _ Hm1) as Hdim.
  split; [|exact Hh]. unfold valid_date, clamp_day. cbn [on year month day].
  lia.
Qed.

Lemma plus_half_hours_zero (t : instant) :
  valid_instant t -> plus_half_hours 0 t = Some t.
Proof.
  intros [Hv Hh]. unfold plus_half_hours. cbv zeta.
  destruct (toordinal_valid _ Hv) as [Hord Hback].
  replace ((toordinal (on t) * 48 + half_hour t + 0) / 48) with (toordinal (on t))
    by (Z.div_mod_to_equations; lia).
  replace ((toordinal (on t) * 48 + half_hour t + 0) mod 48) with (half_hour t)
    by (Z.div_mod_to_equations; lia).
  unfold in_calendar.
  replace ((1 <=? toordinal (on t)) && (toordinal (on t) <=? _MAXORDINAL)) with true
    by (symmetry; apply andb_true_iff; split; apply Z.leb_le; lia).
  rewrite Hback. destruct t; reflexivity.
Qed.

Lemma plus_half_hours_days (k : Z) (t : instant) :
  valid_instant t -> plus_half_hours (48 * k) t = plus_days k t.
Proof.
  intros [Hv Hh]. unfold plus_half_hours, plus_days. cbv zeta.
  replace ((toordinal (on t) * 48 + half_hour t + 48 * k) / 48)
    with (toordinal (on t) + k) by (Z.div_mod_to_equations; lia).
  replace ((toordinal (on t) * 48 + half_hour t + 48 * k) mod 48)
    with (half_hour t) by (Z.div_mod_to_equations; lia).
  reflexivity.
Qed.

Lemma plus_months_years (k : Z) (t : instant) :
  valid_instant t -> plus_months (12 * k) t = plus_years k t.
Proof.
  intros [(Hy & Hm & Hd) Hh]. unfold plus_months, plus_years. cbv zeta.
  replace ((year (on t) * 12 + (month (on t) - 1) + 12 * k) / 12)
    with (year (on t) + k) by (Z.div_mod_to_equations; lia).
  replace ((year (on t) * 12 + (month (on t) - 1) + 12 * k) mod 12 + 1)
    with (month (on t)) by (Z.div_mod_to_equations; lia).
  reflexivity.
Qed.

Lemma shift_steps (g : granularity) (k : Z) (t : instant) :
  valid_instant t ->
  Delta.shift (Delta.months_of g k) (Delta.half_hours_of g k) t = plus_steps g k t.
Proof.
  intros Hv. unfold Delta.shift.
  destruct g; cbn [Delta.months_of Delta.half_hours_of plus_steps].
  - rewrite plus_months_zero by exact Hv. reflexivity.
  - rewrite plus_months_zero by exact Hv. cbn [mbind option_bind].
    apply plus_half_hours_days. exact Hv.
  - destruct (plus_months k t) as [t'|] eqn:Hm; [|reflexivity].
    cbn [mbind option_bind]. apply plus_half_hours_zero.
    exact (plus_months_valid _ _ _ Hv Hm).
  - rewrite plus_months_years by exact Hv.
    destruct (plus_years k t) as [t'|] eqn:Hm; [|reflexivity].
    cbn [mbind option_bind]. apply plus_half_hours_zero.
    rewrite <- plus_months_years in Hm by exact Hv.
    exact (plus_months_valid _ _ _ Hv Hm).
Qed.

(** [start + relativedelta(unit = k * inc)] is [k] steps after [start]. *)
Lemma radd_steps (g : granularity) (k : Z) (r : relativedelta) (o : dateobj) :
  Delta.wf o ->
  relativedelta_kwargs (unit_of g) (k * increment_of g) = OK r ->
  match radd r o with
  | OK o' => Delta.wf o' /\ plus_steps g k (instant_of o) = Some (instant_of o')
  | Raise _ => plus_steps g k (instant_of o) = None
  end.
Proof.
  intros Hwf Hr.
  destruct (kwargs_total g k) as (r0 & Hr0 & Hm & Hh & Hn).
  rewrite Hr in Hr0. injection Hr0 as <-.
  pose proof (radd_shift r o Hwf Hn) as H. rewrite Hm, Hh in H.
  rewrite shift_steps in H by (apply wf_valid_instant; exact Hwf). exact H.
Qed.

(** [start - relativedelta(unit = k * inc)] is [k] steps before [start]. *)
Lemma rsub_steps (g : granularity) (k : Z) (r : relativedelta) (o : dateobj) :
  Delta.wf o ->
  relativedelta_kwargs (unit_of g) (k * increment_of g) = OK r ->
  match rsub r o with
  | OK o' => Delta.wf o' /\ plus_steps g (- k) (instant_of o) = Some (instant_of o')
  | Raise _ => plus_steps g (- k) (instant_of o) = None
  end.
Proof.
  intros Hwf Hr.
  destruct (kwargs_total g k) as (r0 & Hr0 & Hm & Hh & Hn).
  rewrite Hr in Hr0. injection Hr0 as <-.
  destruct (neg_total r) as (r' & Hneg & Hm' & Hh' & Habs & Hev).
  unfold rsub. rewrite Hneg. cbn [mbind result_bind bind].
  assert (Hn' : Delta.normalized r').
  { split; [exact Habs|]. rewrite Hev. apply Hn. }
  pose proof (radd_shift r' o Hwf Hn') as H. rewrite Hm', Hh', Hm, Hh in H.
  replace (- Delta.months_of g k) with (Delta.months_of g (- k)) in H
    by (destruct g; cbn; lia).
  replace (- Delta.half_hours_of g k) with (Delta.half_hours_of g (- k)) in H
    by (destruct g; cbn; lia).
  rewrite shift_steps in H by (apply wf_valid_instant; exact Hwf). exact H.
Qed.

(** ** Labels *)

Lemma strftime_items_ext (o o' : dateobj) (fmt : list item) :
  date_of o = date_of o' ->
  hour (time_of o) = hour (time_of o') ->
  minute (time_of o) = minute (time_of o') ->
  strftime_items o fmt = strftime_items o' fmt.
Proof.
  intros Hd Hh Hm. induction fmt as [|[c|c] fmt IH]; cbn [strftime_items].
  - reflexivity.
  - rewrite IH. reflexivity.
  - rewrite IH, Hd, Hh, Hm. reflexivity.
Qed.

Lemma strftime_format (o : dateobj) (pattern : string) :
  Delta.wf o -> strftime o pattern = format pattern (instant_of o).
Proof.
  intros [Hv Ht]. unfold format, strftime. apply strftime_items_ext.
  - destruct o; reflexivity.
  - destruct o as [d|d [hr mi se]]; cbn; [reflexivity|].
    destruct Ht as (Hhr & [Hmi|Hmi] & _); cbn in *; subst mi.
    + change (0 / 30) with 0. Z.div_mod_to_equations; lia.
    + change (30 / 30) with 1. Z.div_mod_to_equations; lia.
  - destruct o as [d|d [hr mi se]]; cbn; [reflexivity|].
    destruct Ht as (Hhr & [Hmi|Hmi] & _); cbn in *; subst mi.
    + change (0 / 30) with 0. Z.div_mod_to_equations; lia.
    + change (30 / 30) with 1. Z.div_mod_to_equations; lia.
Qed.

Lemma strftime_label (g : granularity) (o : dateobj) :
  Delta.wf o -> strftime o (pattern_of g) = label g (instant_of o).
Proof. intros Hwf. unfold label. apply strftime_format. exact Hwf. Qed.

(** * The loops of the script *)

Lemma list_insert_end {A} (x : A) (l : list A) :
  list_insert (length l) x l = l ++ [x].
Proof. unfold list_insert. rewrite take_ge, drop_ge by lia. reflexivity. Qed.

Lemma bind_ok {A B} (r : result A) (k : A -> result B) (b : B) :
  (r ≫= k) = OK b <-> exists a, r = OK a /\ k a = OK b.
Proof.
  destruct r as [a|e]; cbn.
  - split; [eauto | intros (a' & [= <-] & H); exact H].
  - split; [discriminate | intros (a' & H & _); discriminate].
Qed.

Lemma traverse_ok {A B} (f : nat -> A -> result B) (l : list A) :
  forall (i : nat) (ys : list B),
    Loop.traverse f i l = OK ys
    <-> length ys = length l
        /\ forall (j : nat) (x : A),
             l !! j = Some x -> exists y, f (i + j)%nat x = OK y /\ ys !! j = Some y.
Proof.
  induction l as [|x l IH]; intros i ys; cbn [Loop.traverse].
  - split.
    + intros [= <-]. split; [reflexivity|]. intros j x Hj. discriminate.
    + intros [Hlen _]. destruct ys; [reflexivity | discriminate].
  - rewrite bind_ok. split.
    + intros (y & Hy & Hrest). apply bind_ok in Hrest as (ys' & Hys' & [= <-]).
      apply IH in Hys' as [Hlen Hall]. split; [cbn; lia|].
      intros [|j] x' Hj; cbn in Hj.
      * injection Hj as <-. exists y. rewrite Nat.add_0_r. split; [exact Hy|reflexivity].
      * destruct (Hall j x' Hj) as (y' & Hy' & Hl).
        exists y'. rewrite Nat.add_succ_r. split; [exact Hy' | exact Hl].
    + intros [Hlen Hall]. destruct ys as [|y ys]; [discriminate|].
      destruct (Hall 0%nat x eq_refl) as (y' & Hy' & [= <-]).
      rewrite Nat.add_0_r in Hy'. exists y. split; [exact Hy'|].
      apply bind_ok. exists ys. split; [|reflexivity].
      apply IH. split; [cbn in Hlen; lia|].
      intros j x' Hj. destruct (Hall (S j) x' Hj) as (y'' & Hy'' & Hl).
      exists y''. rewrite Nat.add_succ_r in Hy''. split; [exact Hy'' | exact Hl].
Qed.

Lemma y_axis_loop_traverse (items : list value) :
  forall (ordre : nat) (acc : list value),
    length acc = ordre ->
    y_axis_loop items ordre acc
    = (ys ← Loop.traverse Loop.y_step ordre items; OK (acc ++ ys)).
Proof.
  induction items as [|dp items IH]; intros ordre acc Hlen;
    cbn [y_axis_loop Loop.traverse].
  - cbn. rewrite app_nil_r. reflexivity.
  - change (Loop.y_step ordre dp)
      with (value ← getitem dp "valeur";
            negative ← lt_zero value;
            OK (if negative : bool then PyInt 0 else value)).
    destruct (getitem dp "valeur") as [v|e]; [|reflexivity]. cbn [mbind result_bind bind].
    destruct (lt_zero v) as [b|e]; [|reflexivity]. cbn [mbind result_bind bind].
    subst ordre. rewrite list_insert_end.
    rewrite IH by (rewrite length_app; cbn; lia).
    destruct (Loop.traverse Loop.y_step _ items) as [ys|e]; [|reflexivity].
    cbn. rewrite <- app_assoc. reflexivity.
Qed.

Lemma x_axis_loop_traverse start u fmt inc (items : list value) :
  forall (ordre : nat) (acc : list string),
    length acc = ordre ->
    x_axis_loop start u fmt inc items ordre acc
    = (xs ← Loop.traverse (Loop.x_step start u fmt inc) ordre items;
       OK (acc ++ xs)).
Proof.
  induction items as [|dp items IH]; intros ordre acc Hlen;
    cbn [x_axis_loop Loop.traverse].
  - cbn. rewrite app_nil_r. reflexivity.
  - change (Loop.x_step start u fmt inc ordre dp)
      with (delta ← relativedelta_kwargs u (Z.of_nat ordre * inc);
            instant ← radd delta start;
            OK (strftime instant fmt)).
    destruct (relativedelta_kwargs u _) as [delta|e]; [|reflexivity].
    cbn [mbind result_bind bind].
    destruct (radd delta start) as [instant|e]; [|reflexivity].
    cbn [mbind result_bind bind].
    subst ordre. rewrite list_insert_end.
    rewrite IH by (rewrite length_app; cbn; lia).
    destruct (Loop.traverse _ _ items) as [xs|e]; [|reflexivity].
    cbn. rewrite <- app_assoc. reflexivity.
Qed.

(** * The time axis *)

Lemma check_date_fields_valid (y m d : Z) (dt : date) :
  _check_date_fields y m d = OK dt -> dt = mkdate y m d /\ valid_date dt.
Proof.
  unfold _check_date_fields.
  destruct ((MINYEAR <=? y) && (y <=? MAXYEAR)) eqn:Hy; [|discriminate].
  destruct ((1 <=? m) && (m <=? 12)) eqn:Hm; [|discriminate].
  destruct ((1 <=? d) && (d <=? _days_in_month y m)) eqn:Hd; [|discriminate].
  cbn [negb]. intros [= <-]. split; [reflexivity|].
  apply andb_true_iff in Hy as [Hy1 Hy2], Hm as [Hm1 Hm2], Hd as [Hd1 Hd2].
  apply Z.leb_le in Hy1, Hy2, Hm1, Hm2, Hd1, Hd2.
  unfold valid_date. cbn [year month day]. lia.
Qed.

Lemma strptime_wf (v : value) (format : string) (o : dateobj) :
  strptime v format = OK o ->
  Delta.wf (date_method o) /\ instant_of (date_method o) = midnight (date_of o).
Proof.
  unfold strptime. destruct v; try discriminate.
  destruct (re_match _ _ _) as [[|[f rest] l]|]; try discriminate.
  destruct (negb _); [discriminate|].
  destruct (_check_date_fields _ _ _) as [d|e] eqn:Hd; [|discriminate].
  cbn [mbind result_bind bind]. intros [= <-].
  apply check_date_fields_valid in Hd as [_ Hv].
  split; [split; [exact Hv | exact I] | reflexivity].
Qed.

Lemma x_step_spec (g : granularity) (o : dateobj) (i : nat) (dp : value) (y : string) :
  Delta.wf o ->
  Loop.x_step o (unit_of g) (pattern_of g) (increment_of g) i dp = OK y
  <-> exists t, plus_steps g (Z.of_nat i) (instant_of o) = Some t /\ y = label g t.
Proof.
  intros Hwf. unfold Loop.x_step.
  destruct (kwargs_total g (Z.of_nat i)) as (r & Hr & _).
  rewrite Hr. cbn [mbind result_bind bind].
  pose proof (radd_steps g (Z.of_nat i) r o Hwf Hr) as H.
  destruct (radd r o) as [o'|e]; cbn [mbind result_bind bind].
  - destruct H as [Hwf' Hplus]. rewrite (strftime_label g o' Hwf'). split.
    + intros [= <-]. eauto.
    + intros (t & Ht & ->). rewrite Hplus in Ht. injection Ht as <-. reflexivity.
  - split; [discriminate|]. intros (t & Ht & _). rewrite H in Ht. discriminate.
Qed.

Lemma start_date_spec (g : granularity) (dec : Z) (o : dateobj) :
  Delta.wf o ->
  match (delta ← relativedelta_kwargs (unit_of g) (dec * increment_of g);
         rsub delta o) with
  | OK o' => Delta.wf o' /\ plus_steps g (- dec) (instant_of o) = Some (instant_of o')
  | Raise _ => plus_steps g (- dec) (instant_of o) = None
  end.
Proof.
  intros Hwf. destruct (kwargs_total g dec) as (r & Hr & _).
  rewrite Hr. cbn [mbind result_bind bind]. exact (rsub_steps g dec r o Hwf Hr).
Qed.

(** The fields read from a response, once and for all. *)
Lemma generate_x_axis_fields (res : value) u fmt inc (v d : value) (items : list value) :
  dateDebut_of res = OK v -> decalage_of res = OK d -> data_of res = OK items ->
  generate_x_axis res u fmt inc
  = (parsed ← strptime v "%d/%m/%Y";
     offset ← mul_inc d inc;
     delta ← relativedelta_product u offset;
     start_date ← rsub delta (date_method parsed);
     x_axis_loop start_date u fmt inc items 0 []).
Proof.
  unfold dateDebut_of, decalage_of, data_of, generate_x_axis.
  destruct (getitem res "graphe") as [graphe|e]; [|discriminate].
  cbn [mbind result_bind bind].
  destruct (getitem graphe "periode") as [periode|e]; [|discriminate].
  cbn [mbind result_bind bind].
  intros -> -> Hdata. cbn [mbind result_bind bind].
  destruct (strptime v _) as [parsed|e]; [|reflexivity].
  cbn [mbind result_bind bind].
  destruct (mul_inc d inc) as [offset|e]; [|reflexivity].
  cbn [mbind result_bind bind].
  destruct (relativedelta_product u offset) as [delta|e]; [|reflexivity].
  cbn [mbind result_bind bind].
  destruct (rsub delta _) as [start|e]; [|reflexivity].
  cbn [mbind result_bind bind].
  destruct (getitem graphe "data") as [data|e]; [|discriminate].
  cbn [mbind result_bind bind] in *. rewrite Hdata. reflexivity.
Qed.

(** C1: for a response with a parseable [dateDebut], an integer [decalage]
    and [n] data points, and for every granularity, the time axis is
    generated exactly when the start instant [parse(dateDebut) - decalage]
    steps and the [n] instants [start + i] steps exist in the calendar, and
    then its [i]-th label is the instant [start + i] steps formatted with the
    pattern of the granularity; the first label is the formatted start
    instant. *)
Theorem x_axis_labels (res : value) (g : granularity) (s : string)
    (parsed : dateobj) (dec : Z) (items : list value) :
  dateDebut_of res = OK (PyStr s) ->
  strptime (PyStr s) "%d/%m/%Y" = OK parsed ->
  decalage_of res = OK (PyInt dec) ->
  data_of res = OK items ->
  forall xs : list string,
    (generate_x_axis res (unit_of g) (pattern_of g) (increment_of g) = OK xs
     <-> exists start,
           plus_steps g (- dec) (midnight (date_of parsed)) = Some start
           /\ length xs = length items
           /\ forall i : nat,
                (i < length items)%nat ->
                exists t, plus_steps g (Z.of_nat i) start = Some t
                          /\ xs !! i = Some (label g t))
    /\ (generate_x_axis res (unit_of g) (pattern_of g) (increment_of g) = OK xs ->
        items <> [] ->
        exists start,
          plus_steps g (- dec) (midnight (date_of parsed)) = Some start
          /\ xs !! 0%nat = Some (label g start)).
Proof.
  intros Hdd Hparse Hdec Hdata xs.
  rewrite (generate_x_axis_fields res _ _ _ _ _ _ Hdd Hdec Hdata).
  rewrite Hparse. cbn [mbind result_bind bind mul_inc relativedelta_product].
  destruct (strptime_wf _ _ _ Hparse) as [Hwf0 Hinst0].
  pose proof (start_date_spec g dec (date_method parsed) Hwf0) as Hstart.
  rewrite Hinst0 in Hstart.
  destruct (relativedelta_kwargs (unit_of g) (dec * increment_of g) ≫= _)
    as [start|e] eqn:Hsd.
  - destruct Hstart as [Hwf Hplus].
    assert (Hgen : (delta ← relativedelta_kwargs (unit_of g) (dec * increment_of g);
                    start_date ← rsub delta (date_method parsed);
                    x_axis_loop start_date (unit_of g) (pattern_of g)
                                (increment_of g) items 0 [])
                   = Loop.traverse (Loop.x_step start (unit_of g) (pattern_of g)
                                                (increment_of g)) 0 items).
    { destruct (relativedelta_kwargs _ _) as [delta|e]; [|discriminate].
      cbn [mbind result_bind bind] in *. rewrite Hsd. cbn [mbind result_bind bind].
      rewrite x_axis_loop_traverse by reflexivity.
      destruct (Loop.traverse _ _ _); reflexivity. }
    rewrite Hgen. clear Hgen.
    assert (Hiff : Loop.traverse (Loop.x_step start (unit_of g) (pattern_of g)
                                              (increment_of g)) 0 items = OK xs
                   <-> length xs = length items
                       /\ forall i : nat,
                            (i < length items)%nat ->
                            exists t, plus_steps g (Z.of_nat i) (instant_of start) = Some t
                                      /\ xs !! i = Some (label g t)).
    { rewrite traverse_ok. split; intros [Hlen Hall]; (split; [exact Hlen|]).
      - intros i Hi. destruct (lookup_lt_is_Some_2 items i Hi) as [dp Hdp].
        destruct (Hall i dp Hdp) as (y & Hy & Hl).
        apply x_step_spec in Hy as (t & Ht & ->); [|exact Hwf]. eauto.
      - intros j dp Hj. apply lookup_lt_Some in Hj as Hlt.
        destruct (Hall j Hlt) as (t & Ht & Hl). exists (label g t).
        split; [|exact Hl]. apply x_step_spec; [exact Hwf|]. eauto. }
    split.
    + rewrite Hiff. split.
      * intros [Hlen Hall]. exists (instant_of start). auto.
      * intros (start' & Hs' & Hlen & Hall). rewrite Hplus in Hs'.
        injection Hs' as <-. auto.
    + intros Hok Hne. apply Hiff in Hok as [Hlen Hall].
      exists (instant_of start). split; [exact Hplus|].
      assert (Hpos : (0 < length items)%nat) by (destruct items; [congruence | cbn; lia]).
      destruct (Hall 0%nat Hpos) as (t & Ht & Hl). rewrite Hl. f_equal. f_equal.
      destruct g; cbn [plus_steps] in Ht.
      * rewrite plus_half_hours_zero in Ht by (apply wf_valid_instant; exact Hwf).
        congruence.
      * change 0 with (48 * 0) in Ht. rewrite <- plus_half_hours_days in Ht
          by (apply wf_valid_instant; exact Hwf).
        rewrite plus_half_hours_zero in Ht by (apply wf_valid_instant; exact Hwf).
        congruence.
      * rewrite plus_months_zero in Ht by (apply wf_valid_instant; exact Hwf).
        congruence.
      * change 0 with (12 * 0) in Ht. rewrite <- plus_months_years in Ht
          by (apply wf_valid_instant; exact Hwf).
        rewrite plus_months_zero in Ht by (apply wf_valid_instant; exact Hwf).
        congruence.
  - assert (Hgen : (delta ← relativedelta_kwargs (unit_of g) (dec * increment_of g);
                    start_date ← rsub delta (date_method parsed);
                    x_axis_loop start_date (unit_of g) (pattern_of g)
                                (increment_of g) items 0 [])
                   = Raise e).
    { destruct (relativedelta_kwargs _ _) as [delta|e']; cbn [mbind result_bind bind] in *.
      - rewrite Hsd. reflexivity.
      - injection Hsd as ->. reflexivity. }
    rewrite Hgen. split.
    + split; [discriminate|]. intros (start & Hs & _). rewrite Hstart in Hs.
      discriminate.
    + discriminate.
Qed.

Lemma x_axis_labels_witness :
  dateDebut_of Sample.scenario = OK (PyStr "01/03/2024")
  /\ strptime (PyStr "01/03/2024") "%d/%m/%Y" = OK Sample.scenario_parsed
  /\ decalage_of Sample.scenario = OK (PyInt 2)
  /\ data_of Sample.scenario = OK Sample.scenario_items
  /\ exists start,
       plus_steps Day (- 2) (midnight (mkdate 2024 3 1)) = Some start
       /\ Sample.scenario_labels !! 0%nat = Some (label Day start).
Proof.
  repeat (split; [reflexivity|]).
  apply (proj2 (x_axis_labels Sample.scenario Day "01/03/2024"
                  Sample.scenario_parsed 2 Sample.scenario_items
                  eq_refl eq_refl eq_refl eq_refl Sample.scenario_labels)).
  - vm_compute. reflexivity.
  - discriminate.
Defined.

(** * The value axis *)

Lemma ge_zero_not_lt_zero (v : value) : ge_zero v = OK true -> lt_zero v = OK false.
Proof.
  destruct v as [|b|z|f|s|l|kv]; cbn; try discriminate.
  - reflexivity.
  - intros [= H]. apply Z.leb_le in H. f_equal. apply Z.ltb_ge. exact H.
  - intros [= H]. f_equal. unfold float_zero in *.
    destruct f as [s|s| |s m e]; cbn in *; try reflexivity; try discriminate.
    + destruct s; [discriminate | reflexivity].
    + destruct s; [discriminate | reflexivity].
Qed.

Lemma clamped_negative (v : value) : lt_zero v = OK true -> clamped v = PyInt 0.
Proof. intros H. unfold clamped. rewrite H. reflexivity. Qed.

Lemma clamped_nonnegative (v : value) : ge_zero v = OK true -> clamped v = v.
Proof.
  intros H. unfold clamped. rewrite (ge_zero_not_lt_zero v H). reflexivity.
Qed.

Lemma y_step_spec (i : nat) (dp y : value) :
  Loop.y_step i dp = OK y
  <-> exists v, getitem dp "valeur" = OK v /\ is_ok (lt_zero v) = true
                /\ y = clamped v.
Proof.
  unfold Loop.y_step, clamped.
  destruct (getitem dp "valeur") as [v|e]; cbn [mbind result_bind bind].
  - destruct (lt_zero v) as [b|e] eqn:Hlt; cbn [mbind result_bind bind].
    + split.
      * intros [= <-]. exists v. rewrite Hlt. destruct b; repeat split; reflexivity.
      * intros (v' & [= <-] & _ & ->). rewrite Hlt. destruct b; reflexivity.
    + split; [discriminate|]. intros (v' & [= <-] & H & _).
      rewrite Hlt in H. discriminate.
  - split; [discriminate|]. intros (v' & H & _). discriminate.
Qed.

Lemma generate_y_axis_traverse (res : value) :
  generate_y_axis res = (items ← data_of res; Loop.traverse Loop.y_step 0 items).
Proof.
  unfold generate_y_axis, data_of.
  destruct (getitem res "graphe") as [graphe|e]; [|reflexivity].
  cbn [mbind result_bind bind].
  destruct (getitem graphe "data") as [data|e]; [|reflexivity].
  cbn [mbind result_bind bind].
  destruct (iter data) as [items|e]; [|reflexivity].
  cbn [mbind result_bind bind].
  rewrite y_axis_loop_traverse by reflexivity.
  destruct (Loop.traverse _ _ _); reflexivity.
Qed.

(** C3: the Value Extractor returns a sequence exactly when every data point
    carries a number under [valeur]; the sequence then has the length and
    the order of [graphe.data], each raw value [v] being replaced by [0]
    when [v < 0] and kept unchanged when [v >= 0]. *)
Theorem y_axis_clamps (res : value) (ys : list value) :
  generate_y_axis res = OK ys
  <-> exists items,
        data_of res = OK items
        /\ length ys = length items
        /\ forall (i : nat) (datapoint : value),
             items !! i = Some datapoint ->
             exists v,
               getitem datapoint "valeur" = OK v
               /\ is_ok (lt_zero v) = true
               /\ ys !! i = Some (clamped v)
               /\ (lt_zero v = OK true -> ys !! i = Some (PyInt 0))
               /\ (ge_zero v = OK true -> ys !! i = Some v).
Proof.
  rewrite generate_y_axis_traverse. split.
  - destruct (data_of res) as [items|e]; [|discriminate].
    cbn [mbind result_bind bind]. intros H. exists items.
    apply traverse_ok in H as [Hlen Hall].
    split; [reflexivity|]. split; [exact Hlen|].
    intros i dp Hdp. destruct (Hall i dp Hdp) as (y & Hy & Hl).
    apply y_step_spec in Hy as (v & Hv & Hok & ->).
    exists v. repeat split; try assumption.
    + intros Hneg. rewrite Hl, (clamped_negative v Hneg). reflexivity.
    + intros Hpos. rewrite Hl, (clamped_nonnegative v Hpos). reflexivity.
  - intros (items & -> & Hlen & Hall). cbn [mbind result_bind bind].
    apply traverse_ok. split; [exact Hlen|].
    intros j dp Hdp. destruct (Hall j dp Hdp) as (v & Hv & Hok & Hl & _).
    exists (clamped v). split; [|exact Hl].
    apply y_step_spec. exists v. auto.
Qed.

(** * Pairing *)

Lemma list_getitem_ok {A} (l : list A) (i : nat) (x : A) :
  l !! i = Some x -> list_getitem l i = OK x.
Proof. intros H. unfold list_getitem. rewrite H. reflexivity. Qed.

Lemma list_getitem_out {A} (l : list A) (i : nat) :
  (length l <= i)%nat -> list_getitem l i = Raise IndexError.
Proof.
  intros H. unfold list_getitem. rewrite (lookup_ge_None_2 l i H). reflexivity.
Qed.

Lemma pair_loop_seq (x_values : list string) (y_values : list value) (k : nat) :
  forall (i : nat) (out : list value),
    (i + k)%nat = length x_values ->
    pair_loop x_values y_values (seq i k) out
    = if decide (length x_values <= length y_values \/ k = 0)%nat
      then OK (out ++ zip_with record (drop i x_values) (drop i y_values))
      else Raise IndexError.
Proof.
  induction k as [|k IH]; intros i out Hik; cbn [seq pair_loop].
  - rewrite decide_True by (right; reflexivity).
    rewrite (drop_ge x_values) by lia. cbn. rewrite app_nil_r. reflexivity.
  - destruct (lookup_lt_is_Some_2 x_values i ltac:(lia)) as [x Hx].
    rewrite (list_getitem_ok _ _ _ Hx). cbn [mbind result_bind bind].
    destruct (decide (i < length y_values)%nat) as [Hlt|Hge].
    + destruct (lookup_lt_is_Some_2 y_values i Hlt) as [y Hy].
      rewrite (list_getitem_ok _ _ _ Hy). cbn [mbind result_bind bind].
      rewrite IH by lia.
      destruct (decide (length x_values <= length y_values)%nat) as [Hle|Hgt].
      * rewrite !decide_True by (left; exact Hle).
        rewrite (drop_S _ _ _ Hx), (drop_S _ _ _ Hy). cbn [zip_with].
        rewrite <- app_assoc. reflexivity.
      * rewrite !decide_False by lia. reflexivity.
    + rewrite list_getitem_out by lia. cbn [mbind result_bind bind].
      rewrite decide_False by lia. reflexivity.
Qed.

(** C7 (amended): the pairing loop runs over the indices of the labels and
    makes no length check of its own.  With at least as many values as
    labels it succeeds, pairing label [i] with value [i] and dropping the
    values beyond the last label; with fewer values it stops with the
    [IndexError] of the subscript that is out of range. *)
Theorem pair_records_by_length (x_values : list string) (y_values : list value) :
  pair_records x_values y_values
  = if decide (length x_values <= length y_values)%nat
    then OK (zip_with record x_values y_values)
    else Raise IndexError.
Proof.
  unfold pair_records. rewrite pair_loop_seq by reflexivity.
  destruct (decide (length x_values <= length y_values)%nat) as [Hle|Hgt].
  - rewrite decide_True by (left; exact Hle). reflexivity.
  - destruct x_values as [|x xs]; [cbn in Hgt; lia|].
    rewrite decide_False; [reflexivity|]. cbn [length] in *. lia.
Qed.

(** C7 fails as stated: one label and two values differ in length, and the
    pairing succeeds with a single record. *)
Lemma pair_records_no_length_check :
  length ["00:00"%string] <> length [PyInt 1; PyInt 2]
  /\ pair_records ["00:00"%string] [PyInt 1; PyInt 2]
     = OK [record "00:00" (PyInt 1)].
Proof. split; [discriminate | reflexivity]. Qed.

(** * The exporters *)

Lemma exporter_unfold BASEDIR float_repr (g : granularity) (res : value)
    (fs : filesystem) :
  exporter BASEDIR float_repr g res fs
  = export_values BASEDIR float_repr (unit_of g) (pattern_of g) (increment_of g)
                  (file_of g) res fs.
Proof. destruct g; reflexivity. Qed.

Lemma open_write (path text : string) (fs : filesystem) :
  (fs' ← open_w path fs; OK (write path text fs'))
  = if decide (path ∈ unwritable fs) then Raise OSError
    else OK (mkfs (<[path := text]> (files fs)) (unwritable fs)).
Proof.
  unfold open_w. destruct (decide (path ∈ unwritable fs)); [reflexivity|].
  cbn [mbind result_bind bind]. unfold write. cbn [files unwritable].
  rewrite lookup_insert_eq, insert_insert_eq. reflexivity.
Qed.

Lemma exporter_spec BASEDIR float_repr (g : granularity) (res : value)
    (fs : filesystem) :
  exporter BASEDIR float_repr g res fs
  = (recs ← records_of res (unit_of g) (pattern_of g) (increment_of g);
     if decide (path_of BASEDIR g ∈ unwritable fs) then Raise OSError
     else OK (mkfs (<[path_of BASEDIR g := dumps float_repr (PyList recs)]> (files fs))
                   (unwritable fs))).
Proof.
  rewrite exporter_unfold. unfold export_values.
  destruct (records_of _ _ _ _) as [recs|e]; [|reflexivity].
  cbn [mbind result_bind bind]. apply open_write.
Qed.

Lemma x_axis_loop_length start u fmt inc (items : list value) :
  forall (ordre : nat) (acc xs : list string),
    x_axis_loop start u fmt inc items ordre acc = OK xs ->
    length xs = (length acc + length items)%nat.
Proof.
  induction items as [|dp items IH]; intros ordre acc xs; cbn [x_axis_loop].
  - intros [= <-]. cbn. lia.
  - destruct (relativedelta_kwargs u _) as [delta|e]; [|discriminate].
    cbn [mbind result_bind bind].
    destruct (radd delta start) as [instant|e]; [|discriminate].
    cbn [mbind result_bind bind]. intros H. apply IH in H. rewrite H.
    unfold list_insert. rewrite length_app. cbn [length].
    rewrite length_take, length_drop. cbn [length]. lia.
Qed.

Lemma generate_x_axis_length (res : value) u fmt inc (xs : list string) :
  generate_x_axis res u fmt inc = OK xs ->
  exists items, data_of res = OK items /\ length xs = length items.
Proof.
  unfold generate_x_axis, data_of.
  destruct (getitem res "graphe") as [graphe|e]; [|discriminate].
  cbn [mbind result_bind bind].
  repeat (match goal with
          | |- context [?r ≫= _] =>
              lazymatch r with
              | getitem graphe "data" => fail
              | _ => destruct r; [|discriminate]; cbn [mbind result_bind bind]
              end
          end).
  destruct (getitem graphe "data") as [data|e]; [|discriminate].
  cbn [mbind result_bind bind].
  destruct (iter data) as [items|e]; [|discriminate].
  cbn [mbind result_bind bind]. intros H. exists items. split; [reflexivity|].
  apply x_axis_loop_length in H. exact H.
Qed.

(** C4: when an exporter succeeds, the cleaned values, the time labels and
    the records all have the length of [graphe.data], record [i] pairs
    label [i] with value [i], and the file holds the serialized records. *)
Theorem export_lengths_agree BASEDIR float_repr (g : granularity) (res : value)
    (fs fs' : filesystem) :
  exporter BASEDIR float_repr g res fs = OK fs' ->
  exists (items : list value) (xs : list string) (ys recs : list value),
    data_of res = OK items
    /\ generate_x_axis res (unit_of g) (pattern_of g) (increment_of g) = OK xs
    /\ generate_y_axis res = OK ys
    /\ length ys = length items
    /\ length xs = length items
    /\ length recs = length items
    /\ (forall i : nat,
          (i < length items)%nat ->
          exists (x : string) (y : value),
            xs !! i = Some x /\ ys !! i = Some y /\ recs !! i = Some (record x y))
    /\ files fs' !! path_of BASEDIR g = Some (dumps float_repr (PyList recs)).
Proof.
  rewrite exporter_spec. unfold records_of.
  destruct (generate_x_axis _ _ _ _) as [xs|e] eqn:Hx; [|discriminate].
  cbn [mbind result_bind bind].
  destruct (generate_y_axis res) as [ys|e] eqn:Hy; [|discriminate].
  cbn [mbind result_bind bind].
  destruct (generate_x_axis_length _ _ _ _ _ Hx) as (items & Hitems & Hlx).
  assert (Hly : length ys = length items).
  { pose proof Hy as Hy'. rewrite generate_y_axis_traverse, Hitems in Hy'.
    cbn [mbind result_bind bind] in Hy'. apply traverse_ok in Hy' as [H _].
    exact H. }
  assert (Hpair : pair_records xs ys = OK (zip_with record xs ys)).
  { unfold pair_records. rewrite pair_loop_seq by reflexivity.
    rewrite decide_True by (left; lia). reflexivity. }
  rewrite Hpair.
  cbn [mbind result_bind bind].
  destruct (decide _); [discriminate|]. intros [= <-].
  exists items, xs, ys, (zip_with record xs ys).
  repeat (split; [first [reflexivity | assumption]|]).
  split; [rewrite length_zip_with; lia|]. split.
  - intros i Hi.
    destruct (lookup_lt_is_Some_2 xs i ltac:(lia)) as [x Hxi].
    destruct (lookup_lt_is_Some_2 ys i ltac:(lia)) as [y Hyi].
    exists x, y. repeat split; try assumption.
    rewrite lookup_zip_with, Hxi, Hyi. reflexivity.
  - cbn [files]. apply lookup_insert_eq.
Qed.

Lemma scenario_export :
  exporter "/tmp" Sample.no_float Day Sample.scenario Sample.empty_fs
  = OK scenario_exported.
Proof. rewrite exporter_spec. reflexivity. Qed.

Lemma export_lengths_agree_witness :
  exporter "/tmp" Sample.no_float Day Sample.scenario Sample.empty_fs
  = OK scenario_exported
  /\ exists (items : list value) (xs : list string) (ys recs : list value),
       data_of Sample.scenario = OK items
       /\ generate_x_axis Sample.scenario (unit_of Day) (pattern_of Day)
                          (increment_of Day) = OK xs
       /\ generate_y_axis Sample.scenario = OK ys
       /\ length ys = length items
       /\ length xs = length items
       /\ length recs = length items
       /\ (forall i : nat,
             (i < length items)%nat ->
             exists (x : string) (y : value),
               xs !! i = Some x /\ ys !! i = Some y
               /\ recs !! i = Some (record x y))
       /\ files scenario_exported !! path_of "/tmp" Day
          = Some (dumps Sample.no_float (PyList recs)).
Proof.
  split; [exact scenario_export|].
  exact (export_lengths_agree "/tmp" Sample.no_float Day Sample.scenario
           Sample.empty_fs scenario_exported scenario_export).
Defined.

(** C2 (amended): on the scenario of the specification ([dateDebut] 1 March
    2024, [decalage] 2, values -5, 10, 20) the day exporter writes the
    records of 28 Feb 2024, 29 Feb 2024 and 01 Mar 2024, with values 0, 10
    and 20: two days before 1 March of a leap year is 28 February. *)
Theorem scenario_day_records BASEDIR float_repr (fs : filesystem) :
  export_days_values BASEDIR float_repr Sample.scenario fs
  = if decide (path_of BASEDIR Day ∈ unwritable fs) then Raise OSError
    else OK (mkfs (<[path_of BASEDIR Day :=
                       dumps float_repr (PyList Sample.scenario_records)]> (files fs))
                  (unwritable fs)).
Proof.
  change (export_days_values BASEDIR float_repr)
    with (exporter BASEDIR float_repr Day).
  rewrite exporter_spec. reflexivity.
Qed.

(** C2 fails as stated: the file the day exporter writes for the scenario is
    not the serialization of the records 27, 28 and 29 Feb 2024. *)
Lemma scenario_expected_differs :
  exists fs',
    export_days_values "/tmp" Sample.no_float Sample.scenario Sample.empty_fs
    = OK fs'
    /\ files fs' !! path_of "/tmp" Day
       <> Some (dumps Sample.no_float (PyList Sample.scenario_expected)).
Proof.
  exists scenario_exported. split; [exact scenario_export|].
  unfold scenario_exported. cbn [files]. rewrite lookup_insert_eq.
  intros H. vm_compute in H. discriminate H.
Qed.

(** C9: an exporter is a function of the response: two runs on the same
    response leave the same content in the output file whatever the file
    systems held before, that content is the serialized records alone
    (nothing of the previous content remains), a second run changes nothing,
    and no other file is touched. *)
Theorem export_overwrites BASEDIR float_repr (g : granularity) (res : value)
    (fs1 fs2 fs1' fs2' : filesystem) :
  exporter BASEDIR float_repr g res fs1 = OK fs1' ->
  exporter BASEDIR float_repr g res fs2 = OK fs2' ->
  files fs1' !! path_of BASEDIR g = files fs2' !! path_of BASEDIR g
  /\ (exists recs,
        records_of res (unit_of g) (pattern_of g) (increment_of g) = OK recs
        /\ files fs1' !! path_of BASEDIR g = Some (dumps float_repr (PyList recs)))
  /\ exporter BASEDIR float_repr g res fs1' = OK fs1'
  /\ (forall p, p <> path_of BASEDIR g -> files fs1' !! p = files fs1 !! p).
Proof.
  rewrite !exporter_spec.
  destruct (records_of _ _ _ _) as [recs|e]; [|discriminate].
  cbn [mbind result_bind bind].
  destruct (decide (_ ∈ unwritable fs1)) as [|Hw1]; [discriminate|].
  destruct (decide (_ ∈ unwritable fs2)) as [|Hw2]; [discriminate|].
  intros [= <-] [= <-]. cbn [files unwritable].
  rewrite !lookup_insert_eq. split; [reflexivity|].
  split; [exists recs; split; reflexivity|]. split.
  - rewrite decide_False by exact Hw1. rewrite insert_insert_eq. reflexivity.
  - intros p Hp. apply lookup_insert_ne. congruence.
Qed.

Lemma scenario_export_over_stale :
  exporter "/tmp" Sample.no_float Day Sample.scenario stale_fs
  = OK scenario_exported_over_stale.
Proof. rewrite exporter_spec. reflexivity. Qed.

Lemma export_overwrites_witness :
  exporter "/tmp" Sample.no_float Day Sample.scenario Sample.empty_fs
  = OK scenario_exported
  /\ exporter "/tmp" Sample.no_float Day Sample.scenario stale_fs
     = OK scenario_exported_over_stale
  /\ files scenario_exported !! path_of "/tmp" Day
     = files scenario_exported_over_stale !! path_of "/tmp" Day.
Proof.
  split; [exact scenario_export|]. split; [exact scenario_export_over_stale|].
  exact (proj1 (export_overwrites "/tmp" Sample.no_float Day Sample.scenario
                  Sample.empty_fs stale_fs scenario_exported
                  scenario_exported_over_stale
                  scenario_export scenario_export_over_stale)).
Defined.

Lemma records_of_empty (res v : value) (dec : Z) (g : granularity) :
  data_of res = OK [] -> dateDebut_of res = OK v ->
  decalage_of res = OK (PyInt dec) ->
  records_of res (unit_of g) (pattern_of g) (increment_of g)
  = (parsed ← strptime v "%d/%m/%Y";
     delta ← relativedelta_kwargs (unit_of g) (dec * increment_of g);
     start_date ← rsub delta (date_method parsed);
     OK []).
Proof.
  intros Hdata Hdd Hdec. unfold records_of.
  rewrite (generate_x_axis_fields res _ _ _ _ _ _ Hdd Hdec Hdata).
  rewrite generate_y_axis_traverse, Hdata.
  destruct (strptime v _) as [parsed|e]; [|reflexivity].
  cbn [mbind result_bind bind mul_inc relativedelta_product].
  destruct (relativedelta_kwargs _ _) as [delta|e]; [|reflexivity].
  cbn [mbind result_bind bind].
  destruct (rsub delta _) as [start|e]; reflexivity.
Qed.

(** C10 (amended): for a response without data points, with [dateDebut]
    present and [decalage] an integer, an exporter succeeds exactly when
    [dateDebut] parses, the start instant [parse(dateDebut) - decalage]
    steps exists in the calendar (years 1 to 9999) and the output file can
    be opened for writing; it then writes the empty JSON array.  A
    [dateDebut] that does not parse makes it fail although there is no data
    point. *)
Theorem export_empty_data BASEDIR float_repr (g : granularity) (res v : value)
    (dec : Z) (fs : filesystem) :
  data_of res = OK [] ->
  dateDebut_of res = OK v ->
  decalage_of res = OK (PyInt dec) ->
  (is_ok (exporter BASEDIR float_repr g res fs) = true
   <-> exists parsed start,
         strptime v "%d/%m/%Y" = OK parsed
         /\ plus_steps g (- dec) (midnight (date_of parsed)) = Some start
         /\ path_of BASEDIR g ∉ unwritable fs)
  /\ (forall fs',
        exporter BASEDIR float_repr g res fs = OK fs' ->
        files fs' !! path_of BASEDIR g = Some "[]"%string)
  /\ (is_ok (strptime v "%d/%m/%Y") = false ->
      is_ok (exporter BASEDIR float_repr g res fs) = false).
Proof.
  intros Hdata Hdd Hdec. rewrite exporter_spec.
  rewrite (records_of_empty res v dec g Hdata Hdd Hdec).
  destruct (strptime v "%d/%m/%Y") as [parsed|e] eqn:Hparse;
    cbn [mbind result_bind bind is_ok].
  - destruct (strptime_wf _ _ _ Hparse) as [Hwf Hinst].
    pose proof (start_date_spec g dec (date_method parsed) Hwf) as Hstart.
    rewrite Hinst in Hstart.
    destruct (relativedelta_kwargs (unit_of g) (dec * increment_of g) ≫= _)
      as [start|e] eqn:Hsd.
    + assert (Hrec : (delta ← relativedelta_kwargs (unit_of g) (dec * increment_of g);
                      start_date ← rsub delta (date_method parsed);
                      OK []) = OK (@nil value)).
      { destruct (relativedelta_kwargs _ _) as [delta|e]; [|discriminate].
        cbn [mbind result_bind bind] in *. rewrite Hsd. reflexivity. }
      rewrite Hrec. cbn [mbind result_bind bind]. destruct Hstart as [_ Hplus].
      destruct (decide (path_of BASEDIR g ∈ unwritable fs)) as [Hin|Hout];
        cbn [is_ok].
      * split; [|split; [discriminate | discriminate]].
        split; [discriminate|]. intros (p & st & _ & _ & Hn). contradiction.
      * split; [|split; [|discriminate]].
        -- split; [|reflexivity]. intros _. exists parsed, (instant_of start).
           split; [reflexivity|]. split; assumption.
        -- intros fs' [= <-]. cbn [files]. apply lookup_insert_eq.
    + assert (Hrec : (delta ← relativedelta_kwargs (unit_of g) (dec * increment_of g);
                      start_date ← rsub delta (date_method parsed);
                      OK (@nil value)) = Raise e).
      { destruct (relativedelta_kwargs _ _) as [delta|e']; cbn [mbind result_bind bind] in *.
        - rewrite Hsd. reflexivity.
        - injection Hsd as ->. reflexivity. }
      rewrite Hrec. cbn [mbind result_bind bind is_ok].
      split; [|split; [discriminate | discriminate]].
      split; [discriminate|]. intros (p & st & [= <-] & Hst & _).
      rewrite Hstart in Hst. discriminate.
  - split; [|split; [discriminate | reflexivity]].
    split; [discriminate|]. intros (p & st & Hp & _). discriminate.
Qed.

Lemma export_empty_data_witness :
  data_of Sample.no_data = OK []
  /\ dateDebut_of Sample.no_data = OK (PyStr "01/03/2024")
  /\ decalage_of Sample.no_data = OK (PyInt 2)
  /\ is_ok (exporter "/tmp" Sample.no_float Day Sample.no_data Sample.empty_fs)
     = true.
Proof.
  repeat (split; [reflexivity|]).
  apply (proj1 (export_empty_data "/tmp" Sample.no_float Day Sample.no_data
                  (PyStr "01/03/2024") 2 Sample.empty_fs
                  eq_refl eq_refl eq_refl)).
  exists Sample.scenario_parsed, (mkinstant (mkdate 2024 2 28) 0).
  split; [reflexivity|]. split; [reflexivity|]. apply not_elem_of_empty.
Defined.

(** C10 fails as stated: [dateDebut] parses, [decalage] is an integer and
    there is no data point, yet the day exporter fails, because the day
    before 1 January of year 1 is outside the calendar. *)
Lemma export_empty_can_fail :
  data_of Sample.before_calendar = OK []
  /\ is_ok (strptime (PyStr "01/01/0001") "%d/%m/%Y") = true
  /\ dateDebut_of Sample.before_calendar = OK (PyStr "01/01/0001")
  /\ decalage_of Sample.before_calendar = OK (PyInt 1)
  /\ exporter "/tmp" Sample.no_float Day Sample.before_calendar Sample.empty_fs
     = Raise OverflowError.
Proof.
  repeat (split; [reflexivity|]). rewrite exporter_spec. reflexivity.
Qed.

(** * The driver *)

Lemma int_of_str_raises (s : string) (e : exn) :
  int_of_str s = Raise e -> e = ValueError.
Proof.
  unfold int_of_str.
  destruct (match strip (list_ascii_of_string s) with
            | [] => _ | _ => _ end) as [sign digits].
  destruct (digits_value 0 false digits); [|intros [= <-]; reflexivity].
  destruct (_ <? _)%nat; [|discriminate]. intros [= <-]. reflexivity.
Qed.




Lemma minus_days_months_spec (today : dateobj) (d m : Z) :
  Delta.wf today ->
  match minus_days_months today d m with
  | OK o =>
      Delta.wf o
      /\ (t ← plus_months (- m) (instant_of today); plus_days (- d) t)
         = Some (instant_of o)
  | Raise _ =>
      (t ← plus_months (- m) (instant_of today); plus_days (- d) t) = None
  end.
Proof.
  intros Hwf. unfold minus_days_months.
  change (relativedelta_new 0 (Half.of_int m) (Half.of_int d) 0)
    with (relativedelta_new (Half.of_int 0) (Half.of_int m) (Half.of_int d) 0).
  rewrite relativedelta_new_int.
  cbn [mbind result_bind bind]. unfold rsub.
  destruct (fix_total (mkrd 0 m (Half.of_int d) 0)) as (Hm & Hh & Habs & Hev).
  destruct (neg_total (_fix (mkrd 0 m (Half.of_int d) 0)))
    as (r' & -> & Hm' & Hh' & Habs' & Hev').
  cbn [mbind result_bind bind].
  assert (Hn : Delta.normalized r').
  { split; [exact Habs'|]. rewrite Hev', Hev. cbn [Relativedelta.days].
    unfold Half.of_int. rewrite Z.even_mul. reflexivity. }
  pose proof (radd_shift r' today Hwf Hn) as H.
  rewrite Hm', Hh', Hm, Hh in H.
  unfold Delta.total_months, Delta.total_half_hours, Half.of_int in H.
  cbn [Relativedelta.years Relativedelta.months Relativedelta.days
       Relativedelta.hours] in H.
  replace (- (12 * 0 + m)) with (- m) in H by lia.
  replace (- (24 * (2 * d) + 0)) with (48 * - d) in H by lia.
  unfold Delta.shift in H.
  assert (Heq : (t ← plus_months (- m) (instant_of today);
                 plus_half_hours (48 * - d) t)
                = (t ← plus_months (- m) (instant_of today); plus_days (- d) t)).
  { destruct (plus_months (- m) (instant_of today)) as [t|] eqn:Ht; [|reflexivity].
    cbn [mbind option_bind]. apply plus_half_hours_days.
    exact (plus_months_valid _ _ _ (wf_valid_instant _ Hwf) Ht). }
  rewrite Heq in H. exact H.
Qed.

Section Driver.

Variables USERNAME PASSWORD BASEDIR : string.
Variable float_repr : spec_float -> string.
Variable linky_login : string -> string -> result string.
Variable linky_get_data_per_month : string -> string -> string -> result value.
Variable linky_get_data_per_day : string -> string -> string -> result value.

Lemma main_try_steps (argv : list string) (today : dateobj) (fs0 : filesystem) :
  main_try USERNAME PASSWORD BASEDIR float_repr linky_login
           linky_get_data_per_month linky_get_data_per_day
           argv today (mkworld fs0 [])
  = match linky_login USERNAME PASSWORD with
    | Raise e => (Raise e, mkworld fs0 (at_login USERNAME PASSWORD))
    | OK token =>
    match argv !! 1%nat with
    | None => (Raise IndexError, mkworld fs0 (at_argument USERNAME PASSWORD))
    | Some arg =>
    match int_of_str arg with
    | Raise e => (Raise e, mkworld fs0 (at_offset USERNAME PASSWORD arg))
    | OK mmonth =>
    match minus_days_months today 1 mmonth with
    | Raise e => (Raise e, mkworld fs0 (at_offset USERNAME PASSWORD arg))
    | OK d1 =>
    match minus_days_months today 1 (mmonth + 1) with
    | Raise e => (Raise e, mkworld fs0 (at_offset USERNAME PASSWORD arg ++ [LogInfo (dtostr d1)]))
    | OK d2 =>
    match minus_days_months today 0 11 with
    | Raise e =>
        (Raise e, mkworld fs0 (at_offset USERNAME PASSWORD arg
                               ++ [LogInfo (dtostr d1); LogInfo (dtostr d2)]))
    | OK d3 =>
    match linky_get_data_per_month token (dtostr d3) (dtostr today) with
    | Raise e => (Raise e, mkworld fs0 (at_month_fetch USERNAME PASSWORD arg token d1 d2 d3 today))
    | OK _ =>
    match linky_get_data_per_day token (dtostr d2) (dtostr d1) with
    | Raise e => (Raise e, mkworld fs0 (at_day_fetch USERNAME PASSWORD arg token d1 d2 d3 today))
    | OK res_day =>
    match export_days_values BASEDIR float_repr res_day fs0 with
    | OK fs' =>
        (OK tt, mkworld fs' (at_day_fetch USERNAME PASSWORD arg token d1 d2 d3 today
                             ++ [LogInfo "got data!"]))
    | Raise _ =>
        (OK tt, mkworld fs0 (at_day_fetch USERNAME PASSWORD arg token d1 d2 d3 today
                             ++ [LogInfo "got data!";
                                 LogInfo "days values non exported"]))
    end end end end end end end end end.
Proof.
  unfold main_try, at_day_fetch, at_month_fetch, at_offset, at_argument, at_login.
  unfold try_export_days, logging_info, emit, lift.
  unfold mbind, io_bind, io_bind_def. cbn [fs trace app].
  destruct (linky_login USERNAME PASSWORD) as [token|e]; [|reflexivity].
  unfold list_getitem.
  destruct (argv !! 1%nat) as [arg|]; [|reflexivity].
  destruct (int_of_str arg) as [mmonth|e]; [|reflexivity].
  destruct (minus_days_months today 1 mmonth) as [d1|e]; [|reflexivity].
  destruct (minus_days_months today 1 (mmonth + 1)) as [d2|e]; [|reflexivity].
  destruct (minus_days_months today 0 11) as [d3|e]; [|reflexivity].
  cbn [fs trace app].
  destruct (linky_get_data_per_month token _ _) as [res_month|e]; [|reflexivity].
  cbn [fs trace app].
  destruct (linky_get_data_per_day token _ _) as [res_day|e]; [|reflexivity].
  cbn [fs trace app].
  destruct (export_days_values BASEDIR float_repr res_day fs0); reflexivity.
Qed.



(** C6 (amended): when the command line argument is missing or is not an
    integer, the run fails, but after the login: the credentials are sent
    first; no fetch is requested and no file is written; once the login has
    succeeded the run ends on the uncaught [IndexError] (no argument) or
    [ValueError] (not an integer), which is exit status 1. *)
Theorem bad_argument_fails_after_login (argv : list string) (today : dateobj)
    (fs0 : filesystem) :
  argv !! 1%nat = None
  \/ (exists arg, argv !! 1%nat = Some arg /\ is_ok (int_of_str arg) = false) ->
  let run := main USERNAME PASSWORD BASEDIR float_repr linky_login
                  linky_get_data_per_month linky_get_data_per_day
                  argv today (mkworld fs0 []) in
  take 2 (trace (snd run)) = at_login USERNAME PASSWORD
  /\ filter (fun e => is_fetch e = true) (trace (snd run)) = []
  /\ fs (snd run) = fs0
  /\ fst run <> Returned
  /\ (forall token,
        linky_login USERNAME PASSWORD = OK token ->
        fst run = Uncaught (match argv !! 1%nat with
                            | None => IndexError
                            | Some _ => ValueError
                            end)
        /\ exit_status (fst run) = 1).
Proof.
  intros Hbad run. subst run. unfold main. rewrite main_try_steps.
  destruct (linky_login USERNAME PASSWORD) as [tok|e].
  - destruct Hbad as [-> | (arg & -> & Hint)].
    + repeat split; try reflexivity; try discriminate.
    + destruct (int_of_str arg) as [m|e] eqn:Hi; [discriminate|].
      rewrite (int_of_str_raises _ _ Hi).
      repeat split; try reflexivity; try discriminate.
  - destruct e; repeat split; try reflexivity; try discriminate.
Qed.

(** C5 (amended): with a valid date for today and an integer argument
    [offset], the per-day fetch, when it is issued, asks for the window from
    (today minus [offset + 1] months) minus one day to (today minus [offset]
    months) minus one day, both ends written day/month/year; it is issued
    once, as soon as the login and the monthly fetch succeed and these dates
    exist. *)
Theorem day_fetch_window (argv : list string) (today : dateobj)
    (fs0 : filesystem) (arg : string) (offset : Z) :
  Delta.wf today ->
  argv !! 1%nat = Some arg ->
  int_of_str arg = OK offset ->
  let run := main USERNAME PASSWORD BASEDIR float_repr linky_login
                  linky_get_data_per_month linky_get_data_per_day
                  argv today (mkworld fs0 []) in
  (day_fetches (trace (snd run)) = []
   \/ exists w, day_window (instant_of today) offset = Some w
                /\ day_fetches (trace (snd run)) = [w])
  /\ (forall token w,
        linky_login USERNAME PASSWORD = OK token ->
        day_window (instant_of today) offset = Some w ->
        is_Some (plus_months (- 11) (instant_of today)) ->
        (forall s e, is_ok (linky_get_data_per_month token s e) = true) ->
        day_fetches (trace (snd run)) = [w]).
Proof.
  intros Hwf Harg Hint run. subst run. unfold main. rewrite main_try_steps.
  rewrite Harg, Hint.
  pose proof (minus_days_months_spec today 1 offset Hwf) as S1.
  pose proof (minus_days_months_spec today 1 (offset + 1) Hwf) as S2.
  pose proof (minus_days_months_spec today 0 11 Hwf) as S3.
  change (- (1)) with (-1) in S1, S2.
  change (- (0)) with 0 in S3. change (- (11)) with (-11) in S3.
  unfold day_window, months_and_a_day_before.
  destruct (linky_login USERNAME PASSWORD) as [tok|e].
  2:{ split; [left; destruct e; reflexivity|]. intros ? ? [=]. }
  destruct (minus_days_months today 1 offset) as [d1|e].
  2:{ rewrite S1. split; [left; destruct e; reflexivity|].
      intros token w _ Hw. exfalso.
      destruct (plus_months (- (offset + 1)) _ ≫= _); discriminate. }
  destruct S1 as [Hwf1 S1]. rewrite S1.
  destruct (minus_days_months today 1 (offset + 1)) as [d2|e].
  2:{ rewrite S2. split; [left; destruct e; reflexivity|].
      intros token w _ Hw. discriminate. }
  destruct S2 as [Hwf2 S2]. rewrite S2. cbn [mbind option_bind].
  rewrite <- (strftime_format d1 _ Hwf1), <- (strftime_format d2 _ Hwf2).
  fold (dtostr d1) (dtostr d2).
  destruct (minus_days_months today 0 11) as [d3|e].
  2:{ split; [left; destruct e; reflexivity|].
      intros token w _ _ [t Ht] _. exfalso. rewrite Ht in S3.
      cbn [mbind option_bind] in S3. change 0 with (48 * 0) in S3.
      rewrite <- plus_half_hours_days in S3
        by exact (plus_months_valid _ _ _ (wf_valid_instant _ Hwf) Ht).
      rewrite plus_half_hours_zero in S3
        by exact (plus_months_valid _ _ _ (wf_valid_instant _ Hwf) Ht).
      discriminate. }
  destruct (linky_get_data_per_month tok _ _) as [rm|e] eqn:Hm.
  2:{ split; [left; destruct e; reflexivity|].
      intros token w [= <-] _ _ Hall. specialize (Hall (dtostr d3) (dtostr today)).
      rewrite Hm in Hall. discriminate. }
  destruct (linky_get_data_per_day tok _ _) as [rd|e].
  - destruct (export_days_values _ _ _ _);
      (split; [right; eexists; split; [reflexivity|reflexivity]|]);
      intros token w _ [= <-] _ _; reflexivity.
  - destruct e;
      (split; [right; eexists; split; [reflexivity|reflexivity]|]);
      intros token w _ [= <-] _ _; reflexivity.
Qed.

End Driver.

(** ** The statements on a run of 15 March 2024 *)

Lemma run_today_wf : Delta.wf Run.today.
Proof.
  split; [|exact I]. repeat split; apply Z.leb_le; reflexivity.
Qed.


Lemma bad_argument_fails_after_login_witness :
  ["linky_month.py"%string] !! 1%nat = None
  /\ take 2 (trace (snd (Run.start ["linky_month.py"%string])))
     = at_login "user" "secret"
  /\ fst (Run.start ["linky_month.py"%string]) = Uncaught IndexError.
Proof.
  split; [reflexivity|].
  pose proof (bad_argument_fails_after_login "user" "secret" "/tmp"
                Sample.no_float Run.login Run.get_data Run.get_data
                ["linky_month.py"%string] Run.today Sample.empty_fs
                (or_introl eq_refl))
    as (Hlogin & _ & _ & _ & Hout).
  split; [exact Hlogin|]. exact (proj1 (Hout "token"%string eq_refl)).
Defined.


(** C6 fails as stated: without any argument the run does fail, but the
    login call was made before. *)
Lemma login_precedes_argument_check :
  ["linky_month.py"%string] !! 1%nat = None
  /\ fst (Run.start ["linky_month.py"%string]) = Uncaught IndexError
  /\ filter (fun e => is_login e = true)
            (trace (snd (Run.start ["linky_month.py"%string])))
     = [CallLogin "user" "secret"].
Proof. repeat split; reflexivity. Qed.

Lemma day_fetch_window_witness :
  Delta.wf Run.today
  /\ ["linky_month.py"; "0"]%string !! 1%nat = Some "0"%string
  /\ int_of_str "0" = OK 0
  /\ day_fetches (trace (snd (Run.start ["linky_month.py"; "0"]%string)))
     = [("14/02/2024", "14/03/2024")]%string.
Proof.
  split; [exact run_today_wf|]. split; [reflexivity|]. split; [reflexivity|].
  apply (proj2 (day_fetch_window "user" "secret" "/tmp" Sample.no_float
                  Run.login Run.get_data Run.get_data
                  ["linky_month.py"; "0"]%string Run.today Sample.empty_fs
                  "0" 0 run_today_wf eq_refl eq_refl) "token"%string).
  - reflexivity.
  - reflexivity.
  - eexists. reflexivity.
  - intros s e. reflexivity.
Defined.

(** C5 fails as stated: on 15 March 2024 with offset 0 the per-day fetch
    asks for 14/02/2024 to 14/03/2024, not for the window from today minus
    two months to today minus one month. *)
Lemma day_window_is_not_the_claimed_one :
  claimed_day_window (instant_of Run.today) 0
  = Some ("15/01/2024", "15/02/2024")%string
  /\ day_fetches (trace (snd (Run.start ["linky_month.py"; "0"]%string)))
     = [("14/02/2024", "14/03/2024")]%string
  /\ Some ("14/02/2024", "14/03/2024")%string
     <> claimed_day_window (instant_of Run.today) 0.
Proof.
  split; [reflexivity|]. split; [reflexivity|]. discriminate.
Qed.

(** * More on the value axis *)

Lemma traverse_raise {A B} (f : nat -> A -> result B) (l : list A) :
  forall (k i : nat) (x : A) (e : exn),
    l !! i = Some x ->
    (forall (j : nat) (xj : A),
        (j < i)%nat -> l !! j = Some xj -> is_ok (f (k + j)%nat xj) = true) ->
    f (k + i)%nat x = Raise e ->
    Loop.traverse f k l = Raise e.
Proof.
  induction l as [|a l IH]; intros k i x e Hi Hbefore Hx; [discriminate|].
  cbn [Loop.traverse]. destruct i as [|i]; cbn in Hi.
  - injection Hi as ->. rewrite Nat.add_0_r in Hx. rewrite Hx. reflexivity.
  - pose proof (Hbefore 0%nat a ltac:(lia) eq_refl) as H0.
    rewrite Nat.add_0_r in H0.
    destruct (f k a) as [b|e']; [|discriminate]. cbn [mbind result_bind bind].
    rewrite (IH (S k) i x e Hi).
    + reflexivity.
    + intros j xj Hj Hl. replace (S k + j)%nat with (k + S j)%nat by lia.
      apply Hbefore; [lia | exact Hl].
    + replace (S k + i)%nat with (k + S i)%nat by lia. exact Hx.
Qed.

Lemma y_step_check (i : nat) (dp : value) :
  match More.point_check dp with
  | OK _ => is_ok (Loop.y_step i dp) = true
  | Raise e => Loop.y_step i dp = Raise e
  end.
Proof.
  unfold More.point_check, Loop.y_step.
  destruct (getitem dp "valeur") as [v|e]; [|reflexivity].
  cbn [mbind result_bind bind]. destruct (lt_zero v); reflexivity.
Qed.

(** X1: no value of the value axis is negative. *)
Theorem y_axis_never_negative (res : value) (ys : list value) (i : nat) (y : value) :
  generate_y_axis res = OK ys -> ys !! i = Some y -> lt_zero y = OK false.
Proof.
  rewrite generate_y_axis_traverse.
  destruct (data_of res) as [items|e]; [|discriminate].
  cbn [mbind result_bind bind]. intros Hok Hy.
  apply traverse_ok in Hok as [Hlen Hall].
  assert (Hi : (i < length items)%nat).
  { rewrite <- Hlen. apply lookup_lt_Some in Hy. exact Hy. }
  destruct (lookup_lt_is_Some_2 items i Hi) as [dp Hdp].
  destruct (Hall i dp Hdp) as (y' & Hstep & Hl).
  rewrite Hy in Hl. injection Hl as <-.
  apply y_step_spec in Hstep as (v & _ & Hnum & ->). unfold clamped.
  destruct (lt_zero v) as [[|]|e] eqn:Hlt; [reflexivity | exact Hlt | discriminate].
Qed.

Lemma y_axis_never_negative_witness :
  generate_y_axis Sample.scenario = OK [PyInt 0; PyInt 10; PyInt 20]
  /\ [PyInt 0; PyInt 10; PyInt 20] !! 0%nat = Some (PyInt 0)
  /\ lt_zero (PyInt 0) = OK false.
Proof.
  split; [reflexivity|]. split; [reflexivity|].
  exact (y_axis_never_negative Sample.scenario [PyInt 0; PyInt 10; PyInt 20]
           0 (PyInt 0) eq_refl eq_refl).
Defined.

(** X2: the value axis fails with the error of the first data point that
    has no [valeur] ([KeyError]) or whose [valeur] does not compare with a
    number ([TypeError]); the points after it are not looked at. *)
Theorem y_axis_first_bad_point (res : value) (items : list value) (i : nat)
    (datapoint : value) (e : exn) :
  data_of res = OK items ->
  items !! i = Some datapoint ->
  (forall (j : nat) (dj : value),
      (j < i)%nat -> items !! j = Some dj -> is_ok (More.point_check dj) = true) ->
  More.point_check datapoint = Raise e ->
  generate_y_axis res = Raise e.
Proof.
  intros Hdata Hi Hbefore Hbad. rewrite generate_y_axis_traverse, Hdata.
  cbn [mbind result_bind bind].
  apply (traverse_raise _ _ 0%nat i datapoint e Hi).
  - intros j dj Hj Hl. pose proof (y_step_check (0 + j) dj) as H.
    pose proof (Hbefore j dj Hj Hl) as Hc.
    destruct (More.point_check dj); [exact H | discriminate].
  - pose proof (y_step_check (0 + i) datapoint) as H. rewrite Hbad in H. exact H.
Qed.

Lemma y_axis_first_bad_point_witness :
  data_of More.gap_response
  = OK [PyDict [("valeur"%string, PyInt 1)]; PyDict [("valor"%string, PyInt 2)];
        PyDict [("valeur"%string, PyStr "x")]]
  /\ More.point_check (PyDict [("valor"%string, PyInt 2)]) = Raise KeyError
  /\ generate_y_axis More.gap_response = Raise KeyError.
Proof.
  split; [reflexivity|]. split; [reflexivity|].
  apply (y_axis_first_bad_point More.gap_response _ 1
           (PyDict [("valor"%string, PyInt 2)]) KeyError eq_refl eq_refl).
  - intros [|j] dj Hj Hl; [|lia]. injection Hl as <-. reflexivity.
  - reflexivity.
Defined.

(** * More on the exporters *)

(** X3: inside an exporter the pairing loop cannot fail: when both axes are
    generated from the same response they have the same length, and the
    records are the labels zipped with the values. *)
Theorem axes_always_pair (res : value) (u : time_delta_unit) (fmt : string)
    (inc : Half.t) (xs : list string) (ys : list value) :
  generate_x_axis res u fmt inc = OK xs ->
  generate_y_axis res = OK ys ->
  length xs = length ys
  /\ pair_records xs ys = OK (zip_with record xs ys)
  /\ records_of res u fmt inc = OK (zip_with record xs ys).
Proof.
  intros Hx Hy.
  destruct (generate_x_axis_length _ _ _ _ _ Hx) as (items & Hitems & Hlx).
  assert (Hly : length ys = length items).
  { rewrite generate_y_axis_traverse, Hitems in Hy.
    cbn [mbind result_bind bind] in Hy. apply traverse_ok in Hy as [H _]. exact H. }
  assert (Hpair : pair_records xs ys = OK (zip_with record xs ys)).
  { unfold pair_records. rewrite pair_loop_seq by reflexivity.
    rewrite decide_True by (left; lia). reflexivity. }
  split; [lia|]. split; [exact Hpair|].
  unfold records_of. rewrite Hx, Hy. exact Hpair.
Qed.

Lemma axes_always_pair_witness :
  generate_x_axis Sample.scenario (unit_of Day) (pattern_of Day) (increment_of Day)
  = OK Sample.scenario_labels
  /\ generate_y_axis Sample.scenario = OK [PyInt 0; PyInt 10; PyInt 20]
  /\ length Sample.scenario_labels = length [PyInt 0; PyInt 10; PyInt 20].
Proof.
  split; [reflexivity|]. split; [reflexivity|].
  exact (proj1 (axes_always_pair Sample.scenario (unit_of Day) (pattern_of Day)
                  (increment_of Day) Sample.scenario_labels
                  [PyInt 0; PyInt 10; PyInt 20] eq_refl eq_refl)).
Defined.

(** * The labels of each exporter in closed form *)

Lemma x_axis_instants (res : value) (g : granularity) (v : value)
    (parsed : dateobj) (dec : Z) (items : list value) (xs : list string) :
  dateDebut_of res = OK v ->
  strptime v "%d/%m/%Y" = OK parsed ->
  decalage_of res = OK (PyInt dec) ->
  data_of res = OK items ->
  generate_x_axis res (unit_of g) (pattern_of g) (increment_of g) = OK xs ->
  valid_date (date_of parsed)
  /\ exists start,
       valid_instant start
       /\ plus_steps g (- dec) (midnight (date_of parsed)) = Some start
       /\ length xs = length items
       /\ forall i : nat,
            (i < length items)%nat ->
            exists t, plus_steps g (Z.of_nat i) start = Some t
                      /\ xs !! i = Some (label g t).
Proof.
  intros Hdd Hparse Hdec Hdata Hx.
  rewrite (generate_x_axis_fields res _ _ _ _ _ _ Hdd Hdec Hdata) in Hx.
  rewrite Hparse in Hx. cbn [mbind result_bind bind mul_inc relativedelta_product] in Hx.
  destruct (strptime_wf _ _ _ Hparse) as [Hwf0 Hinst0].
  split; [apply Hwf0|].
  pose proof (start_date_spec g dec (date_method parsed) Hwf0) as Hstart.
  rewrite Hinst0 in Hstart.
  destruct (relativedelta_kwargs (unit_of g) (dec * increment_of g)) as [delta|e];
    [|discriminate].
  cbn [mbind result_bind bind] in *.
  destruct (rsub delta (date_method parsed)) as [start|e]; [|discriminate].
  cbn [mbind result_bind bind] in Hx. destruct Hstart as [Hwf Hplus].
  rewrite x_axis_loop_traverse in Hx by reflexivity.
  destruct (Loop.traverse _ _ _) as [labels|e] eqn:Htr; [|discriminate].
  cbn [mbind result_bind bind app] in Hx. injection Hx as <-.
  apply traverse_ok in Htr as [Hlen Hall].
  exists (instant_of start).
  split; [apply wf_valid_instant; exact Hwf|]. split; [exact Hplus|].
  split; [exact Hlen|].
  intros i Hi. destruct (lookup_lt_is_Some_2 items i Hi) as [dp Hdp].
  destruct (Hall i dp Hdp) as (y & Hy & Hl).
  apply x_step_spec in Hy as (t & Ht & ->); [|exact Hwf]. eauto.
Qed.

Lemma append_empty_r (s : string) : (s ++ EmptyString)%string = s.
Proof.
  induction s as [|c s IH]; [reflexivity|].
  change (String c (s ++ EmptyString)%string = String c s). f_equal. exact IH.
Qed.

Lemma nat_digits_step (fuel : nat) (n : Z) (acc : string) :
  nat_digits (S fuel) n acc
  = if n <? 10 then String (digit_char n) acc
    else nat_digits fuel (n / 10) (String (digit_char n) acc).
Proof. reflexivity. Qed.

(** What [strftime] writes for [%Y] is [str] of the year. *)
Lemma decimal_int_repr (y : Z) : 0 <= y <= 9999 -> decimal y = int_repr y.
Proof.
  intros Hy. unfold int_repr, decimal.
  replace (y <? 0) with false by (symmetry; apply Z.ltb_ge; lia).
  rewrite Z.abs_eq by lia.
  destruct (Z.ltb_spec y 10) as [H10|H10].
  { rewrite nat_digits_step.
    replace (y <? 10) with true by (symmetry; apply Z.ltb_lt; lia). reflexivity. }
  assert (Hlog : 3 <= Z.log2 y).
  { change 3 with (Z.log2 8). apply Z.log2_le_mono. lia. }
  destruct (Z.to_nat (Z.log2 y)) as [|[|[|n]]] eqn:E; try lia.
  rewrite !nat_digits_step.
  replace (y <? 10) with false by (symmetry; apply Z.ltb_ge; lia).
  destruct (Z.ltb_spec y 100) as [H100|H100].
  { replace (y / 10 <? 10) with true
      by (symmetry; apply Z.ltb_lt; Z.div_mod_to_equations; lia).
    reflexivity. }
  replace (y / 10 <? 10) with false
    by (symmetry; apply Z.ltb_ge; Z.div_mod_to_equations; lia).
  replace (y / 10 / 10) with (y / 100) by (Z.div_mod_to_equations; lia).
  destruct (Z.ltb_spec y 1000) as [H1000|H1000].
  { replace (y / 100 <? 10) with true
      by (symmetry; apply Z.ltb_lt; Z.div_mod_to_equations; lia).
    reflexivity. }
  replace (y / 100 <? 10) with false
    by (symmetry; apply Z.ltb_ge; Z.div_mod_to_equations; lia).
  replace (y / 100 / 10) with (y / 1000) by (Z.div_mod_to_equations; lia).
  replace (y / 1000 <? 10) with true
    by (symmetry; apply Z.ltb_lt; Z.div_mod_to_equations; lia).
  reflexivity.
Qed.

(** X4: label [i] of the year exporter is the number of the year of
    [dateDebut] minus [decalage] plus [i], written as [str] writes an
    integer: consecutive years, without padding (the year 999 is written
    [999]), whatever the day and the month of [dateDebut]. *)
Theorem year_labels (res v : value) (parsed : dateobj) (dec : Z)
    (items : list value) (xs : list string) (i : nat) :
  dateDebut_of res = OK v ->
  strptime v "%d/%m/%Y" = OK parsed ->
  decalage_of res = OK (PyInt dec) ->
  data_of res = OK items ->
  generate_x_axis res (unit_of Year) (pattern_of Year) (increment_of Year) = OK xs ->
  (i < length items)%nat ->
  xs !! i = Some (int_repr (year (date_of parsed) - dec + Z.of_nat i)).
Proof.
  intros Hdd Hparse Hdec Hdata Hx Hi.
  destruct (x_axis_instants res Year v parsed dec items xs Hdd Hparse Hdec Hdata Hx)
    as (_ & start & _ & Hstart & _ & Hall).
  destruct (Hall i Hi) as (t & Ht & ->). f_equal.
  cbn [plus_steps] in Hstart, Ht. unfold plus_years in Hstart, Ht.
  destruct (supported_year _) in Hstart; [|discriminate]. injection Hstart as <-.
  cbn [on year] in Ht.
  destruct (supported_year _) eqn:Hsup in Ht; [|discriminate]. injection Ht as <-.
  unfold supported_year, MINYEAR, MAXYEAR in Hsup.
  apply andb_true_iff in Hsup as [Hlo Hhi]. apply Z.leb_le in Hlo, Hhi.
  rewrite <- decimal_int_repr by lia.
  unfold label, format, strftime. cbn. replace (year (date_of parsed) + - dec)
    with (year (date_of parsed) - dec) by lia. rewrite append_empty_r. reflexivity.
Qed.

Lemma year_labels_witness :
  dateDebut_of Sample.scenario = OK (PyStr "01/03/2024")
  /\ strptime (PyStr "01/03/2024") "%d/%m/%Y" = OK Sample.scenario_parsed
  /\ decalage_of Sample.scenario = OK (PyInt 2)
  /\ data_of Sample.scenario = OK Sample.scenario_items
  /\ generate_x_axis Sample.scenario (unit_of Year) (pattern_of Year)
                     (increment_of Year) = OK ["2022"; "2023"; "2024"]%string
  /\ ["2022"; "2023"; "2024"]%string !! 2%nat = Some (int_repr (2024 - 2 + 2)).
Proof.
  repeat (split; [reflexivity|]).
  apply (year_labels Sample.scenario (PyStr "01/03/2024") Sample.scenario_parsed 2
           Sample.scenario_items ["2022"; "2023"; "2024"]%string 2
           eq_refl eq_refl eq_refl eq_refl eq_refl).
  cbn. lia.
Defined.

(** X5: the labels of the month exporter are the month names in calendar
    order, wrapping after December, from the month of [dateDebut] minus
    [decalage] on; the day of the month and the year play no part. *)
Theorem month_labels (res v : value) (parsed : dateobj) (dec : Z)
    (items : list value) (xs : list string) (i : nat) :
  dateDebut_of res = OK v ->
  strptime v "%d/%m/%Y" = OK parsed ->
  decalage_of res = OK (PyInt dec) ->
  data_of res = OK items ->
  generate_x_axis res (unit_of Month) (pattern_of Month) (increment_of Month) = OK xs ->
  (i < length items)%nat ->
  xs !! i
  = Some (default EmptyString
            (month_abbr
               !! Z.to_nat ((month (date_of parsed) - 1 - dec + Z.of_nat i) mod 12 + 1))).
Proof.
  intros Hdd Hparse Hdec Hdata Hx Hi.
  destruct (x_axis_instants res Month v parsed dec items xs Hdd Hparse Hdec Hdata Hx)
    as (_ & start & _ & Hstart & _ & Hall).
  destruct (Hall i Hi) as (t & Ht & ->). f_equal.
  cbn [plus_steps] in Hstart, Ht. unfold plus_months in Hstart, Ht.
  destruct (supported_year _) in Hstart; [|discriminate]. injection Hstart as <-.
  cbn [on year month day midnight] in Ht.
  destruct (supported_year _) in Ht; [|discriminate]. injection Ht as <-.
  unfold label, format, strftime. cbn. rewrite append_empty_r. do 3 f_equal.
  Z.div_mod_to_equations. lia.
Qed.

Lemma month_labels_witness :
  dateDebut_of Sample.scenario = OK (PyStr "01/03/2024")
  /\ strptime (PyStr "01/03/2024") "%d/%m/%Y" = OK Sample.scenario_parsed
  /\ decalage_of Sample.scenario = OK (PyInt 2)
  /\ data_of Sample.scenario = OK Sample.scenario_items
  /\ generate_x_axis Sample.scenario (unit_of Month) (pattern_of Month)
                     (increment_of Month) = OK ["Jan"; "Feb"; "Mar"]%string
  /\ ["Jan"; "Feb"; "Mar"]%string !! 0%nat = Some "Jan"%string.
Proof.
  repeat (split; [reflexivity|]).
  apply (month_labels Sample.scenario (PyStr "01/03/2024") Sample.scenario_parsed 2
           Sample.scenario_items ["Jan"; "Feb"; "Mar"]%string 0
           eq_refl eq_refl eq_refl eq_refl eq_refl).
  cbn. lia.
Defined.

Lemma label_format (g : granularity) (t : instant) :
  label g t = format (pattern_of g) t.
Proof. reflexivity. Qed.

Lemma in_calendar_range (n : Z) : in_calendar n = true -> 1 <= n <= _MAXORDINAL.
Proof.
  unfold in_calendar. intros H. apply andb_true_iff in H as [H1 H2].
  apply Z.leb_le in H1, H2. lia.
Qed.

Lemma plus_days_twice (a b : Z) (t t1 t2 : instant) :
  plus_days a t = Some t1 -> plus_days b t1 = Some t2 ->
  t2 = mkinstant (fromordinal (toordinal (on t) + a + b)) (half_hour t).
Proof.
  unfold plus_days. destruct (in_calendar (toordinal (on t) + a)) eqn:Hcal;
    [|discriminate].
  intros [= <-]. cbn [on half_hour].
  destruct (fromordinal_valid _ (in_calendar_range _ Hcal)) as [_ ->].
  destruct (in_calendar (toordinal (on t) + a + b)); [|discriminate].
  intros [= H]. symmetry. exact H.
Qed.

(** X6: label [i] of the day exporter is the date [i - decalage] days after
    [dateDebut], written day, month name, year: the two moves of the code
    (back by [decalage], forth by [i]) amount to one. *)
Theorem day_labels (res v : value) (parsed : dateobj) (dec : Z)
    (items : list value) (xs : list string) (i : nat) :
  dateDebut_of res = OK v ->
  strptime v "%d/%m/%Y" = OK parsed ->
  decalage_of res = OK (PyInt dec) ->
  data_of res = OK items ->
  generate_x_axis res (unit_of Day) (pattern_of Day) (increment_of Day) = OK xs ->
  (i < length items)%nat ->
  xs !! i
  = Some (format "%d %b %Y"
            (midnight (fromordinal (toordinal (date_of parsed) - dec + Z.of_nat i)))).
Proof.
  intros Hdd Hparse Hdec Hdata Hx Hi.
  destruct (x_axis_instants res Day v parsed dec items xs Hdd Hparse Hdec Hdata Hx)
    as (_ & start & _ & Hstart & _ & Hall).
  destruct (Hall i Hi) as (t & Ht & ->).
  rewrite (plus_days_twice _ _ _ _ _ Hstart Ht), label_format.
  replace (toordinal (on (midnight (date_of parsed))) + - dec + Z.of_nat i)
    with (toordinal (date_of parsed) - dec + Z.of_nat i)
    by (unfold midnight; cbn [on]; lia).
  reflexivity.
Qed.

Lemma day_labels_witness :
  dateDebut_of Sample.scenario = OK (PyStr "01/03/2024")
  /\ strptime (PyStr "01/03/2024") "%d/%m/%Y" = OK Sample.scenario_parsed
  /\ decalage_of Sample.scenario = OK (PyInt 2)
  /\ data_of Sample.scenario = OK Sample.scenario_items
  /\ generate_x_axis Sample.scenario (unit_of Day) (pattern_of Day)
                     (increment_of Day) = OK Sample.scenario_labels
  /\ Sample.scenario_labels !! 2%nat
     = Some (format "%d %b %Y"
               (midnight (fromordinal (toordinal (date_of Sample.scenario_parsed)
                                       - 2 + Z.of_nat 2)))).
Proof.
  repeat (split; [reflexivity|]).
  apply (day_labels Sample.scenario (PyStr "01/03/2024") Sample.scenario_parsed 2
           Sample.scenario_items Sample.scenario_labels 2
           eq_refl eq_refl eq_refl eq_refl eq_refl).
  cbn. lia.
Defined.

Lemma plus_half_hours_twice (a b : Z) (t t1 t2 : instant) :
  plus_half_hours a t = Some t1 -> plus_half_hours b t1 = Some t2 ->
  half_hour t2 = (toordinal (on t) * 48 + half_hour t + a + b) mod 48.
Proof.
  unfold plus_half_hours.
  set (total := toordinal (on t) * 48 + half_hour t + a).
  destruct (in_calendar (total / 48)) eqn:Hcal; [|discriminate].
  intros [= <-]. cbn [on half_hour].
  destruct (fromordinal_valid _ (in_calendar_range _ Hcal)) as [_ ->].
  destruct (in_calendar ((total / 48 * 48 + total mod 48 + b) / 48));
    [|discriminate].
  intros [= <-]. cbn [half_hour]. f_equal. Z.div_mod_to_equations. lia.
Qed.

Lemma label_half_hour (t : instant) :
  label HalfHour t
  = (two_digits (half_hour t / 2) ++ ":" ++ two_digits (half_hour t mod 2 * 30))%string.
Proof. destruct t as [d h]. reflexivity. Qed.
(** X7: label [i] of the half-hour exporter is the time of day [i - decalage]
    half hours after midnight, modulo 24 hours, written [HH:MM] with [MM]
    equal to 00 or 30; the date of [dateDebut] plays no part, so labels 48
    apart are equal. *)
Theorem half_hour_labels (res v : value) (parsed : dateobj) (dec : Z)
    (items : list value) (xs : list string) (i : nat) :
  dateDebut_of res = OK v ->
  strptime v "%d/%m/%Y" = OK parsed ->
  decalage_of res = OK (PyInt dec) ->
  data_of res = OK items ->
  generate_x_axis res (unit_of HalfHour) (pattern_of HalfHour)
                  (increment_of HalfHour) = OK xs ->
  (i < length items)%nat ->
  let h := (Z.of_nat i - dec) mod 48 in
  xs !! i = Some (two_digits (h / 2) ++ ":" ++ two_digits (h mod 2 * 30))%string.
Proof.
  intros Hdd Hparse Hdec Hdata Hx Hi h.
  destruct (x_axis_instants res HalfHour v parsed dec items xs Hdd Hparse Hdec Hdata Hx)
    as (_ & start & _ & Hstart & _ & Hall).
  destruct (Hall i Hi) as (t & Ht & ->).
  rewrite label_half_hour, (plus_half_hours_twice _ _ _ _ _ Hstart Ht).
  replace ((toordinal (on (midnight (date_of parsed))) * 48
            + half_hour (midnight (date_of parsed)) + - dec + Z.of_nat i) mod 48)
    with h; [reflexivity|].
  subst h. unfold midnight. cbn [on half_hour]. Z.div_mod_to_equations. lia.
Qed.

Lemma half_hour_labels_witness :
  dateDebut_of Sample.scenario = OK (PyStr "01/03/2024")
  /\ strptime (PyStr "01/03/2024") "%d/%m/%Y" = OK Sample.scenario_parsed
  /\ decalage_of Sample.scenario = OK (PyInt 2)
  /\ data_of Sample.scenario = OK Sample.scenario_items
  /\ generate_x_axis Sample.scenario (unit_of HalfHour) (pattern_of HalfHour)
                     (increment_of HalfHour) = OK ["23:00"; "23:30"; "00:00"]%string
  /\ ["23:00"; "23:30"; "00:00"]%string !! 1%nat = Some "23:30"%string.
Proof.
  repeat (split; [reflexivity|]).
  apply (half_hour_labels Sample.scenario (PyStr "01/03/2024")
           Sample.scenario_parsed 2 Sample.scenario_items
           ["23:00"; "23:30"; "00:00"]%string 1
           eq_refl eq_refl eq_refl eq_refl eq_refl).
  cbn. lia.
Defined.

(** * The runtime at its edges *)

(** [int] skips a no-break space and refuses a file separator. *)
Example int_of_str_white_space :
  int_of_str (String (ascii_of_nat 160) "5") = OK 5
  /\ int_of_str (String (ascii_of_nat 28) "5") = Raise ValueError
  /\ int_of_str " -12_000 " = OK (-12000).
Proof. repeat split; reflexivity. Qed.

(** A year below 1000 is written without padding. *)
Example year_999_written :
  dtostr (ADate (mkdate 999 2 14)) = "14/02/999"%string
  /\ strftime (ADate (mkdate 999 1 5)) "%d %b %Y" = "05 Jan 999"%string.
Proof. split; reflexivity. Qed.

(** A float [decalage] that is a whole number counts as that number; a text
    is refused, as a [ValueError] for months. *)
Example decalage_of_other_types :
  generate_x_axis More.scenario_float (unit_of Day) (pattern_of Day)
                  (increment_of Day) = OK Sample.scenario_labels
  /\ generate_x_axis More.scenario_text (unit_of Month) (pattern_of Month)
                     (increment_of Month) = Raise ValueError
  /\ generate_x_axis More.scenario_text (unit_of Day) (pattern_of Day)
                     (increment_of Day) = Raise TypeError.
Proof. repeat split; reflexivity. Qed.

(** * More on the exporters and the driver *)

(** X8: an exporter reads and parses [dateDebut] before anything else: when
    that fails (no [graphe], [periode] or [dateDebut] key, a response that is
    not a dictionary, a date that does not parse), the exporter fails with
    that very error, whatever the data points and [decalage] are. *)
Theorem start_date_is_checked_first BASEDIR float_repr (g : granularity)
    (res : value) (e : exn) (fs : filesystem) :
  (v ← dateDebut_of res; strptime v "%d/%m/%Y") = Raise e ->
  exporter BASEDIR float_repr g res fs = Raise e.
Proof.
  intros H. rewrite exporter_unfold. unfold export_values, records_of.
  assert (Hx : generate_x_axis res (unit_of g) (pattern_of g) (increment_of g)
               = Raise e).
  { unfold dateDebut_of in H. unfold generate_x_axis.
    destruct (getitem res "graphe") as [graphe|e0];
      cbn [mbind result_bind bind] in *; [|congruence].
    destruct (getitem graphe "periode") as [periode|e0];
      cbn [mbind result_bind bind] in *; [|congruence].
    destruct (getitem periode "dateDebut") as [v|e0];
      cbn [mbind result_bind bind] in *; [|congruence].
    rewrite H. reflexivity. }
  rewrite Hx. reflexivity.
Qed.

Lemma start_date_is_checked_first_witness :
  (v ← dateDebut_of no_dateDebut; strptime v "%d/%m/%Y") = Raise KeyError
  /\ exporter "/tmp" Sample.no_float Month no_dateDebut Sample.empty_fs
     = Raise KeyError.
Proof.
  split; [reflexivity|].
  exact (start_date_is_checked_first "/tmp" Sample.no_float Month no_dateDebut
           KeyError Sample.empty_fs eq_refl).
Defined.

Lemma append_inj_l (b s1 s2 : string) : (b ++ s1 = b ++ s2)%string -> s1 = s2.
Proof.
  induction b as [|c b IH]; cbn; [auto|]. intros [= H]. apply IH. exact H.
Qed.

Lemma path_of_inj BASEDIR (g g' : granularity) :
  path_of BASEDIR g = path_of BASEDIR g' -> g = g'.
Proof.
  unfold path_of. intros H. apply append_inj_l in H.
  destruct g, g'; try reflexivity; discriminate H.
Qed.

(** X9: the four exporters write four different files: exporting one
    granularity leaves the file of any other granularity as it was, and two
    exports of different granularities give the same files in either
    order. *)
Theorem exporters_do_not_interfere BASEDIR float_repr (g g' : granularity)
    (res res' : value) (fs fs1 fs2 : filesystem) :
  g <> g' ->
  exporter BASEDIR float_repr g res fs = OK fs1 ->
  exporter BASEDIR float_repr g' res' fs1 = OK fs2 ->
  files fs1 !! path_of BASEDIR g' = files fs !! path_of BASEDIR g'
  /\ exists fs1',
       exporter BASEDIR float_repr g' res' fs = OK fs1'
       /\ exporter BASEDIR float_repr g res fs1' = OK fs2.
Proof.
  intros Hne. rewrite !exporter_spec.
  destruct (records_of res _ _ _) as [recs|e] eqn:Hr; [|discriminate].
  destruct (records_of res' _ _ _) as [recs'|e] eqn:Hr'; [|discriminate].
  cbn [mbind result_bind bind].
  destruct (decide (path_of BASEDIR g ∈ unwritable fs)) as [|Hw]; [discriminate|].
  intros [= <-]. cbn [files unwritable].
  destruct (decide (path_of BASEDIR g' ∈ unwritable fs)) as [|Hw']; [discriminate|].
  intros [= <-].
  assert (Hp : path_of BASEDIR g <> path_of BASEDIR g').
  { intros Hp. apply Hne. exact (path_of_inj _ _ _ Hp). }
  split; [apply lookup_insert_ne; exact Hp|].
  eexists. split; [reflexivity|].
  rewrite exporter_spec, Hr. cbn [mbind result_bind bind files unwritable].
  rewrite decide_False by exact Hw. f_equal. f_equal.
  apply insert_insert_ne. congruence.
Qed.

Lemma exporters_do_not_interfere_witness :
  Day <> Month
  /\ exporter "/tmp" Sample.no_float Day Sample.scenario Sample.empty_fs
     = OK scenario_exported
  /\ exporter "/tmp" Sample.no_float Month Sample.scenario scenario_exported
     = OK More.scenario_exported_twice
  /\ files scenario_exported !! path_of "/tmp" Month
     = files Sample.empty_fs !! path_of "/tmp" Month
  /\ exists fs1',
       exporter "/tmp" Sample.no_float Month Sample.scenario Sample.empty_fs
       = OK fs1'
       /\ exporter "/tmp" Sample.no_float Day Sample.scenario fs1'
          = OK More.scenario_exported_twice.
Proof.
  assert (H1 : exporter "/tmp" Sample.no_float Day Sample.scenario
                 Sample.empty_fs = OK scenario_exported)
    by (rewrite exporter_spec; reflexivity).
  assert (H2 : exporter "/tmp" Sample.no_float Month Sample.scenario
                 scenario_exported = OK More.scenario_exported_twice)
    by (rewrite exporter_spec; reflexivity).
  split; [discriminate|]. split; [exact H1|]. split; [exact H2|].
  exact (exporters_do_not_interfere "/tmp" Sample.no_float Day Month
           Sample.scenario Sample.scenario Sample.empty_fs scenario_exported
           More.scenario_exported_twice ltac:(discriminate) H1 H2).
Defined.

(** ** More on the driver *)

Lemma plus_days_zero (t : instant) : valid_instant t -> plus_days 0 t = Some t.
Proof.
  intros Hv. change 0 with (48 * 0). rewrite <- plus_half_hours_days by exact Hv.
  apply plus_half_hours_zero. exact Hv.
Qed.

Lemma months_before_only (today : dateobj) (m : Z) :
  Delta.wf today ->
  (t ← plus_months m (instant_of today); plus_days 0 t)
  = plus_months m (instant_of today).
Proof.
  intros Hwf. destruct (plus_months m (instant_of today)) as [t|] eqn:Ht;
    [|reflexivity].
  cbn [mbind option_bind]. apply plus_days_zero.
  exact (plus_months_valid _ _ _ (wf_valid_instant _ Hwf) Ht).
Qed.

Lemma main_handles (USERNAME PASSWORD BASEDIR : string)
    (float_repr : spec_float -> string)
    (linky_login : string -> string -> result string)
    (linky_get_data_per_month linky_get_data_per_day
       : string -> string -> string -> result value)
    (argv : list string) (today : dateobj) (w0 w : world) (e : exn) :
  main_try USERNAME PASSWORD BASEDIR float_repr linky_login
           linky_get_data_per_month linky_get_data_per_day argv today w0
  = (Raise e, w) ->
  main USERNAME PASSWORD BASEDIR float_repr linky_login
       linky_get_data_per_month linky_get_data_per_day argv today w0
  = (More.handled e, mkworld (fs w) (trace w ++ More.logged e)).
Proof.
  intros H. unfold main. rewrite H.
  destruct w as [f t]; destruct e; cbn [More.handled More.logged fs trace];
    rewrite ?app_nil_r; reflexivity.
Qed.

Section Failures.

Variables USERNAME PASSWORD BASEDIR : string.
Variable float_repr : spec_float -> string.
Variable linky_login : string -> string -> result string.
Variable linky_get_data_per_month : string -> string -> string -> result value.
Variable linky_get_data_per_day : string -> string -> string -> result value.

(** X10: when the login raises, the run stops there: only the login
    announcement and the login call have happened, the command line was
    not read, nothing was fetched and no file was written.  A
    [LinkyLoginException] is logged and the process leaves through
    [sys.exit(1)]; any other exception is left uncaught.  The exit status
    is 1 in both cases. *)
Theorem login_failure_ends_run (argv : list string) (today : dateobj)
    (fs0 : filesystem) (e : exn) :
  linky_login USERNAME PASSWORD = Raise e ->
  let run := main USERNAME PASSWORD BASEDIR float_repr linky_login
                  linky_get_data_per_month linky_get_data_per_day
                  argv today (mkworld fs0 []) in
  fst run = More.handled e
  /\ exit_status (fst run) = 1
  /\ trace (snd run) = at_login USERNAME PASSWORD ++ More.logged e
  /\ filter (fun ev => is_fetch ev = true) (trace (snd run)) = []
  /\ fs (snd run) = fs0.
Proof.
  intros Hlogin run. subst run.
  rewrite (main_handles _ _ _ _ _ _ _ _ _ _
             (mkworld fs0 (at_login USERNAME PASSWORD)) e)
    by (rewrite main_try_steps, Hlogin; reflexivity).
  cbn [fst snd fs trace].
  repeat split; destruct e; reflexivity.
Qed.

(** X11: with a valid date for today, the monthly fetch, when it is issued,
    asks for the window from eleven months before today to today, both ends
    written day/month/year, and it is issued at most once.  It is issued as
    soon as the login succeeds, the argument is an integer and the dates of
    the day window and of this window exist, whatever the collaborators
    answer afterwards. *)
Theorem month_fetch_window (argv : list string) (today : dateobj)
    (fs0 : filesystem) :
  Delta.wf today ->
  let run := main USERNAME PASSWORD BASEDIR float_repr linky_login
                  linky_get_data_per_month linky_get_data_per_day
                  argv today (mkworld fs0 []) in
  (More.month_fetches (trace (snd run)) = []
   \/ exists w, More.month_window (instant_of today) = Some w
                /\ More.month_fetches (trace (snd run)) = [w])
  /\ (forall token arg offset w,
        linky_login USERNAME PASSWORD = OK token ->
        argv !! 1%nat = Some arg ->
        int_of_str arg = OK offset ->
        is_Some (day_window (instant_of today) offset) ->
        More.month_window (instant_of today) = Some w ->
        More.month_fetches (trace (snd run)) = [w]).
Proof.
  intros Hwf run. subst run. unfold main. rewrite main_try_steps.
  pose proof (minus_days_months_spec today 0 11 Hwf) as S3.
  change (- (0)) with 0 in S3. change (- (11)) with (-11) in S3.
  rewrite (months_before_only today (-11) Hwf) in S3.
  unfold More.month_window.
  destruct (linky_login USERNAME PASSWORD) as [tok|e].
  2:{ split; [left; destruct e; reflexivity|]. intros ? ? ? ? [=]. }
  destruct (argv !! 1%nat) as [arg|].
  2:{ split; [left; reflexivity|]. intros ? ? ? ? _ [=]. }
  destruct (int_of_str arg) as [offset|e] eqn:Hint.
  2:{ split; [left; destruct e; reflexivity|].
      intros ? a o ? _ [= <-] Hi. rewrite Hint in Hi. discriminate Hi. }
  pose proof (minus_days_months_spec today 1 offset Hwf) as S1.
  pose proof (minus_days_months_spec today 1 (offset + 1) Hwf) as S2.
  change (- (1)) with (-1) in S1, S2.
  destruct (minus_days_months today 1 offset) as [d1|e].
  2:{ split; [left; destruct e; reflexivity|].
      intros token a o w _ [= <-] Hi [w' Hw'] _. exfalso.
      rewrite Hint in Hi. injection Hi as <-.
      unfold day_window, months_and_a_day_before in Hw'. rewrite S1 in Hw'.
      destruct (plus_months (- (offset + 1)) _ ≫= _); discriminate. }
  destruct (minus_days_months today 1 (offset + 1)) as [d2|e].
  2:{ split; [left; destruct e; reflexivity|].
      intros token a o w _ [= <-] Hi [w' Hw'] _. exfalso.
      rewrite Hint in Hi. injection Hi as <-.
      unfold day_window, months_and_a_day_before in Hw'. rewrite S2 in Hw'.
      discriminate. }
  destruct (minus_days_months today 0 11) as [d3|e].
  2:{ rewrite S3. split; [left; destruct e; reflexivity|].
      intros ? ? ? ? _ _ _ _ [=]. }
  destruct S3 as [Hwf3 S3]. rewrite S3. cbn [mbind option_bind].
  rewrite <- (strftime_format d3 _ Hwf3), <- (strftime_format today _ Hwf).
  fold (dtostr d3) (dtostr today).
  destruct (linky_get_data_per_month tok _ _) as [rm|e].
  2:{ destruct e;
        (split; [right; eexists; split; [reflexivity|reflexivity]|]);
        intros ? ? ? ? _ _ _ _ [= <-]; reflexivity. }
  destruct (linky_get_data_per_day tok _ _) as [rd|e].
  - destruct (export_days_values _ _ _ _);
      (split; [right; eexists; split; [reflexivity|reflexivity]|]);
      intros ? ? ? ? _ _ _ _ [= <-]; reflexivity.
  - destruct e;
      (split; [right; eexists; split; [reflexivity|reflexivity]|]);
      intros ? ? ? ? _ _ _ _ [= <-]; reflexivity.
Qed.

(** X12: an exception raised by either fetch ends the run before the export
    stage: no file is written and the exit status is 1; a
    [LinkyLoginException] is logged and leaves through [sys.exit(1)], any
    other exception is left uncaught.  When it is the monthly fetch that
    fails, the per-day fetch is never requested. *)
Theorem fetch_failure_ends_run (argv : list string) (today : dateobj)
    (fs0 : filesystem) (token arg : string) (mmonth : Z) (d1 d2 d3 : dateobj)
    (e : exn) :
  linky_login USERNAME PASSWORD = OK token ->
  argv !! 1%nat = Some arg ->
  int_of_str arg = OK mmonth ->
  minus_days_months today 1 mmonth = OK d1 ->
  minus_days_months today 1 (mmonth + 1) = OK d2 ->
  minus_days_months today 0 11 = OK d3 ->
  let run := main USERNAME PASSWORD BASEDIR float_repr linky_login
                  linky_get_data_per_month linky_get_data_per_day
                  argv today (mkworld fs0 []) in
  (linky_get_data_per_month token (dtostr d3) (dtostr today) = Raise e ->
   fst run = More.handled e
   /\ exit_status (fst run) = 1
   /\ fs (snd run) = fs0
   /\ trace (snd run)
      = at_month_fetch USERNAME PASSWORD arg token d1 d2 d3 today
        ++ More.logged e
   /\ day_fetches (trace (snd run)) = [])
  /\ (forall res_month,
        linky_get_data_per_month token (dtostr d3) (dtostr today) = OK res_month ->
        linky_get_data_per_day token (dtostr d2) (dtostr d1) = Raise e ->
        fst run = More.handled e
        /\ exit_status (fst run) = 1
        /\ fs (snd run) = fs0
        /\ trace (snd run)
           = at_day_fetch USERNAME PASSWORD arg token d1 d2 d3 today
             ++ More.logged e).
Proof.
  intros Hlogin Harg Hint Hd1 Hd2 Hd3 run. subst run. split.
  - intros Hm.
    rewrite (main_handles _ _ _ _ _ _ _ _ _ _
               (mkworld fs0 (at_month_fetch USERNAME PASSWORD arg token
                                            d1 d2 d3 today)) e)
      by (rewrite main_try_steps, Hlogin, Harg, Hint, Hd1, Hd2, Hd3, Hm;
          reflexivity).
    cbn [fst snd fs trace].
    repeat split; destruct e; reflexivity.
  - intros res_month Hm Hd.
    rewrite (main_handles _ _ _ _ _ _ _ _ _ _
               (mkworld fs0 (at_day_fetch USERNAME PASSWORD arg token
                                          d1 d2 d3 today)) e)
      by (rewrite main_try_steps, Hlogin, Harg, Hint, Hd1, Hd2, Hd3, Hm, Hd;
          reflexivity).
    cbn [fst snd fs trace].
    repeat split; destruct e; reflexivity.
Qed.

(** X13: whatever the command line, the date and the collaborators' answers,
    a run only ever touches the day export file: every other path holds
    after the run what it held before, and the set of paths that cannot be
    written is unchanged. *)
Theorem only_day_file_written (argv : list string) (today : dateobj)
    (fs0 : filesystem) (p : string) :
  let run := main USERNAME PASSWORD BASEDIR float_repr linky_login
                  linky_get_data_per_month linky_get_data_per_day
                  argv today (mkworld fs0 []) in
  unwritable (fs (snd run)) = unwritable fs0
  /\ (p <> path_of BASEDIR Day ->
      files (fs (snd run)) !! p = files fs0 !! p).
Proof.
  intros run. subst run. unfold main. rewrite main_try_steps.
  destruct (linky_login USERNAME PASSWORD) as [tok|e];
    [|destruct e; split; reflexivity].
  destruct (argv !! 1%nat) as [arg|]; [|split; reflexivity].
  destruct (int_of_str arg) as [m|e]; [|destruct e; split; reflexivity].
  destruct (minus_days_months today 1 m) as [d1|e];
    [|destruct e; split; reflexivity].
  destruct (minus_days_months today 1 (m + 1)) as [d2|e];
    [|destruct e; split; reflexivity].
  destruct (minus_days_months today 0 11) as [d3|e];
    [|destruct e; split; reflexivity].
  destruct (linky_get_data_per_month tok _ _) as [rm|e];
    [|destruct e; split; reflexivity].
  destruct (linky_get_data_per_day tok _ _) as [rd|e];
    [|destruct e; split; reflexivity].
  change (export_days_values BASEDIR float_repr rd fs0)
    with (exporter BASEDIR float_repr Day rd fs0).
  rewrite exporter_spec.
  destruct (records_of rd _ _ _) as [recs|e]; [|split; reflexivity].
  cbn [mbind result_bind bind].
  destruct (decide (path_of BASEDIR Day ∈ unwritable fs0));
    [split; reflexivity|].
  cbn [fst snd fs files unwritable]. split; [reflexivity|].
  intros Hp. apply lookup_insert_ne. congruence.
Qed.

End Failures.

(** ** The failures on a run of 15 March 2024 *)

Lemma login_failure_ends_run_witness :
  More.login_refused "user" "secret" = Raise LinkyLoginException
  /\ fst (More.start_refused ["linky_month.py"; "0"]%string) = Exited 1
  /\ trace (snd (More.start_refused ["linky_month.py"; "0"]%string))
     = at_login "user" "secret" ++ [LogError LinkyLoginException]
  /\ fs (snd (More.start_refused ["linky_month.py"; "0"]%string))
     = Sample.empty_fs.
Proof.
  split; [reflexivity|].
  pose proof (login_failure_ends_run "user" "secret" "/tmp" Sample.no_float
                More.login_refused Run.get_data Run.get_data
                ["linky_month.py"; "0"]%string Run.today Sample.empty_fs
                LinkyLoginException eq_refl)
    as (Hout & _ & Htrace & _ & Hfs).
  split; [exact Hout|]. split; [exact Htrace|]. exact Hfs.
Defined.

Lemma month_fetch_window_witness :
  Delta.wf Run.today
  /\ More.month_fetches (trace (snd (Run.start ["linky_month.py"; "0"]%string)))
     = [("15/04/2023", "15/03/2024")]%string.
Proof.
  split; [exact run_today_wf|].
  apply (proj2 (month_fetch_window "user" "secret" "/tmp" Sample.no_float
                  Run.login Run.get_data Run.get_data
                  ["linky_month.py"; "0"]%string Run.today Sample.empty_fs
                  run_today_wf) "token"%string "0"%string 0).
  - reflexivity.
  - reflexivity.
  - reflexivity.
  - eexists. reflexivity.
  - reflexivity.
Defined.

Lemma fetch_failure_ends_run_witness :
  More.get_unavailable "token" "15/04/2023" "15/03/2024"
  = Raise LinkyServiceException
  /\ fst (More.start_unavailable ["linky_month.py"; "0"]%string)
     = Uncaught LinkyServiceException
  /\ fs (snd (More.start_unavailable ["linky_month.py"; "0"]%string))
     = Sample.empty_fs
  /\ day_fetches (trace (snd (More.start_unavailable
                                ["linky_month.py"; "0"]%string))) = [].
Proof.
  split; [reflexivity|].
  pose proof (proj1 (fetch_failure_ends_run "user" "secret" "/tmp"
                       Sample.no_float Run.login More.get_unavailable
                       Run.get_data ["linky_month.py"; "0"]%string Run.today
                       Sample.empty_fs "token" "0" 0
                       (ADate (mkdate 2024 3 14)) (ADate (mkdate 2024 2 14))
                       (ADate (mkdate 2023 4 15)) LinkyServiceException
                       eq_refl eq_refl eq_refl eq_refl eq_refl eq_refl)
                    eq_refl)
    as (Hout & _ & Hfs & _ & Hday).
  split; [exact Hout|]. split; [exact Hfs|]. exact Hday.
Defined.

Lemma only_day_file_written_witness :
  path_of "/tmp" Month <> path_of "/tmp" Day
  /\ files (fs (snd (Run.start ["linky_month.py"; "0"]%string)))
       !! path_of "/tmp" Month
     = files Sample.empty_fs !! path_of "/tmp" Month.
Proof.
  assert (H : path_of "/tmp" Month <> path_of "/tmp" Day) by discriminate.
  split; [exact H|].
  exact (proj2 (only_day_file_written "user" "secret" "/tmp" Sample.no_float
                  Run.login Run.get_data Run.get_data
                  ["linky_month.py"; "0"]%string Run.today Sample.empty_fs
                  (path_of "/tmp" Month)) H).
Defined.

(** * Dates written and read back *)

Lemma digit_cases (z : Z) :
  z mod 10 = 0 \/ z mod 10 = 1 \/ z mod 10 = 2 \/ z mod 10 = 3 \/ z mod 10 = 4
  \/ z mod 10 = 5 \/ z mod 10 = 6 \/ z mod 10 = 7 \/ z mod 10 = 8
  \/ z mod 10 = 9.
Proof. pose proof (Z.mod_pos_bound z 10 eq_refl). lia. Qed.

Lemma digit_char_is_digit (z : Z) : is_digit (digit_char z) = true.
Proof.
  unfold digit_char.
  destruct (digit_cases z) as [H|[H|[H|[H|[H|[H|[H|[H|[H|H]]]]]]]]];
    rewrite H; reflexivity.
Qed.

Lemma digit_val_char (z : Z) : digit_val (digit_char z) = z mod 10.
Proof.
  unfold digit_char.
  destruct (digit_cases z) as [H|[H|[H|[H|[H|[H|[H|[H|[H|H]]]]]]]]];
    rewrite H; reflexivity.
Qed.

Lemma append_cons (c : ascii) (s t : string) :
  (String c s ++ t = String c (s ++ t))%string.
Proof. reflexivity. Qed.

Lemma append_empty_l (t : string) : (EmptyString ++ t = t)%string.
Proof. reflexivity. Qed.

Lemma re_Y_four_digits (y : Z) (rest : string) :
  0 <= y <= 9999 -> re_Y (four_digits y ++ rest) = [(y, rest)].
Proof.
  intros Hy. unfold four_digits. rewrite !append_cons, append_empty_l.
  unfold re_Y.
  rewrite !digit_char_is_digit, !digit_val_char. cbn [andb].
  f_equal. f_equal. Z.div_mod_to_equations; lia.
Qed.

Lemma re_match_lit (c c' : ascii) (fmt' : list item) (acc : found)
    (rest : string) :
  re_match (Lit c :: fmt') acc (String c' rest)
  = if Ascii.eqb c c' then re_match fmt' acc rest else Some [].
Proof. reflexivity. Qed.

Lemma re_match_dir_d (fmt' : list item) (acc : found) (s : string) :
  re_match (Dir "d" :: fmt') acc s
  = foldr (fun '(v, rest) tl =>
             r ← re_match fmt' (mkfound (f_year acc) (f_month acc) v) rest;
             tl' ← tl;
             Some (r ++ tl'))
          (Some []) (re_d s).
Proof. reflexivity. Qed.

Lemma re_match_dir_m (fmt' : list item) (acc : found) (s : string) :
  re_match (Dir "m" :: fmt') acc s
  = foldr (fun '(v, rest) tl =>
             r ← re_match fmt' (mkfound (f_year acc) v (f_day acc)) rest;
             tl' ← tl;
             Some (r ++ tl'))
          (Some []) (re_m s).
Proof. reflexivity. Qed.

Lemma re_match_dir_Y (fmt' : list item) (acc : found) (s : string) :
  re_match (Dir "Y" :: fmt') acc s
  = foldr (fun '(v, rest) tl =>
             r ← re_match fmt' (mkfound (Some v) (f_month acc) (f_day acc)) rest;
             tl' ← tl;
             Some (r ++ tl'))
          (Some []) (re_Y s).
Proof. reflexivity. Qed.

Lemma first_alternative {A} (r : option (list A)) :
  (r' ← r; tl' ← Some []; Some (r' ++ tl')) = r.
Proof. destruct r as [l|]; [|reflexivity]. cbn. rewrite app_nil_r. reflexivity. Qed.

Ltac spell_two_digits :=
  match goal with
  | |- context [two_digits ?d] =>
      let s := eval vm_compute in (two_digits d) in
      change (two_digits d) with s
  end;
  rewrite !append_cons, append_empty_l.

Ltac run_alternatives re :=
  match goal with
  | |- context [re ?s] =>
      let v := eval vm_compute in (re s) in
      change (re s) with v
  end;
  cbn [foldr]; rewrite !re_match_lit;
  repeat match goal with
         | |- context [Ascii.eqb ?a ?b] =>
             let v := eval vm_compute in (Ascii.eqb a b) in
             change (Ascii.eqb a b) with v
         end;
  cbv iota;
  apply first_alternative.

Lemma re_match_day (fmt' : list item) (acc : found) (d : Z) (rest : string) :
  1 <= d <= 31 ->
  re_match (Dir "d" :: Lit "/" :: fmt') acc (two_digits d ++ String "/" rest)
  = re_match fmt' (mkfound (f_year acc) (f_month acc) d) rest.
Proof.
  intros Hd.
  assert (H : d = 1 \/ d = 2 \/ d = 3 \/ d = 4 \/ d = 5 \/ d = 6 \/ d = 7
              \/ d = 8 \/ d = 9 \/ d = 10 \/ d = 11 \/ d = 12 \/ d = 13
              \/ d = 14 \/ d = 15 \/ d = 16 \/ d = 17 \/ d = 18 \/ d = 19
              \/ d = 20 \/ d = 21 \/ d = 22 \/ d = 23 \/ d = 24 \/ d = 25
              \/ d = 26 \/ d = 27 \/ d = 28 \/ d = 29 \/ d = 30 \/ d = 31)
    by lia.
  clear Hd. rewrite re_match_dir_d.
  repeat (destruct H as [H|H]); subst d; spell_two_digits.
  all: run_alternatives re_d.
Qed.

Lemma re_match_month (fmt' : list item) (acc : found) (m : Z) (rest : string) :
  1 <= m <= 12 ->
  re_match (Dir "m" :: Lit "/" :: fmt') acc (two_digits m ++ String "/" rest)
  = re_match fmt' (mkfound (f_year acc) m (f_day acc)) rest.
Proof.
  intros Hm.
  assert (H : m = 1 \/ m = 2 \/ m = 3 \/ m = 4 \/ m = 5 \/ m = 6 \/ m = 7
              \/ m = 8 \/ m = 9 \/ m = 10 \/ m = 11 \/ m = 12) by lia.
  clear Hm. rewrite re_match_dir_m.
  repeat (destruct H as [H|H]); subst m; spell_two_digits.
  all: run_alternatives re_m.
Qed.

Lemma re_match_year (acc : found) (y : Z) :
  0 <= y <= 9999 ->
  re_match [Dir "Y"] acc (four_digits y)
  = Some [(mkfound (Some y) (f_month acc) (f_day acc), EmptyString)].
Proof.
  intros Hy. rewrite re_match_dir_Y.
  rewrite <- (append_empty_r (four_digits y)).
  rewrite (re_Y_four_digits y EmptyString Hy). reflexivity.
Qed.

Lemma decimal_four_digits (y : Z) : 1000 <= y -> decimal y = four_digits y.
Proof.
  intros Hy. unfold decimal.
  replace (y <? 10) with false by (symmetry; apply Z.ltb_ge; lia).
  replace (y <? 100) with false by (symmetry; apply Z.ltb_ge; lia).
  replace (y <? 1000) with false by (symmetry; apply Z.ltb_ge; lia).
  reflexivity.
Qed.

Lemma dtostr_spelled (o : dateobj) :
  1000 <= year (date_of o) ->
  dtostr o
  = (two_digits (day (date_of o))
     ++ String "/" (two_digits (month (date_of o))
                    ++ String "/" (four_digits (year (date_of o)))))%string.
Proof.
  intros Hy. unfold dtostr, strftime.
  change (strftime_items o (items "%d/%m/%Y"))
    with (two_digits (day (date_of o))
          ++ String "/" (two_digits (month (date_of o))
                         ++ String "/" (decimal (year (date_of o))
                                        ++ EmptyString)))%string.
  rewrite append_empty_r, decimal_four_digits by exact Hy. reflexivity.
Qed.

Lemma check_date_fields_ok (d : date) :
  valid_date d -> _check_date_fields (year d) (month d) (day d) = OK d.
Proof.
  intros (Hy & Hm & Hd). unfold _check_date_fields.
  replace ((MINYEAR <=? year d) && (year d <=? MAXYEAR)) with true
    by (symmetry; apply andb_true_iff; split; apply Z.leb_le; lia).
  replace ((1 <=? month d) && (month d <=? 12)) with true
    by (symmetry; apply andb_true_iff; split; apply Z.leb_le; lia).
  replace ((1 <=? day d) && (day d <=? _days_in_month (year d) (month d)))
    with true
    by (symmetry; apply andb_true_iff; split; apply Z.leb_le; lia).
  destruct d; reflexivity.
Qed.

(** X14: the text [dtostr] writes for a valid date of the year 1000 or later
    is read back by [strptime] with the pattern ["%d/%m/%Y"], the one
    [generate_x_axis] parses [dateDebut] with, as that same date at
    midnight: the dates the driver sends are dates the exporters accept. *)
Theorem dtostr_strptime (o : dateobj) :
  valid_date (date_of o) ->
  1000 <= year (date_of o) ->
  strptime (PyStr (dtostr o)) "%d/%m/%Y"
  = OK (ADatetime (date_of o) (mktime 0 0 0)).
Proof.
  intros Hv Hy. pose proof Hv as (Hyear & Hm & Hd).
  pose proof (days_in_month_pos (year (date_of o)) (month (date_of o)) Hm).
  unfold MINYEAR, MAXYEAR in Hyear.
  unfold strptime.
  change (items "%d/%m/%Y")
    with [Dir "d"; Lit "/"; Dir "m"; Lit "/"; Dir "Y"].
  rewrite dtostr_spelled by exact Hy.
  rewrite re_match_day by lia. rewrite re_match_month by lia.
  rewrite re_match_year by lia.
  cbn [f_year f_month f_day String.eqb negb].
  rewrite (check_date_fields_ok _ Hv). reflexivity.
Qed.

Lemma dtostr_strptime_witness :
  valid_date (date_of Run.today)
  /\ 1000 <= year (date_of Run.today)
  /\ dtostr Run.today = "15/03/2024"%string
  /\ strptime (PyStr "15/03/2024") "%d/%m/%Y"
     = OK (ADatetime (mkdate 2024 3 15) (mktime 0 0 0)).
Proof.
  assert (Hv : valid_date (date_of Run.today)) by exact (proj1 run_today_wf).
  assert (Hy : 1000 <= year (date_of Run.today)) by (cbn; lia).
  split; [exact Hv|]. split; [exact Hy|]. split; [reflexivity|].
  exact (dtostr_strptime Run.today Hv Hy).
Defined.

(** * When a run succeeds *)

Lemma day_window_dates (today d1 d2 : dateobj) (offset : Z) :
  Delta.wf today ->
  minus_days_months today 1 offset = OK d1 ->
  minus_days_months today 1 (offset + 1) = OK d2 ->
  day_window (instant_of today) offset = Some (dtostr d2, dtostr d1).
Proof.
  intros Hwf H1 H2.
  pose proof (minus_days_months_spec today 1 offset Hwf) as S1.
  pose proof (minus_days_months_spec today 1 (offset + 1) Hwf) as S2.
  change (- (1)) with (-1) in S1, S2.
  rewrite H1 in S1. rewrite H2 in S2.
  destruct S1 as [Hwf1 S1]. destruct S2 as [Hwf2 S2].
  unfold day_window, months_and_a_day_before. rewrite S1, S2.
  cbn [mbind option_bind].
  rewrite <- (strftime_format d1 _ Hwf1), <- (strftime_format d2 _ Hwf2).
  reflexivity.
Qed.

Lemma day_window_none (today : dateobj) (offset : Z) (e : exn) :
  Delta.wf today ->
  minus_days_months today 1 offset = Raise e
  \/ minus_days_months today 1 (offset + 1) = Raise e ->
  day_window (instant_of today) offset = None.
Proof.
  intros Hwf H.
  pose proof (minus_days_months_spec today 1 offset Hwf) as S1.
  pose proof (minus_days_months_spec today 1 (offset + 1) Hwf) as S2.
  change (- (1)) with (-1) in S1, S2.
  unfold day_window, months_and_a_day_before.
  destruct H as [H|H].
  - rewrite H in S1. rewrite S1.
    destruct (plus_months (- (offset + 1)) _ ≫= _); reflexivity.
  - rewrite H in S2. rewrite S2. reflexivity.
Qed.

Lemma month_window_dates (today : dateobj) :
  Delta.wf today ->
  More.month_window (instant_of today)
  = match minus_days_months today 0 11 with
    | OK d3 => Some (dtostr d3, dtostr today)
    | Raise _ => None
    end.
Proof.
  intros Hwf.
  pose proof (minus_days_months_spec today 0 11 Hwf) as S3.
  change (- (0)) with 0 in S3. change (- (11)) with (-11) in S3.
  rewrite (months_before_only today (-11) Hwf) in S3.
  unfold More.month_window.
  destruct (minus_days_months today 0 11) as [d3|e].
  - destruct S3 as [Hwf3 S3]. rewrite S3. cbn [mbind option_bind].
    rewrite <- (strftime_format d3 _ Hwf3), <- (strftime_format today _ Hwf).
    reflexivity.
  - rewrite S3. reflexivity.
Qed.

Section Success.

Variables USERNAME PASSWORD BASEDIR : string.
Variable float_repr : spec_float -> string.
Variable linky_login : string -> string -> result string.
Variable linky_get_data_per_month : string -> string -> string -> result value.
Variable linky_get_data_per_day : string -> string -> string -> result value.

(** X15: with a valid date for today, a run ends with exit status 0 exactly
    when the login succeeds, the first argument is an integer, the dates of
    the day window and of the month window exist and both fetches answer;
    what the day export then does has no part in it. *)
Theorem run_succeeds_iff (argv : list string) (today : dateobj)
    (fs0 : filesystem) :
  Delta.wf today ->
  let run := main USERNAME PASSWORD BASEDIR float_repr linky_login
                  linky_get_data_per_month linky_get_data_per_day
                  argv today (mkworld fs0 []) in
  exit_status (fst run) = 0
  <-> exists token arg offset dw mw,
        linky_login USERNAME PASSWORD = OK token
        /\ argv !! 1%nat = Some arg
        /\ int_of_str arg = OK offset
        /\ day_window (instant_of today) offset = Some dw
        /\ More.month_window (instant_of today) = Some mw
        /\ is_ok (linky_get_data_per_month token (fst mw) (snd mw)) = true
        /\ is_ok (linky_get_data_per_day token (fst dw) (snd dw)) = true.
Proof.
  intros Hwf run. subst run. unfold main. rewrite main_try_steps.
  pose proof (month_window_dates today Hwf) as Hmw.
  destruct (linky_login USERNAME PASSWORD) as [tok|e].
  2:{ split; [destruct e; discriminate|].
      intros (? & ? & ? & ? & ? & [=] & _). }
  destruct (argv !! 1%nat) as [arg|].
  2:{ split; [discriminate|]. intros (? & ? & ? & ? & ? & _ & [=] & _). }
  destruct (int_of_str arg) as [offset|e] eqn:Hint.
  2:{ split; [destruct e; discriminate|].
      intros (? & ? & ? & ? & ? & _ & [= <-] & Hi & _).
      rewrite Hint in Hi. discriminate Hi. }
  destruct (minus_days_months today 1 offset) as [d1|e] eqn:H1.
  2:{ split; [destruct e; discriminate|].
      intros (? & ? & ? & ? & ? & _ & [= <-] & Hi & Hdw & _).
      rewrite Hint in Hi. injection Hi as <-.
      rewrite (day_window_none today offset e Hwf (or_introl H1)) in Hdw.
      discriminate Hdw. }
  destruct (minus_days_months today 1 (offset + 1)) as [d2|e] eqn:H2.
  2:{ split; [destruct e; discriminate|].
      intros (? & ? & ? & ? & ? & _ & [= <-] & Hi & Hdw & _).
      rewrite Hint in Hi. injection Hi as <-.
      rewrite (day_window_none today offset e Hwf (or_intror H2)) in Hdw.
      discriminate Hdw. }
  pose proof (day_window_dates today d1 d2 offset Hwf H1 H2) as Hdw.
  destruct (minus_days_months today 0 11) as [d3|e].
  2:{ split; [destruct e; discriminate|].
      intros (? & ? & ? & ? & ? & _ & _ & _ & _ & Hm & _).
      rewrite Hmw in Hm. discriminate Hm. }
  destruct (linky_get_data_per_month tok _ _) as [rm|e] eqn:Hgm.
  2:{ split; [destruct e; discriminate|].
      intros (? & ? & ? & ? & ? & [= <-] & _ & _ & _ & Hm & Hok & _).
      rewrite Hmw in Hm. injection Hm as <-. cbn [fst snd] in Hok.
      rewrite Hgm in Hok. discriminate Hok. }
  destruct (linky_get_data_per_day tok _ _) as [rd|e] eqn:Hgd.
  2:{ split; [destruct e; discriminate|].
      intros (? & ? & ? & ? & ? & [= <-] & [= <-] & Hi & Hd & _ & _ & Hok).
      rewrite Hint in Hi. injection Hi as <-.
      rewrite Hdw in Hd. injection Hd as <-. cbn [fst snd] in Hok.
      rewrite Hgd in Hok. discriminate Hok. }
  split.
  - intros _. exists tok, arg, offset, (dtostr d2, dtostr d1),
      (dtostr d3, dtostr today).
    cbn [fst snd]. rewrite Hgm, Hgd. repeat split; assumption.
  - intros _. destruct (export_days_values _ _ _ _); reflexivity.
Qed.

End Success.

Lemma run_succeeds_iff_witness :
  Delta.wf Run.today
  /\ exit_status (fst (Run.start_broken ["linky_month.py"; "0"]%string)) = 0
  /\ exit_status (fst (Run.start ["linky_month.py"; "x"]%string)) <> 0.
Proof.
  split; [exact run_today_wf|]. split.
  - apply (proj2 (run_succeeds_iff "user" "secret" "/tmp" Sample.no_float
                    Run.login Run.get_data Run.get_broken
                    ["linky_month.py"; "0"]%string Run.today Sample.empty_fs
                    run_today_wf)).
    exists "token"%string, "0"%string, 0,
      ("14/02/2024", "14/03/2024")%string, ("15/04/2023", "15/03/2024")%string.
    repeat split; reflexivity.
  - intros H.
    destruct (proj1 (run_succeeds_iff "user" "secret" "/tmp" Sample.no_float
                       Run.login Run.get_data Run.get_data
                       ["linky_month.py"; "x"]%string Run.today
                       Sample.empty_fs run_today_wf) H)
      as (? & ? & ? & ? & ? & _ & [= <-] & Hi & _).
    discriminate Hi.
Defined.
